(** * File converter: the batch conversion pipeline of [server.js]

    A shallow embedding of the request handlers of the converter
    (upload filter, [/api/convert], [/download/:id/:name]) and of the
    helpers they call, with the file system, the history and the log of
    calls to the outside world threaded as explicit state. *)

From Stdlib Require Import String Ascii List NArith Bool Lia QArith.
From stdpp Require Import base option list gmap strings pretty.

Local Open Scope string_scope.
Local Open Scope list_scope.

(** ** JavaScript strings

    A [string] is a sequence of 8-bit code units (multer hands
    [originalname] over in latin1). *)
Module JsString.

Definition truthy (s : string) : bool :=
  match s with
  | EmptyString => false
  | String _ _ => true
  end.

(** [a || b] on strings. *)
Definition or_else (a b : string) : string := if truthy a then a else b.

(** [String.prototype.toLowerCase] on code units below 256. *)
Definition lower_char (c : ascii) : ascii :=
  let n := N_of_ascii c in
  if ((65 <=? n) && (n <=? 90))%N
     || ((192 <=? n) && (n <=? 222) && negb (n =? 215))%N
  then ascii_of_N (n + 32)
  else c.

Fixpoint toLowerCase (s : string) : string :=
  match s with
  | EmptyString => EmptyString
  | String c s' => String (lower_char c) (toLowerCase s')
  end.

(** White space and line terminators of [String.prototype.trim] among
    the code units below 256: TAB, LF, VT, FF, CR, SP and NBSP. *)
Definition is_space (c : ascii) : bool :=
  let n := N_of_ascii c in
  ((9 <=? n) && (n <=? 13) || (n =? 32) || (n =? 160))%N.

Fixpoint trimStart (s : string) : string :=
  match s with
  | EmptyString => EmptyString
  | String c s' => if is_space c then trimStart s' else s
  end.

Fixpoint trimEnd (s : string) : string :=
  match s with
  | EmptyString => EmptyString
  | String c s' =>
      match trimEnd s' with
      | EmptyString => if is_space c then EmptyString else String c EmptyString
      | t => String c t
      end
  end.

Definition trim (s : string) : string := trimEnd (trimStart s).

Fixpoint startsWith (s p : string) : bool :=
  match p, s with
  | EmptyString, _ => true
  | String a p', String b s' => if Ascii.eqb a b then startsWith s' p' else false
  | String _ _, EmptyString => false
  end.

Fixpoint endsWith (s p : string) : bool :=
  String.eqb s p
  || match s with
     | EmptyString => false
     | String _ s' => endsWith s' p
     end.

(** [s.split(sep)] for a one-character separator. *)
Fixpoint split (sep : ascii) (s : string) : list string :=
  match s with
  | EmptyString => [EmptyString]
  | String c s' =>
      if Ascii.eqb c sep then EmptyString :: split sep s'
      else match split sep s' with
           | h :: t => String c h :: t
           | [] => [String c EmptyString]
           end
  end.

(** [parts.join(sep)]. *)
Fixpoint join (sep : string) (parts : list string) : string :=
  match parts with
  | [] => EmptyString
  | [p] => p
  | p :: rest => p +:+ sep +:+ join sep rest
  end.

(** [text.split(/\r?\n/)]: the lines of a text, a CR before the LF
    belonging to the separator. *)
Definition chomp_cr (line : string) : string :=
  if endsWith line (String "013" EmptyString) then substring 0 (String.length line - 1) line else line.

Fixpoint map_init {A} (f : A -> A) (l : list A) : list A :=
  match l with
  | [] => []
  | [x] => [x]
  | x :: rest => f x :: map_init f rest
  end.

Definition split_lines (text : string) : list string :=
  map_init chomp_cr (split "010" text).

(** The last code unit of a string. *)
Fixpoint last_char (s : string) : option ascii :=
  match s with
  | EmptyString => None
  | String c s' => match last_char s' with Some d => Some d | None => Some c end
  end.

(** [has_char c s]: the code unit [c] occurs in [s]. *)
Fixpoint has_char (c : ascii) (s : string) : bool :=
  match s with
  | EmptyString => false
  | String x s' => Ascii.eqb x c || has_char c s'
  end.

End JsString.

(** ** Node's [path] module, POSIX flavour

    The handlers call [path.extname], [path.basename], [path.join] and
    [path.resolve]; these follow the behaviour of [path.posix]. *)
Module NodePath.
Import JsString.

Definition sep : string := "/".

Definition nonempty (s : string) : bool := truthy s.

(** The last component of a path: trailing separators are skipped. *)
Definition last_component (p : string) : string :=
  List.last (List.filter nonempty (split "/" p)) EmptyString.

(** Cut a component at its last dot: [Some (stem, ext)], the extension
    starting with that dot. *)
Fixpoint split_ext (s : string) : option (string * string) :=
  match s with
  | EmptyString => None
  | String c s' =>
      match split_ext s' with
      | Some (stem, e) => Some (String c stem, e)
      | None => if Ascii.eqb c "." then Some (EmptyString, s) else None
      end
  end.

(** [path.extname]: empty when the component has no dot, when its only
    dot comes first, and for the component [..]. *)
Definition extname (p : string) : string :=
  let c := last_component p in
  match split_ext c with
  | Some (stem, e) =>
      if negb (truthy stem) || String.eqb c ".." then EmptyString else e
  | None => EmptyString
  end.

(** The separators a path ends with. *)
Fixpoint trailing_seps (p : string) : string :=
  match p with
  | EmptyString => EmptyString
  | String c p' =>
      let t := trailing_seps p' in
      if Ascii.eqb c "/" && String.eqb t p' then String c t else t
  end.

(** [path.basename(p, suffix)], for a suffix without separator (as
    [extname] returns them). The function compares the last component
    with the suffix from their ends: the component loses the suffix
    when it ends with it and is longer than it; when the comparison
    uses up the component before the suffix (also for a path of
    separators only, which has no component) the result runs to the
    end of the path, separators included; in all other cases it is
    the component. *)
Definition basename (p suffix : string) : string :=
  if truthy suffix && (String.length suffix <=? String.length p)%nat then
    if String.eqb suffix p then EmptyString
    else
      let c := last_component p in
      if endsWith c suffix && negb (String.eqb c suffix)
      then substring 0 (String.length c - String.length suffix) c
      else if endsWith suffix c && negb (String.eqb c suffix)
      then c +:+ trailing_seps p
      else c
  else last_component p.

(** [normalizeString]: drops empty and [.] segments, and lets [..]
    remove the segment before it; at the top, [..] is kept only when
    [allowAboveRoot]. The stack is kept in path order. *)
Definition norm_step (allowAboveRoot : bool) (acc : list string) (seg : string)
  : list string :=
  if String.eqb seg "" || String.eqb seg "." then acc
  else if String.eqb seg ".." then
    match List.rev acc with
    | top :: below =>
        if String.eqb top ".." then (if allowAboveRoot then acc ++ [seg] else acc)
        else List.rev below
    | [] => if allowAboveRoot then [seg] else []
    end
  else acc ++ [seg].

Definition norm_segs (allowAboveRoot : bool) (segs : list string) : list string :=
  List.fold_left (norm_step allowAboveRoot) segs [].

Definition normalizeString (p : string) (allowAboveRoot : bool) : string :=
  join "/" (norm_segs allowAboveRoot (split "/" p)).

Definition isAbsolute (p : string) : bool := startsWith p "/".

(** [path.normalize]. *)
Definition normalize (p : string) : string :=
  if negb (truthy p) then "."
  else
    let abs := isAbsolute p in
    let trailingSeparator := endsWith p "/" in
    let body := normalizeString p (negb abs) in
    if negb (truthy body) then
      if abs then "/" else if trailingSeparator then "./" else "."
    else
      (if abs then "/" else "") +:+ body +:+ (if trailingSeparator then "/" else "").

(** [path.join(...args)]: the non-empty arguments, joined by the
    separator and normalized. *)
Definition join_path (args : list string) : string :=
  match List.filter nonempty args with
  | [] => "."
  | parts => normalize (join "/" parts)
  end.

(** [path.resolve(...args)], from the right up to the first absolute
    argument; [cwd] is taken when none is absolute. *)
Fixpoint resolve_prefix (args : list string) : string * bool :=
  match args with
  | [] => (EmptyString, false)
  | a :: rest =>
      let '(r, abs) := resolve_prefix rest in
      if abs then (r, abs)
      else if negb (truthy a) then (r, abs)
      else (a +:+ "/" +:+ r, isAbsolute a)
  end.

Definition resolve (cwd : string) (args : list string) : string :=
  let '(r, abs) := resolve_prefix (cwd :: args) in
  let body := normalizeString r (negb abs) in
  if abs then "/" +:+ body
  else if truthy body then body else ".".

End NodePath.

Import JsString.

(** ** The outside world *)

Abbreviation bytes := (list Byte.byte).

(** The signature a PDF starts with, [%PDF]. *)
Definition pdf_magic : bytes := [Byte.x25; Byte.x50; Byte.x44; Byte.x46].

(** What an awaited promise rejects with, or a call throws. *)
Inductive Exn :=
| ENOENT (p : string)
| ENAMETOOLONG (p : string)
| EISDIR (p : string)
| TypeError (message : string)
| LibraryError (which : string).

(** What the server takes from its runtime and from third-party
    packages: the directory of [server.js], the UTF-8 codec of
    [Buffer], pdf-parse, mammoth, file-type, docx, archiver, nanoid,
    the clock and [encodeURIComponent]. The results of [nanoid] and
    [Date.now] are indexed by the number of draws made so far. *)
Class Env := {
  dirname : string;
  cwd : string;
  utf8_decode : bytes -> string;
  utf8_encode : string -> bytes;
  (** a four-byte buffer reads as [%PDF] exactly when it holds the four
      ASCII codes *)
  utf8_decode_magic :
    forall b : bytes, length b = 4%nat -> utf8_decode b = "%PDF" <-> b = pdf_magic;
  (** [pdfParse(buf)]: [None] when the promise rejects, otherwise
      [data.text], which may be undefined *)
  pdfParse : bytes -> option (option string);
  (** [mammoth.extractRawText]: [None] when it rejects, otherwise
      [value] *)
  extractRawText : bytes -> option (option string);
  (** [fileTypeFromFile]: the detected MIME type, if any *)
  fileType : bytes -> option string;
  (** [Packer.toBuffer] of a document with one paragraph per line *)
  packer : list string -> bytes;
  (** the archive holding the given entries, in order *)
  zip : list (string * bytes) -> bytes;
  nanoid : nat -> nat -> string;
  now : nat -> N;
  encodeURIComponent : string -> string;
  (** what [fsp.rename] rejects with when the disk refuses the new
      name of a file that is there, as it does for a name longer than
      [NAME_MAX] *)
  rename_rejects : string -> string -> option Exn;
  (** the directories of the disk; the handlers create and remove
      none, and the output folder is made when the server starts
      (lines 34-36) *)
  directory : string -> bool;
  directory_out :
    directory (NodePath.resolve cwd [NodePath.join_path [dirname; "converted"]]) = true
}.

(** Calls that leave the process, in the order they are made. *)
Inductive Event :=
| EvReadFile (p : string)            (* fsp.readFile(p) *)
| EvReadText (p : string)            (* fsp.readFile(p, 'utf8') *)
| EvOpen (p : string)                (* fsp.open(p, 'r') and the read of 4 bytes *)
| EvFileType (p : string)            (* fileTypeFromFile(p) *)
| EvPdfParse (p : string)            (* pdfParse of the buffer read from p *)
| EvMammoth (p : string)             (* mammoth.extractRawText({path: p}) *)
| EvPacker                           (* Packer.toBuffer *)
| EvWriteFile (p : string)           (* fsp.writeFile(p, ...) *)
| EvUnlink (p : string)              (* fsp.unlink(p) *)
| EvRename (p q : string)            (* fsp.rename(p, q) *)
| EvCreateWriteStream (p : string)   (* fs.createWriteStream(p) *)
| EvArchiveAppend (p name : string)  (* archive.append(fs.createReadStream(p), {name}) *)
| EvArchiveFinalize (p : string)     (* archive.finalize(), flushed to p *)
| EvExists (p : string)              (* fs.existsSync(p) *)
| EvSendFile (p : string).           (* res.download(p, ...) *)

Record HistoryEntry := {
  h_id : string;
  h_name : string;
  h_count : nat;
  h_target : string;
  h_time : N
}.

(** The state a request runs in: the files on disk, the in-memory
    history, the number of draws from [nanoid] and the clock, and the
    log of outside calls. *)
Record World := {
  fs : gmap string bytes;
  history : list HistoryEntry;
  draws : nat;
  log : list Event
}.

Definition set_fs (f : gmap string bytes -> gmap string bytes) (w : World) : World :=
  {| fs := f (fs w); history := history w; draws := draws w; log := log w |}.
Definition set_history (f : list HistoryEntry -> list HistoryEntry) (w : World) : World :=
  {| fs := fs w; history := f (history w); draws := draws w; log := log w |}.
Definition emit (e : Event) (w : World) : World :=
  {| fs := fs w; history := history w; draws := draws w; log := log w ++ [e] |}.
Definition drawn (w : World) : World :=
  {| fs := fs w; history := history w; draws := S (draws w); log := log w |}.

Inductive Res (A : Type) :=
| Ok (a : A)
| Throw (e : Exn).
Arguments Ok {A} a.
Arguments Throw {A} e.

(** Handler code: state passing, with exceptions that keep the state
    reached when they are thrown. *)
Definition M (A : Type) : Type := World -> Res A * World.

Definition ret {A} (a : A) : M A := fun w => (Ok a, w).
Definition throw {A} (e : Exn) : M A := fun w => (Throw e, w).
Definition bind {A B} (m : M A) (k : A -> M B) : M B :=
  fun w =>
    match m w with
    | (Ok a, w') => k a w'
    | (Throw e, w') => (Throw e, w')
    end.
Definition tell (e : Event) : M unit := fun w => (Ok tt, emit e w).
Definition get_fs : M (gmap string bytes) := fun w => (Ok (fs w), w).
Definition modify_fs (f : gmap string bytes -> gmap string bytes) : M unit :=
  fun w => (Ok tt, set_fs f w).

(** [try { body } catch { handler }] *)
Definition try_catch {A} (body : M A) (handler : Exn -> M A) : M A :=
  fun w =>
    match body w with
    | (Ok a, w') => (Ok a, w')
    | (Throw e, w') => handler e w'
    end.

(** [try { body } finally { fin }]: [fin] runs on every way out of
    [body], whose result or exception is kept. *)
Definition try_finally {A} (body : M A) (fin : M unit) : M A :=
  fun w =>
    let '(r, w') := body w in
    match fin w' with
    | (Ok _, w'') => (r, w'')
    | (Throw e, w'') => (Throw e, w'')
    end.

Declare Scope js_scope.
Delimit Scope js_scope with js.
Notation "x <- m ;; k" := (bind m (fun x => k))
  (at level 100, m at next level, right associativity) : js_scope.
Notation "m ;; k" := (bind m (fun _ => k))
  (at level 100, right associativity) : js_scope.
Local Open Scope js_scope.

(** [for (const x of xs) acc = body(x, acc)] *)
Fixpoint for_of {A S} (body : A -> S -> M S) (xs : list A) (acc : S) : M S :=
  match xs with
  | [] => ret acc
  | x :: rest => acc' <- body x acc ;; for_of body rest acc'
  end.

(** [await Promise.all(xs.map(f))], the calls starting in order. *)
Fixpoint promise_all {A B} (f : A -> M B) (xs : list A) : M (list B) :=
  match xs with
  | [] => ret []
  | x :: rest => b <- f x ;; bs <- promise_all f rest ;; ret (b :: bs)
  end.

(** *** File system primitives

    The disk is a finite map from the paths of its files to their
    contents, with the directories beside it: a write always succeeds,
    while reading, unlinking or renaming an absent path rejects with
    [ENOENT], and a rename is also rejected when the disk refuses the
    new name. *)

Definition readFile (p : string) : M bytes :=
  tell (EvReadFile p) ;;
  files <- get_fs ;;
  match files !! p with
  | Some content => ret content
  | None => throw (ENOENT p)
  end.

Definition writeFile (p : string) (data : bytes) : M unit :=
  tell (EvWriteFile p) ;;
  modify_fs (insert p data).

Definition unlink (p : string) : M unit :=
  tell (EvUnlink p) ;;
  files <- get_fs ;;
  match files !! p with
  | Some _ => modify_fs (delete p)
  | None => throw (ENOENT p)
  end.

Definition rename `{Env} (p q : string) : M unit :=
  tell (EvRename p q) ;;
  files <- get_fs ;;
  match files !! p with
  | Some content =>
      match rename_rejects p q with
      | Some e => throw e
      | None => modify_fs (fun m => <[q := content]> (delete p m))
      end
  | None => throw (ENOENT p)
  end.

(** [fs.existsSync]: true for a file and for a directory. *)
Definition existsSync `{Env} (p : string) : M bool :=
  tell (EvExists p) ;;
  files <- get_fs ;;
  ret (bool_decide (is_Some (files !! p)) || directory p).

(** ** [server.js] *)

(** A file stored by multer: the name the client gave it and the path
    it was saved under. *)
Record UploadedFile := {
  originalname : string;
  path : string
}.

(** An element of [outputs]: [{ err }] or [{ path, name }]. *)
Inductive Output :=
| Failure (err : string)
| Success (o_path o_name : string).

Inductive Body :=
| JsonError (error : string)          (* { ok: false, error } *)
| JsonUrl (url : string)              (* { ok: true, url } *)
| SendText (text : string)
| SendFile (file name : string).

Record Response := {
  status : nat;
  body : Body
}.

Definition allowedExt : list string :=
  [".pdf"; ".docx"; ".txt"; ".png"; ".jpg"; ".jpeg"; ".bmp"; ".tif"; ".tiff"].

Definition includes (l : list string) (x : string) : bool :=
  existsb (String.eqb x) l.

Definition isImageExt (ext : string) : bool :=
  includes [".png"; ".jpg"; ".jpeg"; ".bmp"; ".tif"; ".tiff"] ext.

(** multer's [fileFilter] (lines 79-85): [true] when the upload is
    taken. *)
Definition fileFilter (originalname : string) : bool :=
  let ext := toLowerCase (NodePath.extname originalname) in
  includes allowedExt ext.

Definition mime_zip : string := "application/zip".
Definition mime_docx : string :=
  "application/vnd.openxmlformats-officedocument.wordprocessingml.document".

(** [addHistory] (lines 170-173):
    [history.push(entry); while (history.length > 100) history.shift()] *)
Definition addHistory (entry : HistoryEntry) : M unit :=
  fun w =>
    (Ok tt, set_history (fun h => let h' := h ++ [entry] in drop (length h' - 100) h') w).

Section Server.
Context `{Env}.

Definition UPLOAD_DIR : string := NodePath.join_path [dirname; "uploads"].
Definition OUT_DIR : string := NodePath.join_path [dirname; "converted"].

Definition draw_nanoid (size : nat) : M string :=
  fun w => (Ok (nanoid size (draws w)), drawn w).

Definition date_now : M N :=
  fun w => (Ok (now (draws w)), drawn w).

(** [fsp.readFile(p, 'utf8')] *)
Definition readFileUtf8 (p : string) : M string :=
  tell (EvReadText p) ;;
  files <- get_fs ;;
  match files !! p with
  | Some content => ret (utf8_decode content)
  | None => throw (ENOENT p)
  end.

(** Lines 90-97. *)
Definition removeIfExists (p : string) : M bool :=
  try_catch (unlink p ;; ret true) (fun _ => ret false).

(** Lines 99-104. *)
Definition toTxtFromPdf (filePath : string) : M string :=
  buf <- readFile filePath ;;
  tell (EvPdfParse filePath) ;;
  match pdfParse buf with
  | Some data_text => ret (trim (or_else (default "" data_text) ""))
  | None => throw (LibraryError "pdf-parse")
  end.

(** Lines 106-109; mammoth reads the file itself. *)
Definition toTxtFromDocx (filePath : string) : M string :=
  tell (EvMammoth filePath) ;;
  files <- get_fs ;;
  match files !! filePath with
  | None => throw (ENOENT filePath)
  | Some content =>
      match extractRawText content with
      | Some value => ret (trim (or_else (default "" value) ""))
      | None => throw (LibraryError "mammoth")
      end
  end.

(** Lines 111-115. *)
Definition txtToDocxBuffer (text : string) : M bytes :=
  tell EvPacker ;;
  ret (packer (split_lines text)).

(** Four bytes of a zero-filled buffer, overwritten by what the file
    holds at offset 0. *)
Definition read4 (content : bytes) : bytes :=
  take 4 (content ++ replicate 4 Byte.x00).

(** Lines 118-128. *)
Definition isPdfFile (filePath : string) : M bool :=
  try_catch
    (tell (EvOpen filePath) ;;
     files <- get_fs ;;
     match files !! filePath with
     | None => throw (ENOENT filePath)
     | Some content => ret (String.eqb (utf8_decode (read4 content)) "%PDF")
     end)
    (fun _ => ret false).

(** [buf.includes(0)] *)
Definition includes_zero (buf : bytes) : bool :=
  existsb (Byte.eqb Byte.x00) buf.

(** Lines 176-183. *)
Definition looksLikeText (filePath : string) : M bool :=
  try_catch
    (buf <- readFile filePath ;; ret (negb (includes_zero buf)))
    (fun _ => ret false).

(** Lines 185-188: [fileTypeFromFile(filePath).catch(() => null)],
    then [ft ? ft.mime : null]. *)
Definition detectMime (filePath : string) : M (option string) :=
  tell (EvFileType filePath) ;;
  files <- get_fs ;;
  match files !! filePath with
  | None => ret None
  | Some content => ret (fileType content)
  end.

(** Line 220:
    [m && m !== 'application/zip' && m !== '...wordprocessingml.document'] *)
Definition mime_rejected (m : option string) : bool :=
  match m with
  | None => false
  | Some m => truthy m && negb (String.eqb m mime_zip) && negb (String.eqb m mime_docx)
  end.

(** Where the chain of source kinds leaves the loop body: at a
    [continue], or at the code after the chain with [text] set. *)
Inductive Flow :=
| Continue (outputs : list Output)
| Proceed (outputs : list Output) (text : string).

(** The chain [if (ext === ".pdf") ... else if (isImageExt(ext)) ...],
    which the handler spells out once per target (lines 227-249 and
    255-274); the two copies differ in the label of the last message
    only. The image branch pushes its failure and, having no
    [continue], goes on with the empty [text]. *)
Definition read_source (label ext : string) (uploaded : UploadedFile)
    (outputs : list Output) : M Flow :=
  if String.eqb ext ".pdf" then
    is_pdf <- isPdfFile (path uploaded) ;;
    if negb is_pdf then
      ret (Continue (outputs ++ [Failure ("Invalid PDF file: " +:+ originalname uploaded)]))
    else
      text <- toTxtFromPdf (path uploaded) ;;
      if negb (truthy text) then
        ret (Continue (outputs ++
               [Failure ("No text extracted (likely scanned PDF): " +:+ originalname uploaded)]))
      else ret (Proceed outputs text)
  else if String.eqb ext ".docx" then
    text <- toTxtFromDocx (path uploaded) ;;
    ret (Proceed outputs text)
  else if String.eqb ext ".txt" then
    text <- readFileUtf8 (path uploaded) ;;
    ret (Proceed outputs text)
  else if isImageExt ext then
    ret (Proceed (outputs ++ [Failure ("OCR not enabled for images: " +:+ originalname uploaded)])
           "")
  else
    ret (Continue (outputs ++
           [Failure ("Unsupported source for " +:+ label +:+ ": " +:+ originalname uploaded)])).

(** The light MIME/structure checks at the top of the loop body (lines
    213-224): [Some o] when the file is refused with [o]. *)
Definition precheck (ext : string) (uploaded : UploadedFile) : M (option Output) :=
  if String.eqb ext ".txt" then
    is_text <- looksLikeText (path uploaded) ;;
    if negb is_text then
      ret (Some (Failure ("Not a text file: " +:+ originalname uploaded)))
    else ret None
  else if String.eqb ext ".docx" then
    m <- detectMime (path uploaded) ;;
    if mime_rejected m then
      ret (Some (Failure ("Not a DOCX file: " +:+ originalname uploaded)))
    else ret None
  else ret None.

(** The body of [for (const uploaded of files)] (lines 209-282), from
    [outputs] before the turn to [outputs] after it. *)
Definition convert_file (target : string) (uploaded : UploadedFile)
    (outputs : list Output) : M (list Output) :=
  let ext := toLowerCase (NodePath.extname (originalname uploaded)) in
  let base := NodePath.basename (originalname uploaded) ext in
  refused <- precheck ext uploaded ;;
  match refused with
  | Some o => ret (outputs ++ [o])
  | None =>
      if String.eqb target "txt" then
        flow <- read_source "TXT" ext uploaded outputs ;;
        match flow with
        | Continue outputs => ret outputs
        | Proceed outputs text =>
            let outPath := NodePath.join_path [OUT_DIR; base +:+ ".txt"] in
            writeFile outPath (utf8_encode text) ;;
            ret (outputs ++ [Success outPath (base +:+ ".txt")])
        end
      else if String.eqb target "docx" then
        flow <- read_source "DOCX" ext uploaded outputs ;;
        match flow with
        | Continue outputs => ret outputs
        | Proceed outputs text =>
            buffer <- txtToDocxBuffer text ;;
            let outPath := NodePath.join_path [OUT_DIR; base +:+ ".docx"] in
            writeFile outPath buffer ;;
            ret (outputs ++ [Success outPath (base +:+ ".docx")])
        end
      else ret (outputs ++ [Failure ("Unsupported target: " +:+ target)])
  end.

(** Line 285, [outputs.filter(o => o.path)]: the entries with a path,
    as [(path, name)]. *)
Definition has_path (o : Output) : option (string * string) :=
  match o with
  | Success p name => if truthy p then Some (p, name) else None
  | Failure _ => None
  end.

Definition okItems_of (outputs : list Output) : list (string * string) :=
  omap has_path outputs.

(** Line 287, [outputs.find(o => o.err)?.err || 'Conversion failed'] *)
Definition has_err (o : Output) : bool :=
  match o with
  | Failure e => truthy e
  | Success _ _ => false
  end.

Definition firstErr (outputs : list Output) : string :=
  match List.find has_err outputs with
  | Some (Failure e) => or_else e "Conversion failed"
  | _ => "Conversion failed"
  end.

Definition json_error (code : nat) (msg : string) : Response :=
  {| status := code; body := JsonError msg |}.

Definition json_url (url : string) : Response :=
  {| status := 200; body := JsonUrl url |}.

(** The archive of the successful outputs (lines 302-310), written to
    [zipTemp]: the stream is opened, every item is read and appended
    under its name, and the archive is flushed. *)
Definition archive_append (item : string * string) : M (string * bytes) :=
  tell (EvArchiveAppend item.1 item.2) ;;
  files <- get_fs ;;
  match files !! item.1 with
  | Some content => ret (item.2, content)
  | None => throw (ENOENT item.1)
  end.

Definition make_zip (zipTemp : string) (okItems : list (string * string)) : M unit :=
  tell (EvCreateWriteStream zipTemp) ;;
  modify_fs (insert zipTemp []) ;;
  entries <- promise_all archive_append okItems ;;
  tell (EvArchiveFinalize zipTemp) ;;
  modify_fs (insert zipTemp (zip entries)).

(** The part of the handler after the loop (lines 285-319). *)
Definition respond (target : string) (outputs : list Output) : M Response :=
  let okItems := okItems_of outputs in
  match okItems with
  | [] => ret (json_error 422 (firstErr outputs))
  | [(one_path, one_name)] =>
      downloadId <- draw_nanoid 10 ;;
      let mappedPath := NodePath.join_path [OUT_DIR; downloadId +:+ "-" +:+ one_name] in
      rename one_path mappedPath ;;
      t <- date_now ;;
      addHistory {| h_id := downloadId; h_name := one_name; h_count := 1;
                    h_target := target; h_time := t |} ;;
      ret (json_url ("/download/" +:+ downloadId +:+ "/" +:+ encodeURIComponent one_name))
  | _ =>
      t0 <- date_now ;;
      let zipName := "converted-" +:+ pretty t0 +:+ ".zip" in
      let zipTemp := NodePath.join_path [OUT_DIR; zipName] in
      make_zip zipTemp okItems ;;
      promise_all (fun i => removeIfExists i.1) okItems ;;
      downloadId <- draw_nanoid 10 ;;
      let mappedPath := NodePath.join_path [OUT_DIR; downloadId +:+ "-" +:+ zipName] in
      rename zipTemp mappedPath ;;
      t <- date_now ;;
      addHistory {| h_id := downloadId; h_name := zipName; h_count := length okItems;
                    h_target := target; h_time := t |} ;;
      ret (json_url ("/download/" +:+ downloadId +:+ "/" +:+ encodeURIComponent zipName))
  end.

(** The [finally] block (lines 323-326):
    [f?.path ? removeIfExists(f.path) : null]. *)
Definition cleanup_uploads (files : list UploadedFile) : M unit :=
  promise_all
    (fun f => if truthy (path f) then removeIfExists (path f) else ret false) files ;;
  ret tt.

(** Line 203, [(req.body?.target || "txt").toLowerCase()] *)
Definition target_of (req_target : option string) : string :=
  toLowerCase (or_else (default "" req_target) "txt").

(** [app.post("/api/convert", ...)] (lines 202-327), on the files
    multer stored and the [target] field of the form when it is
    absent or one string. *)
Definition convert (req_target : option string) (files : list UploadedFile)
  : M Response :=
  let target := target_of req_target in
  match files with
  | [] => ret (json_error 400 "No file uploaded")
  | _ =>
      try_finally
        (try_catch
           (outputs <- for_of (convert_file target) files [] ;;
            respond target outputs)
           (fun _ => ret (json_error 500 "Conversion failed")))
        (cleanup_uploads files)
  end.

(** What multer puts in [req.body] for a field of the form: nothing,
    one string, an array of strings when the field is sent more than
    once, or an object when it is sent with bracketed keys. *)
Inductive Field :=
| Absent
| Text (value : string)
| Repeated (values : list string)
| Keyed (keys : list string).

(** The handler on the request as multer hands it over; [convert] is
    the handler for a target that is absent or one string. Line 203
    stands before the [try] block: an array and an object are truthy
    and have no [toLowerCase], so the call throws there, before the
    handler has answered and outside of the [finally] block. A run
    of a handler that ends with [Throw] sends no answer. *)
Definition post_convert (target : Field) (files : list UploadedFile) : M Response :=
  match target with
  | Absent => convert None files
  | Text value => convert (Some value) files
  | Repeated _ | Keyed _ => throw (TypeError "toLowerCase is not a function")
  end.

(** [app.get("/download/:id/:name", ...)] (lines 329-341). For a
    directory, [res.download] hands [EISDIR] to its callback, which
    logs it: the handler sends no answer, and its run ends with that
    error. *)
Definition download (id name : string) : M Response :=
  let safeBase := NodePath.resolve cwd [OUT_DIR] in
  let candidate := NodePath.resolve cwd [OUT_DIR; id +:+ "-" +:+ name] in
  if negb (startsWith candidate (safeBase +:+ NodePath.sep))
     && negb (String.eqb candidate safeBase)
  then ret {| status := 400; body := SendText "Bad path" |}
  else
    found <- existsSync candidate ;;
    if negb found then ret {| status := 404; body := SendText "Not found" |}
    else
      tell (EvSendFile candidate) ;;
      files <- get_fs ;;
      match files !! candidate with
      | Some _ => ret {| status := 200; body := SendFile candidate name |}
      | None => throw (EISDIR candidate)
      end.

(** *** Vocabulary of the statements *)

(** The extension and the base name the loop body computes. *)
Definition ext_of (uploaded : UploadedFile) : string :=
  toLowerCase (NodePath.extname (originalname uploaded)).

Definition base_of (uploaded : UploadedFile) : string :=
  NodePath.basename (originalname uploaded) (ext_of uploaded).

(** Name and path of the output of a conversion to [target], which is
    [txt] or [docx]. *)
Definition out_name (target : string) (uploaded : UploadedFile) : string :=
  base_of uploaded +:+ "." +:+ target.

Definition out_path (target : string) (uploaded : UploadedFile) : string :=
  NodePath.join_path [OUT_DIR; out_name target uploaded].

(** The calls that build an archive. *)
Definition is_archive_event (e : Event) : bool :=
  match e with
  | EvCreateWriteStream _ | EvArchiveAppend _ _ | EvArchiveFinalize _ => true
  | _ => false
  end.

(** The calls that extract text from a source or encode an output. *)
Definition is_conversion_event (e : Event) : bool :=
  match e with
  | EvReadText _ | EvPdfParse _ | EvMammoth _ | EvPacker | EvWriteFile _ => true
  | _ => false
  end.

(** Containment of normalized absolute paths, segment by segment. *)
Definition segments (p : string) : list string :=
  List.filter NodePath.nonempty (split "/" p).

Definition inside (dir p : string) : Prop :=
  exists rest, segments p = segments dir ++ rest.


(** The paths the [finally] block unlinks. *)
Definition unlinked (files : list UploadedFile) : list string :=
  List.map path (List.filter (fun f => truthy (path f)) files).

(** The item a successful conversion of [uploaded] to [target] leaves
    in [outputs]. *)
Definition item_of (target : string) (files : list UploadedFile)
    (item : string * string) : Prop :=
  exists uploaded,
    In uploaded files
    /\ item = (out_path target uploaded, out_name target uploaded)
    /\ (target = "txt" \/ target = "docx").

(** A stretch of the loop, from one point of the run (the [outputs]
    so far and the world) to a later one: over a list of files, and
    over one file that is converted and adds its item. *)
Definition runs (target : string) (files : list UploadedFile)
    (start stop : list Output * World) : Prop :=
  for_of (convert_file target) files start.1 start.2 = (Ok stop.1, stop.2).

Definition converts (target : string) (uploaded : UploadedFile)
    (start stop : list Output * World) : Prop :=
  convert_file target uploaded start.1 start.2 = (Ok stop.1, stop.2)
  /\ length (okItems_of stop.1) = S (length (okItems_of start.1)).

(** A stretch of the log in which no archive is built. *)
Definition no_archive (l : list Event) : Prop :=
  Forall (fun e => is_archive_event e = false) l.

(** The bytes of an output that holds [text] (lines 251 and 275-277),
    the text the handler extracts from an upload of extension [ext]
    holding [content] (lines 227-249 and 255-274), if it extracts
    one, and with them the bytes that the conversion of an upload
    writes, as a function of what the upload holds. *)
Definition encoded (target text : string) : bytes :=
  if String.eqb target "txt" then utf8_encode text else packer (split_lines text).

Definition extracted (ext : string) (content : option bytes) : option string :=
  if String.eqb ext ".pdf" then
    buf ← content;
    if String.eqb (utf8_decode (read4 buf)) "%PDF" then
      data_text ← pdfParse buf;
      let text := trim (or_else (default "" data_text) "") in
      if truthy text then Some text else None
    else None
  else if String.eqb ext ".docx" then
    buf ← content;
    value ← extractRawText buf;
    Some (trim (or_else (default "" value) ""))
  else if String.eqb ext ".txt" then utf8_decode <$> content
  else if isImageExt ext then Some ""
  else None.

Definition output_of (target : string) (uploaded : UploadedFile) (w : World)
  : option bytes :=
  encoded target <$> extracted (ext_of uploaded) (fs w !! path uploaded).

(** What one turn of the loop can do: it throws or records one
    failure, leaving the disk as it was, or it writes the output of the
    file and records it, after the failure of an image if it is one. *)
Definition turn_result (target : string) (uploaded : UploadedFile)
    (outputs : list Output) (w : World) (r : Res (list Output)) (w' : World) : Prop :=
  (exists e, r = Throw e /\ fs w' = fs w)
  \/ (exists m, r = Ok (outputs ++ [Failure m]) /\ truthy m = true /\ fs w' = fs w)
  \/ (exists pre b,
        (target = "txt" \/ target = "docx")
        /\ r = Ok (outputs ++ pre ++
                     [Success (out_path target uploaded) (out_name target uploaded)])
        /\ (pre = [] \/ exists m, pre = [Failure m] /\ truthy m = true)
        /\ fs w' = <[out_path target uploaded := b]> (fs w)).

End Server.

(** ** A runtime to run the handlers on

    Its codec maps bytes to code units one to one, which is what UTF-8
    does on ASCII content; its parsers read the text that follows a
    five-byte PDF header, or the [PK] signature of a ZIP container. *)
Module Sample.

Fixpoint starts_with (b header : bytes) : bool :=
  match header, b with
  | [], _ => true
  | h :: header', x :: b' => Byte.eqb h x && starts_with b' header'
  | _ :: _, [] => false
  end.

Definition PK : bytes := [Byte.x50; Byte.x4b].

Definition sample_pdfParse (b : bytes) : option (option string) :=
  if (length b <? 5)%nat then None
  else Some (Some (string_of_list_byte (drop 5 b))).

Definition sample_extractRawText (b : bytes) : option (option string) :=
  if starts_with b PK then Some (Some (string_of_list_byte (drop 2 b))) else None.

Definition sample_fileType (b : bytes) : option string :=
  if starts_with b PK then Some mime_zip
  else if starts_with b pdf_magic then Some "application/pdf"
  else None.

Definition sample_zip (entries : list (string * bytes)) : bytes :=
  List.concat
    (List.map (fun e => list_byte_of_string (fst e) ++ [Byte.x00] ++ snd e ++ [Byte.x00])
       entries).

Definition env : Env.
Proof.
  refine {|
    dirname := "/srv/app";
    cwd := "/srv/app";
    utf8_decode := string_of_list_byte;
    utf8_encode := list_byte_of_string;
    utf8_decode_magic := _;
    pdfParse := sample_pdfParse;
    extractRawText := sample_extractRawText;
    fileType := sample_fileType;
    packer := fun lines => list_byte_of_string (JsString.join "|" lines);
    zip := sample_zip;
    nanoid := fun _ n => "id" +:+ pretty n;
    now := fun n => (1700000000000 + N.of_nat n)%N;
    encodeURIComponent := fun s => s;
    rename_rejects := fun _ q =>
      if (255 <? String.length (NodePath.last_component q))%nat
      then Some (ENAMETOOLONG q) else None;
    directory := fun p =>
      includes ["/"; "/srv"; "/srv/app"; "/srv/app/converted";
                "/srv/app/uploads"; "/srv/app/public"] p;
    directory_out := _
  |}.
  - intros b _. split.
    + intros Hd. rewrite <- (list_byte_of_string_of_list_byte b), Hd. reflexivity.
    + intros ->. reflexivity.
  - reflexivity.
Defined.

Definition disk (entries : list (string * string)) : World :=
  {| fs := list_to_map (List.map (fun e => (fst e, list_byte_of_string (snd e))) entries);
     history := [];
     draws := 0;
     log := [] |}.

Definition upload (name stored : string) : UploadedFile :=
  {| originalname := name; path := "/srv/app/uploads/" +:+ stored |}.

(** A batch of two uploads with the base name [a], and the worlds the
    loop goes through on it. *)
Definition a_txt : UploadedFile := upload "a.txt" "8-h.txt".
Definition a_pdf : UploadedFile := upload "a.pdf" "9-i.pdf".
Definition a_disk : World :=
  disk [("/srv/app/uploads/8-h.txt", "one"); ("/srv/app/uploads/9-i.pdf", "%PDF-two")].
Definition a_item : Output := Success "/srv/app/converted/a.txt" "a.txt".
Definition after_a_txt : World := (@convert_file env "txt" a_txt [] a_disk).2.
Definition after_a_pdf : World := (@convert_file env "txt" a_pdf [a_item] after_a_txt).2.

End Sample.

(** ** The rest of [server.js] and the check of [public/main.js] *)

(** *** The in-memory history (lines 168-173, 343-346) *)

(** [while (history.length > 100) history.shift()] *)
Fixpoint shift_excess (history : list HistoryEntry) : list HistoryEntry :=
  match history with
  | [] => []
  | _ :: rest => if (100 <? length history)%nat then shift_excess rest else history
  end.

(** [addHistory] with its loop as written: the entry is pushed, then the
    oldest entries are shifted out one by one. *)
Definition addHistory_loop (entry : HistoryEntry) : M unit :=
  fun w => (Ok tt, set_history (fun h => shift_excess (h ++ [entry])) w).

(** [a.slice(-n)] *)
Definition slice_last {A} (n : nat) (a : list A) : list A :=
  drop (length a - n) a.

(** The [items] that [app.get('/api/history')] answers with:
    [history.slice(-100).slice().reverse()]. *)
Definition history_items (w : World) : list HistoryEntry :=
  List.rev (slice_last 100 (history w)).

(** The world after the entries have been recorded, oldest first. *)
Definition record_all (entries : list HistoryEntry) (w : World) : World :=
  List.fold_left (fun w entry => (addHistory entry w).2) entries w.

(** *** The retention sweeper (lines 130-166) *)

(** What [fsp.stat] tells about a path: [st.isFile()] and [st.mtimeMs],
    a JavaScript number read as the rational it denotes (the
    subtraction of two time stamps of the same era is exact). *)
Record Stat := {
  isFile : bool;
  mtimeMs : Q
}.

(** What the sweeper asks the disk besides the contents: the names
    [fsp.readdir] lists in a directory and the answer of [fsp.stat] for
    a path, [None] when the promise rejects. *)
Record DirView := {
  readdir : string -> option (list string);
  stat : string -> option Stat
}.

(** [st.isFile() && now - st.mtimeMs > ttlMs] *)
Definition expired_stat (now : N) (ttlMs : Q) (st : Stat) : bool :=
  isFile st && negb (Qle_bool (inject_Z (Z.of_N now) - mtimeMs st) ttlMs).

(** [TTL_MS = TTL_MINUTES * 60 * 1000], for a setting that [parseInt]
    reads as a number *)
Definition TTL_MS (ttl_minutes : Z) : Q := inject_Z (ttl_minutes * 60 * 1000).

Section Sweeper.
Context `{Env}.
Variable view : DirView.

(** The function mapped over the entries: the inner [try] block swallows
    what [stat] and [unlink] reject with. *)
Definition sweep_entry (now : N) (dir : string) (ttlMs : Q) (name : string) : M unit :=
  let p := NodePath.join_path [dir; name] in
  try_catch
    (match stat view p with
     | None => throw (ENOENT p)
     | Some st => if expired_stat now ttlMs st then unlink p else ret tt
     end)
    (fun _ => ret tt).

(** [cleanupOldFiles(dir, ttlMs)]; the clock is read once, after the
    directory has been listed. *)
Definition cleanupOldFiles (dir : string) (ttlMs : Q) : M unit :=
  try_catch
    (match readdir view dir with
     | None => throw (ENOENT dir)
     | Some entries =>
         now <- date_now ;;
         promise_all (sweep_entry now dir ttlMs) entries ;;
         ret tt
     end)
    (fun _ => ret tt).

(** A path that a sweep of [dir] at time [now] finds to be a regular
    file older than [ttlMs]. *)
Definition swept (now : N) (dir : string) (ttlMs : Q) (q : string) : Prop :=
  exists entries name st,
    readdir view dir = Some entries
    /\ In name entries
    /\ q = NodePath.join_path [dir; name]
    /\ stat view q = Some st
    /\ isFile st = true
    /\ (ttlMs < inject_Z (Z.of_N now) - mtimeMs st)%Q.

End Sweeper.

(** *** The name multer stores an upload under (lines 66-73) *)

(** [`${Date.now()}-${id}${ext}`], for the clock reading and the
    identifier drawn. *)
Definition stored_filename (now : N) (id originalname : string) : string :=
  let ext := or_else (NodePath.extname originalname) "" in
  pretty now +:+ "-" +:+ id +:+ ext.

Section Storage.
Context `{Env}.

(** Where multer's disk storage puts the upload,
    [path.join(destination, filename)], the destination being
    [UPLOAD_DIR] (line 67). *)
Definition upload_path (now : N) (id originalname : string) : string :=
  NodePath.join_path [UPLOAD_DIR; stored_filename now id originalname].

End Storage.

(** *** The check of the page before it submits ([public/main.js],
    lines 8 and 26-34) *)

Definition ALLOWED : list string := ["pdf"; "docx"; "txt"].

(** [lower.includes('.') ? lower.split('.').pop() : ''] *)
Definition client_ext (name : string) : string :=
  let lower := toLowerCase name in
  if has_char "." lower then List.last (split "." lower) "" else "".

(** [ALLOWED.has(ext)] *)
Definition client_allows (name : string) : bool :=
  includes ALLOWED (client_ext name).

(** *** Vocabulary of the further statements *)

(** A name that is one path segment and is neither [.] nor [..]. *)
Definition plain_segment (x : string) : Prop :=
  has_char "/" x = false /\ (3 <= String.length x)%nat.

(** The messages the loop body records for a file whose kind it
    handles. *)
Definition handled_failure (uploaded : UploadedFile) (target m : string) : Prop :=
  m = "Not a text file: " +:+ originalname uploaded
  \/ m = "Not a DOCX file: " +:+ originalname uploaded
  \/ m = "Invalid PDF file: " +:+ originalname uploaded
  \/ m = "No text extracted (likely scanned PDF): " +:+ originalname uploaded
  \/ m = "OCR not enabled for images: " +:+ originalname uploaded
  \/ m = "Unsupported target: " +:+ target.

Section Answers.
Context `{Env}.

(** The link of a successful answer (lines 298 and 319), from the
    entry recorded with it. *)
Definition link_of (entry : HistoryEntry) : string :=
  "/download/" +:+ h_id entry +:+ "/" +:+ encodeURIComponent (h_name entry).

(** The loop of the handler on a request. *)
Definition loop_of (req_target : option string) (files : list UploadedFile)
  : M (list Output) :=
  for_of (convert_file (target_of req_target)) files [].

(** The target field when the handler can read it: absent, or one
    string. *)
Definition field_text (target : Field) : option (option string) :=
  match target with
  | Absent => Some None
  | Text value => Some (Some value)
  | Repeated _ | Keyed _ => None
  end.

(** The rename that publishes the outputs of a request whose loop
    ended in [w1] with [items], as source and destination: of the one
    output under the id drawn for it (lines 292-295), or of the
    archive (lines 300-301 and 313-316); and what the disk rejects
    it with, if it does. *)
Definition promotion (items : list (string * string)) (w1 : World) : string * string :=
  match items with
  | [(p, name)] =>
      (p, NodePath.join_path [OUT_DIR; nanoid 10 (draws w1) +:+ "-" +:+ name])
  | _ =>
      let zipName := "converted-" +:+ pretty (now (draws w1)) +:+ ".zip" in
      (NodePath.join_path [OUT_DIR; zipName],
       NodePath.join_path [OUT_DIR; nanoid 10 (S (draws w1)) +:+ "-" +:+ zipName])
  end.

Definition promotion_rejected (items : list (string * string)) (w1 : World)
  : option Exn :=
  rename_rejects (promotion items w1).1 (promotion items w1).2.

(** The refusal that the loop records for a file when the target is
    neither [txt] nor [docx]: that of the check of its kind (lines
    213-224) when the check refuses it, else that of the target (line
    280). *)
Definition refusal (target : string) (uploaded : UploadedFile) (w : World) : string :=
  if String.eqb (ext_of uploaded) ".txt" then
    if match fs w !! path uploaded with
       | Some buf => negb (includes_zero buf)
       | None => false
       end
    then "Unsupported target: " +:+ target
    else "Not a text file: " +:+ originalname uploaded
  else if String.eqb (ext_of uploaded) ".docx"
          && mime_rejected (fs w !! path uploaded ≫= fileType)
  then "Not a DOCX file: " +:+ originalname uploaded
  else "Unsupported target: " +:+ target.

End Answers.

(** A segment that [normalizeString] keeps as it is, and the absolute
    path made of a list of segments. *)
Definition clean_segment (s : string) : Prop :=
  has_char "/" s = false /\ s <> "" /\ s <> "." /\ s <> "..".

Definition abs_of (segs : list string) : string := "/" +:+ join "/" segs.

Section Serving.
Context `{Env}.

(** Where the file of a recorded entry is kept (lines 295 and 316),
    and the answer that sends it under its name (line 337). *)
Definition served_path (entry : HistoryEntry) : string :=
  NodePath.join_path [OUT_DIR; h_id entry +:+ "-" +:+ h_name entry].

Definition sends (entry : HistoryEntry) : Response :=
  {| status := 200; body := SendFile (served_path entry) (h_name entry) |}.

(** The ids the packaging can draw for a request that starts in [w]
    (the first draw when one output is renamed, the second when an
    archive is built) hold no separator; those of nanoid are made of
    letters, digits, [_] and [-]. *)
Definition ids_plain (w : World) : Prop :=
  has_char "/" (nanoid 10 (draws w)) = false
  /\ has_char "/" (nanoid 10 (S (draws w))) = false.

(** What the file served for a batch holds: the one output as the
    loop left it, or the archive of the outputs, one entry per item
    and in their order. *)
Definition packaged (outputs : list Output) (w1 : World) (content : bytes) : Prop :=
  match okItems_of outputs with
  | [(p, _)] => fs w1 !! p = Some content
  | items =>
      exists entries,
        content = zip entries
        /\ Forall2 (fun item entry => entry.1 = item.2 /\ fs w1 !! item.1 = Some entry.2)
             items entries
  end.

(** The paths the packaging of [items] writes or leaves on its way,
    for a request that starts in [w]: the outputs of the loop and, for
    several, the archive before it is renamed. *)
Definition intermediate_paths (items : list (string * string)) (w : World)
  : list string :=
  match items with
  | [_] => List.map fst items
  | _ =>
      NodePath.join_path [OUT_DIR; "converted-" +:+ pretty (now (draws w)) +:+ ".zip"]
      :: List.map fst items
  end.

End Serving.

(** ** Further sample data

    Uploads of the three kinds on the disk of [Sample], the worlds the
    handler leaves on them, and a listing of the output folder with
    one old file. *)
Module Cases.
Import Sample.

Definition notes : UploadedFile := upload "notes.txt" "6-f.txt".
Definition paper : UploadedFile := upload "paper.pdf" "7-g.pdf".
Definition broken : UploadedFile := upload "broken.docx" "3-c.docx".
Definition blob : UploadedFile := upload "blob.txt" "2-b.txt".
Definition gone : UploadedFile := upload "gone.docx" "1-a.docx".
Definition lost : UploadedFile := upload "lost.txt" "0-z.txt".
Definition shouted : UploadedFile := upload "REPORT.PDF" "5-e.PDF".

Definition shelf : World :=
  disk [("/srv/app/uploads/6-f.txt", "hello");
        ("/srv/app/uploads/7-g.pdf", "%PDF-two");
        ("/srv/app/uploads/3-c.docx", "plain");
        ("/srv/app/uploads/2-b.txt", String "a" (String "000" "b"))].

Definition notes_item : Output := Success "/srv/app/converted/notes.txt" "notes.txt".
Definition paper_item : Output := Success "/srv/app/converted/paper.txt" "paper.txt".

Definition after_notes : World := (@convert_file env "txt" notes [] shelf).2.
Definition after_loop : World := (@loop_of env None [notes; paper] shelf).2.
Definition after_broken : World := (@convert_file env "txt" broken [notes_item] after_notes).2.
Definition refused : World := (@convert env None [blob] shelf).2.
Definition served : World := (@convert env None [notes] shelf).2.
Definition archived : World := (@convert env None [notes; paper] shelf).2.

(** Uploads that share the base name [a], one with its extension in
    upper case, and a [.docx] that mammoth reads. *)
Definition a_TXT : UploadedFile := upload "a.TXT" "4-d.TXT".
Definition a_docx : UploadedFile := upload "a.docx" "5-e.docx".

Definition a_shelf : World :=
  disk [("/srv/app/uploads/8-h.txt", "one");
        ("/srv/app/uploads/9-i.pdf", "%PDF-two");
        ("/srv/app/uploads/4-d.TXT", "two");
        ("/srv/app/uploads/5-e.docx", "PKthree");
        ("/srv/app/uploads/3-c.docx", "plain")].

(** A name of 254 characters: the output fits in a directory entry,
    the output with an id before it does not. *)
Definition long_name : string :=
  string_of_list_ascii (List.repeat "a"%char 250) +:+ ".txt".
Definition long_upload : UploadedFile := upload long_name "11-k.txt".
Definition long_shelf : World := disk [("/srv/app/uploads/11-k.txt", "hello")].

Definition old_file : Stat := {| isFile := true; mtimeMs := 0 |}.

Definition listing : DirView :=
  {| readdir := fun d =>
       if String.eqb d "/srv/app/converted" then Some ["id0-notes.txt"] else None;
     stat := fun p =>
       if String.eqb p "/srv/app/converted/id0-notes.txt" then Some old_file else None |}.

End Cases.


(** ** Proof automation *)

(** Unfolding of the plumbing of [M]. *)
Ltac run_m :=
  cbv beta iota zeta delta
    [bind ret throw tell get_fs modify_fs try_catch readFile readFileUtf8
     writeFile unlink rename existsSync];
  simpl.

(** Unfolding of the loop body down to the primitives. *)
Ltac run_file :=
  cbv beta iota zeta delta
    [convert_file precheck read_source isPdfFile toTxtFromPdf toTxtFromDocx
     txtToDocxBuffer looksLikeText detectMime
     bind ret throw tell get_fs modify_fs try_catch readFile readFileUtf8
     writeFile unlink rename existsSync];
  simpl.

(** Case analysis on the innermost test a run is stuck on. *)
Ltac destruct_run Hrun :=
  repeat match type of Hrun with
         | context [match ?x with _ => _ end] =>
             lazymatch x with
             | context [match _ with _ => _ end] => fail
             | _ => destruct x eqn:?; simpl in Hrun
             end
         end.

(** ** Facts about strings and paths *)
Module StringFacts.

Lemma app_nil_r (s : string) : s +:+ "" = s.
Proof. induction s as [|c s IH]; [reflexivity|]. change (String c (s +:+ "") = String c s). by rewrite IH. Qed.

Lemma app_assoc (a b c : string) : (a +:+ b) +:+ c = a +:+ b +:+ c.
Proof.
  induction a as [|x a IH]; [reflexivity|].
  change (String x ((a +:+ b) +:+ c) = String x (a +:+ b +:+ c)). by rewrite IH.
Qed.

Lemma app_cons (x : ascii) (a b : string) : String x a +:+ b = String x (a +:+ b).
Proof. reflexivity. Qed.

Lemma truthy_true (s : string) : truthy s = true <-> s <> "".
Proof. destruct s; simpl; split; congruence. Qed.

Lemma truthy_app_l (a b : string) : truthy a = true -> truthy (a +:+ b) = true.
Proof. by destruct a. Qed.

Lemma truthy_app_r (a b : string) : truthy b = true -> truthy (a +:+ b) = true.
Proof. destruct a; [done|]. by rewrite app_cons. Qed.

Lemma last_char_app (a b : string) :
  truthy b = true -> last_char (a +:+ b) = last_char b.
Proof.
  intros Hb. induction a as [|x a IH]; [reflexivity|].
  rewrite app_cons. simpl. rewrite IH.
  destruct b as [|y b]; [discriminate|]. simpl. by destruct (last_char b).
Qed.

Lemma endsWith_app (q p : string) : endsWith (q +:+ p) p = true.
Proof.
  induction q as [|x q IH].
  - change ("" +:+ p) with p. destruct p; [reflexivity|].
    cbn [endsWith]. by rewrite String.eqb_refl.
  - rewrite app_cons. cbn [endsWith]. rewrite IH. apply orb_true_r.
Qed.

Lemma endsWith_inv (s p : string) : endsWith s p = true -> exists q, s = q +:+ p.
Proof.
  induction s as [|x s IH]; cbn [endsWith]; intros Hs.
  - apply orb_prop in Hs as [Hs|Hs]; [|done].
    apply String.eqb_eq in Hs as <-. by exists "".
  - apply orb_prop in Hs as [Hs|Hs].
    + apply String.eqb_eq in Hs as <-. by exists "".
    + destruct (IH Hs) as [q ->]. by exists (String x q).
Qed.

Lemma endsWith_last_char (s : string) (c : ascii) :
  endsWith s (String c "") = true <-> last_char s = Some c.
Proof.
  split.
  - intros [q ->]%endsWith_inv. by rewrite last_char_app.
  - induction s as [|x s IH]; [done|]. simpl.
    destruct (last_char s) as [d|] eqn:Hd.
    + intros Heq. rewrite IH by done. apply orb_true_r.
    + intros [= ->]. destruct s as [|y s]; [|simpl in Hd; by destruct (last_char s)].
      by rewrite Ascii.eqb_refl.
Qed.

Lemma split_not_nil (c : ascii) (s : string) : split c s <> [].
Proof.
  induction s as [|x s IH]; simpl; [done|].
  destruct (Ascii.eqb x c); [done|]. by destruct (split c s).
Qed.

Lemma split_app_sep (c : ascii) (a b : string) :
  split c (a +:+ String c b) = split c a ++ split c b.
Proof.
  induction a as [|x a IH].
  - change ("" +:+ String c b) with (String c b). simpl. by rewrite Ascii.eqb_refl.
  - rewrite app_cons. simpl. destruct (Ascii.eqb x c); [by rewrite IH|].
    rewrite IH. pose proof (split_not_nil c a). by destruct (split c a).
Qed.

Lemma split_no_sep (c : ascii) (e : string) : has_char c e = false -> split c e = [e].
Proof.
  induction e as [|x e IH]; simpl; [done|].
  intros [Hx He]%orb_false_elim. rewrite Hx, IH; done.
Qed.

Lemma split_app_no_sep (c : ascii) (q e : string) :
  has_char c e = false ->
  split c (q +:+ e) = removelast (split c q) ++ [List.last (split c q) "" +:+ e].
Proof.
  intros He. induction q as [|x q IH].
  - change ("" +:+ e) with e. by rewrite split_no_sep.
  - rewrite app_cons. simpl. destruct (Ascii.eqb x c).
    + rewrite IH. pose proof (split_not_nil c q). by destruct (split c q).
    + rewrite IH. pose proof (split_not_nil c q) as Hq.
      destruct (split c q) as [|h [|h' t]]; [done|done|].
      cbn [removelast List.last app]. reflexivity.
Qed.

Lemma join_snoc (sep : string) (parts : list string) (z : string) :
  JsString.join sep (parts ++ [z])
  = match parts with [] => "" | _ => JsString.join sep parts +:+ sep end +:+ z.
Proof.
  induction parts as [|p parts IH]; [reflexivity|].
  destruct parts as [|p' parts].
  { change (p +:+ sep +:+ z = (p +:+ sep) +:+ z). by rewrite app_assoc. }
  change (p +:+ sep +:+ JsString.join sep ((p' :: parts) ++ [z])
          = ((p +:+ sep +:+ JsString.join sep (p' :: parts)) +:+ sep) +:+ z).
  rewrite IH. by rewrite !app_assoc.
Qed.

End StringFacts.

Module PathFacts.
Import StringFacts.

Lemma length_app (a b : string) :
  String.length (a +:+ b) = (String.length a + String.length b)%nat.
Proof. induction a as [|x a IH]; [reflexivity|]. rewrite app_cons. simpl. by rewrite IH. Qed.

Lemma has_char_last (c : ascii) (e : string) :
  has_char c e = false -> last_char e <> Some c.
Proof.
  induction e as [|x e IH]; simpl; [done|].
  intros [Hx He]%orb_false_elim. destruct (last_char e) as [d|]; [by apply IH|].
  intros [= ->]. by rewrite Ascii.eqb_refl in Hx.
Qed.

Lemma norm_segs_snoc (aa : bool) (init : list string) (z : string) :
  (3 <= String.length z)%nat ->
  NodePath.norm_segs aa (init ++ [z]) = NodePath.norm_segs aa init ++ [z].
Proof.
  intros Hz. unfold NodePath.norm_segs. rewrite fold_left_app. simpl.
  unfold NodePath.norm_step at 1.
  destruct z as [|a [|b [|c z]]]; simpl in Hz; try lia.
  assert (String.eqb (String a (String b (String c z))) "" = false) as -> by done.
  assert (String.eqb (String a (String b (String c z))) "." = false) as ->.
  { apply String.eqb_neq. congruence. }
  assert (String.eqb (String a (String b (String c z))) ".." = false) as ->.
  { apply String.eqb_neq. congruence. }
  done.
Qed.

(** A normalized path keeps an extension its argument ends with. *)
Lemma normalize_suffix (q e : string) :
  has_char "/" e = false -> (3 <= String.length e)%nat ->
  exists pre, NodePath.normalize (q +:+ e) = pre +:+ e.
Proof.
  intros Hsep Hlen. unfold NodePath.normalize.
  assert (He : truthy e = true) by (destruct e; [simpl in Hlen; lia|done]).
  rewrite (truthy_app_r q e He). simpl negb. cbv iota.
  assert (endsWith (q +:+ e) "/" = false) as ->.
  { apply not_true_is_false. intros Hends%endsWith_last_char.
    rewrite last_char_app in Hends by done. by apply has_char_last in Hsep. }
  unfold NodePath.normalizeString.
  rewrite (split_app_no_sep "/" q e Hsep).
  set (init := removelast (split "/" q)). set (l := List.last (split "/" q) "").
  rewrite norm_segs_snoc by (rewrite length_app; lia).
  rewrite join_snoc.
  set (pre' := match NodePath.norm_segs _ init with [] => "" | _ => _ end).
  rewrite (truthy_app_r pre' (l +:+ e)) by (by apply truthy_app_r).
  simpl negb. cbv iota.
  exists ((if NodePath.isAbsolute (q +:+ e) then "/" else "") +:+ pre' +:+ l).
  by rewrite app_nil_r, !app_assoc.
Qed.

Lemma join_path_suffix (d y e : string) :
  has_char "/" e = false -> (3 <= String.length e)%nat ->
  exists pre, NodePath.join_path [d; y +:+ e] = pre +:+ e.
Proof.
  intros Hsep Hlen. unfold NodePath.join_path.
  assert (He : truthy e = true) by (destruct e; [simpl in Hlen; lia|done]).
  cbn [List.filter]. unfold NodePath.nonempty. rewrite (truthy_app_r y e He).
  destruct (truthy d).
  - change (JsString.join "/" [d; y +:+ e]) with (d +:+ "/" +:+ y +:+ e).
    rewrite <- !app_assoc. by apply normalize_suffix.
  - change (JsString.join "/" [y +:+ e]) with (y +:+ e). by apply normalize_suffix.
Qed.

Lemma normalize_truthy (p : string) : truthy (NodePath.normalize p) = true.
Proof.
  unfold NodePath.normalize. destruct (truthy p); simpl; [|done].
  destruct (truthy (NodePath.normalizeString p _)) eqn:Hb; simpl.
  - apply truthy_app_r, truthy_app_l, Hb.
  - by repeat case_match.
Qed.

Lemma join_path_truthy (args : list string) : truthy (NodePath.join_path args) = true.
Proof.
  unfold NodePath.join_path. destruct (List.filter _ args); [done|].
  apply normalize_truthy.
Qed.

(** Two paths ending in extensions with different last code units
    differ. *)
Lemma suffix_last_neq (a b e1 e2 : string) :
  truthy e1 = true -> truthy e2 = true -> last_char e1 <> last_char e2 ->
  a +:+ e1 <> b +:+ e2.
Proof.
  intros H1 H2 Hne Heq. apply Hne.
  by rewrite <- (last_char_app a e1), <- (last_char_app b e2), Heq.
Qed.

Lemma split_ext_no_dot (x : string) : has_char "." x = false -> NodePath.split_ext x = None.
Proof.
  induction x as [|c x IH]; [done|]. cbn [has_char NodePath.split_ext].
  intros [Hc Hx]%orb_false_elim. by rewrite IH, Hc.
Qed.

Lemma split_ext_app (l x : string) :
  has_char "." x = false ->
  NodePath.split_ext (l +:+ String "." x) = Some (l, String "." x).
Proof.
  intros Hx. induction l as [|c l IH].
  - change ("" +:+ String "." x) with (String "." x). cbn [NodePath.split_ext].
    by rewrite split_ext_no_dot.
  - rewrite app_cons. cbn [NodePath.split_ext]. by rewrite IH.
Qed.

Lemma last_component_app (q e : string) :
  has_char "/" e = false -> truthy e = true ->
  NodePath.last_component (q +:+ e) = List.last (split "/" q) "" +:+ e.
Proof.
  intros Hsep He. unfold NodePath.last_component.
  rewrite split_app_no_sep, List.filter_app by done. cbn [List.filter].
  unfold NodePath.nonempty at 2. rewrite truthy_app_r by done. apply last_last.
Qed.

(** For an upload the filter lets through, a name that ends in a
    lower-case extension has this extension for the handler. *)
Lemma accepted_name_ext (name x : string) :
  has_char "." x = false -> has_char "/" x = false -> toLowerCase x = x ->
  fileFilter name = true ->
  endsWith name (String "." x) = true ->
  toLowerCase (NodePath.extname name) = String "." x.
Proof.
  intros Hdot Hsep Hlow Hfilter [q ->]%endsWith_inv.
  unfold fileFilter in Hfilter. unfold NodePath.extname in *.
  rewrite last_component_app in * by (done || (cbn [has_char]; by rewrite Hsep)).
  rewrite split_ext_app in * by done.
  destruct (negb (truthy _) || String.eqb _ "..")%bool; [done|].
  cbn [toLowerCase]. by rewrite Hlow.
Qed.

End PathFacts.

(** ** How the helpers run *)

Section Runs.
Context `{Env}.

Lemma includes_zero_In (buf : bytes) :
  includes_zero buf = true <-> In Byte.x00 buf.
Proof.
  unfold includes_zero. rewrite existsb_exists. split.
  - intros (x & Hx & Heq). apply Byte.byte_dec_bl in Heq. by subst.
  - intros Hin. exists Byte.x00. split; [assumption | reflexivity].
Qed.

Lemma looksLikeText_run (p : string) (w : World) :
  looksLikeText p w =
    (Ok (match fs w !! p with
         | Some buf => negb (includes_zero buf)
         | None => false
         end), emit (EvReadFile p) w).
Proof. unfold looksLikeText. run_m. by destruct (fs w !! p). Qed.

Lemma detectMime_run (p : string) (w : World) :
  detectMime p w = (Ok (fs w !! p ≫= fileType), emit (EvFileType p) w).
Proof. unfold detectMime. run_m. by destruct (fs w !! p). Qed.

Lemma isPdfFile_run (p : string) (w : World) :
  isPdfFile p w =
    (Ok (match fs w !! p with
         | Some content => String.eqb (utf8_decode (read4 content)) "%PDF"
         | None => false
         end), emit (EvOpen p) w).
Proof. unfold isPdfFile. run_m. by destruct (fs w !! p). Qed.

Lemma removeIfExists_run (p : string) (w : World) :
  removeIfExists p w =
    (Ok (bool_decide (is_Some (fs w !! p))), set_fs (delete p) (emit (EvUnlink p) w)).
Proof.
  unfold removeIfExists. run_m. destruct (fs w !! p) eqn:Hp; simpl.
  - done.
  - unfold set_fs, emit. simpl. by rewrite delete_id.
Qed.

(** The first four bytes of a file are the signature exactly when the
    buffer [isPdfFile] fills is. *)
Lemma read4_magic (content : bytes) :
  read4 content = pdf_magic <-> take 4 content = pdf_magic.
Proof.
  unfold read4, pdf_magic.
  destruct content as [|a [|b [|c [|d rest]]]]; simpl; split; intros Heq;
    try discriminate Heq; done.
Qed.

Lemma isPdf_decode (content : bytes) :
  String.eqb (utf8_decode (read4 content)) "%PDF" = true <-> take 4 content = pdf_magic.
Proof.
  rewrite String.eqb_eq, <- read4_magic. apply utf8_decode_magic.
  unfold read4. rewrite length_take, length_app, length_replicate. lia.
Qed.

End Runs.

Section PerFile.
Context `{Env}.

Lemma bind_ok {A B} (m : M A) (k : A -> M B) (w w' : World) (a : A) :
  m w = (Ok a, w') -> bind m k w = k a w'.
Proof. unfold bind. by intros ->. Qed.

(** "A name that ends in [.txt]", for an upload that passed the
    filter, is a name whose extension the handler takes to be [.txt];
    likewise for [.pdf] and [.docx]. *)
Lemma ext_of_name_ends_in (uploaded : UploadedFile) (e : string) :
  e = ".txt" \/ e = ".pdf" \/ e = ".docx" ->
  fileFilter (originalname uploaded) = true ->
  endsWith (originalname uploaded) e = true ->
  ext_of uploaded = e.
Proof.
  intros [-> | [-> | ->]] Hfilter Hends; by apply PathFacts.accepted_name_ext.
Qed.

Lemma or_else_empty (s : string) : or_else s "" = s.
Proof. by destruct s. Qed.

Lemma precheck_run (ext : string) (uploaded : UploadedFile) (w : World) :
  precheck ext uploaded w =
    if String.eqb ext ".txt" then
      (Ok (if match fs w !! path uploaded with
              | Some buf => negb (includes_zero buf)
              | None => false
              end
           then None
           else Some (Failure ("Not a text file: " +:+ originalname uploaded))),
       emit (EvReadFile (path uploaded)) w)
    else if String.eqb ext ".docx" then
      (Ok (if mime_rejected (fs w !! path uploaded ≫= fileType)
           then Some (Failure ("Not a DOCX file: " +:+ originalname uploaded))
           else None),
       emit (EvFileType (path uploaded)) w)
    else (Ok None, w).
Proof.
  unfold precheck. destruct (String.eqb ext ".txt").
  { rewrite (bind_ok _ _ _ _ _ (looksLikeText_run _ _)).
    destruct (fs w !! path uploaded) as [buf|]; [|done]. by destruct (includes_zero buf). }
  destruct (String.eqb ext ".docx"); [|done].
  rewrite (bind_ok _ _ _ _ _ (detectMime_run _ _)).
  by destruct (mime_rejected _).
Qed.

(** C5. A file whose extension is [.txt] and whose content holds a
    null byte is recorded as "Not a text file", whatever the target;
    the only outside call made for it is the read of the check, so
    nothing is extracted or encoded and the disk is unchanged. *)
Theorem txt_with_null_byte_refused
    (target : string) (uploaded : UploadedFile) (outputs : list Output)
    (w : World) (content : bytes) :
  ext_of uploaded = ".txt" ->
  fs w !! path uploaded = Some content ->
  In Byte.x00 content ->
  convert_file target uploaded outputs w =
    (Ok (outputs ++ [Failure ("Not a text file: " +:+ originalname uploaded)]),
     emit (EvReadFile (path uploaded)) w).
Proof.
  intros Hext Hfs Hzero. apply includes_zero_In in Hzero.
  unfold convert_file. fold (ext_of uploaded). rewrite Hext.
  unfold bind at 1. rewrite precheck_run. simpl.
  by rewrite Hfs, Hzero.
Qed.

(** C6. For a [.pdf] upload converted to [txt] or [docx]: when its
    first four bytes are not [%PDF] it is recorded as "Invalid PDF
    file" after the signature check alone; when they are and the parser
    returns a text that is empty once trimmed, it is recorded as "No
    text extracted (likely scanned PDF)"; the two messages differ. *)
Theorem pdf_diagnostics
    (target : string) (uploaded : UploadedFile) (outputs : list Output)
    (w : World) (content : bytes) :
  ext_of uploaded = ".pdf" ->
  target = "txt" \/ target = "docx" ->
  fs w !! path uploaded = Some content ->
  (take 4 content <> pdf_magic ->
   convert_file target uploaded outputs w =
     (Ok (outputs ++ [Failure ("Invalid PDF file: " +:+ originalname uploaded)]),
      emit (EvOpen (path uploaded)) w))
  /\ (take 4 content = pdf_magic ->
      forall data_text : option string,
        pdfParse content = Some data_text ->
        trim (default "" data_text) = "" ->
        convert_file target uploaded outputs w =
          (Ok (outputs ++
                 [Failure ("No text extracted (likely scanned PDF): "
                           +:+ originalname uploaded)]),
           emit (EvPdfParse (path uploaded))
             (emit (EvReadFile (path uploaded)) (emit (EvOpen (path uploaded)) w))))
  /\ "Invalid PDF file: " +:+ originalname uploaded
     <> "No text extracted (likely scanned PDF): " +:+ originalname uploaded.
Proof.
  intros Hext Htarget Hfs. split; [|split].
  - intros Hsig. rewrite <- isPdf_decode in Hsig. apply not_true_is_false in Hsig.
    unfold convert_file. fold (ext_of uploaded). rewrite Hext.
    destruct Htarget as [-> | ->]; run_file; rewrite Hfs; simpl; by rewrite Hsig.
  - intros Hsig data_text Hparse Hempty. apply isPdf_decode in Hsig.
    unfold convert_file. fold (ext_of uploaded). rewrite Hext.
    destruct Htarget as [-> | ->]; run_file; rewrite Hfs; simpl; rewrite Hsig; simpl;
      rewrite Hfs, Hparse; simpl; rewrite or_else_empty, Hempty; done.
  - discriminate.
Qed.




Lemma convert_file_cases
    (target : string) (uploaded : UploadedFile) (outputs : list Output)
    (w w' : World) (r : Res (list Output)) :
  convert_file target uploaded outputs w = (r, w') ->
  history w' = history w /\ draws w' = draws w
  /\ (exists l, log w' = log w ++ l /\ no_archive l)
  /\ turn_result target uploaded outputs w r w'.
Proof.
  intros Hrun. unfold turn_result, out_path, out_name, base_of, ext_of.
  unfold convert_file in Hrun.
  set (ext := toLowerCase (NodePath.extname (originalname uploaded))) in *.
  set (base := NodePath.basename (originalname uploaded) ext) in *.
  destruct (String.eqb target "txt") eqn:Ht;
    [apply String.eqb_eq in Ht; subst target
    |destruct (String.eqb target "docx") eqn:Hd;
       [apply String.eqb_eq in Hd; subst target|]].
  all: revert Hrun; run_file; intros Hrun.
  all: rewrite ?Ht, ?Hd in Hrun; simpl in Hrun.
  all: destruct_run Hrun.
  all: injection Hrun as <- <-; simpl.
  all: split; [done|split; [done|]].
  all: split;
    [eexists; split;
       [rewrite <- ?app_assoc; simpl; try reflexivity; symmetry; apply app_nil_r
       |repeat constructor]|].
  all: first
    [ left; eexists; split; [reflexivity|done]
    | right; left; eexists; split; [reflexivity|split; done]
    | right; right; exists []; eexists; split; [by auto|];
      split; [reflexivity|]; split; [by left|reflexivity]
    | right; right; eexists [_], _; split; [by auto|];
      split; [rewrite <- app_assoc; reflexivity|];
      split; [right; eexists; split; [reflexivity|done]|reflexivity] ].
Qed.

End PerFile.

Section Batch.
Context `{Env}.

Lemma cleanup_uploads_run (files : list UploadedFile) (w : World) :
  exists w',
    cleanup_uploads files w = (Ok tt, w')
    /\ history w' = history w /\ draws w' = draws w
    /\ log w' = log w ++ List.map EvUnlink (unlinked files)
    /\ (forall p, In p (unlinked files) -> fs w' !! p = None)
    /\ (forall p, fs w !! p = None -> fs w' !! p = None).
Proof.
  unfold cleanup_uploads, unlinked.
  enough (exists bs w',
    promise_all (fun f => if truthy (path f) then removeIfExists (path f) else ret false)
      files w = (Ok bs, w')
    /\ history w' = history w /\ draws w' = draws w
    /\ log w' = log w ++ List.map EvUnlink
                 (List.map path (List.filter (fun f => truthy (path f)) files))
    /\ (forall p, In p (List.map path (List.filter (fun f => truthy (path f)) files)) ->
        fs w' !! p = None)
    /\ (forall p, fs w !! p = None -> fs w' !! p = None))
    as (bs & w' & Hrun & Hrest).
  { exists w'. split; [|done]. unfold bind. by rewrite Hrun. }
  revert w. induction files as [|f files IH]; intros w.
  - exists [], w. simpl. rewrite app_nil_r. by repeat split.
  - cbn [promise_all List.filter]. destruct (truthy (path f)) eqn:Hp.
    + destruct (IH (set_fs (delete (path f)) (emit (EvUnlink (path f)) w)))
        as (bs & w' & Hrun & Hh & Hd & Hl & Hgone & Hkeep).
      exists (bool_decide (is_Some (fs w !! path f)) :: bs), w'.
      unfold bind at 1. rewrite removeIfExists_run.
      unfold bind at 1. rewrite Hrun. simpl in *.
      split; [done|]. split; [done|]. split; [done|]. split; [|split].
      * by rewrite Hl, <- app_assoc.
      * intros p [<- | Hin]; [|by apply Hgone].
        apply Hkeep. apply lookup_delete_eq.
      * intros p Hnone. apply Hkeep. rewrite lookup_delete_None. by right.
    + destruct (IH w) as (bs & w' & Hrun & Hrest).
      exists (false :: bs), w'. unfold bind at 1. simpl. unfold bind at 1.
      by rewrite Hrun.
Qed.

(** A [catch] block that answers turns every way out of the [try] block
    into an answer. *)
Lemma try_catch_answers {A} (body : M A) (fallback : A) (w : World) :
  exists a w', try_catch body (fun _ => ret fallback) w = (Ok a, w').
Proof. unfold try_catch. destruct (body w) as [[a|e] w']; eauto. Qed.

(** X20. Past line 203, that is for a target that is absent or one
    string: whatever the batch and however the handler leaves its
    [try] block, it answers, and the last thing it does is to unlink
    every uploaded file: none of them is on disk afterwards, whether
    or not it went into an output. *)
Theorem uploads_always_deleted
    (req_target : option string) (files : list UploadedFile) (w : World) :
  exists resp w' before,
    convert req_target files w = (Ok resp, w')
    /\ log w' = before ++ List.map EvUnlink (unlinked files)
    /\ (forall f, In f files -> path f <> "" ->
        In (path f) (unlinked files) /\ fs w' !! path f = None).
Proof.
  assert (Hin : forall f, In f files -> path f <> "" -> In (path f) (unlinked files)).
  { intros f Hf Hp. unfold unlinked. apply in_map, filter_In. split; [done|].
    by apply StringFacts.truthy_true. }
  unfold convert. destruct files as [|f0 files'].
  { exists (json_error 400 "No file uploaded"), w, (log w).
    split; [done|]. split; [simpl; by rewrite app_nil_r|]. by intros f []. }
  set (files := f0 :: files') in *.
  destruct (try_catch_answers
              (outputs <- for_of (convert_file (target_of req_target)) files [] ;;
               respond (target_of req_target) outputs)
              (json_error 500 "Conversion failed") w) as (resp & w1 & Hbody).
  destruct (cleanup_uploads_run files w1) as (w' & Hfin & _ & _ & Hlog & Hgone & _).
  exists resp, w', (log w1). unfold try_finally. rewrite Hbody, Hfin.
  split; [done|]. split; [done|]. intros f Hf Hp. split; [by apply Hin|].
  by apply Hgone, Hin.
Qed.

Lemma okItems_of_app (a b : list Output) :
  okItems_of (a ++ b) = okItems_of a ++ okItems_of b.
Proof. apply omap_app. Qed.

Lemma okItems_of_success (target : string) (uploaded : UploadedFile) :
  okItems_of [Success (out_path target uploaded) (out_name target uploaded)]
  = [(out_path target uploaded, out_name target uploaded)].
Proof.
  unfold okItems_of, out_path. simpl. by rewrite PathFacts.join_path_truthy.
Qed.

(** One turn of the loop, seen from the packaging decision: it adds
    either one failure and no item, or the item of the file, whose
    output it has just written. *)
Lemma turn_items
    (target : string) (uploaded : UploadedFile) (outputs outputs' : list Output)
    (w w' : World) :
  convert_file target uploaded outputs w = (Ok outputs', w') ->
  history w' = history w /\ draws w' = draws w
  /\ (exists l, log w' = log w ++ l /\ no_archive l)
  /\ exists new,
      outputs' = outputs ++ new
      /\ ((exists m, new = [Failure m] /\ truthy m = true /\ fs w' = fs w)
          \/ (okItems_of new = [(out_path target uploaded, out_name target uploaded)]
              /\ (target = "txt" \/ target = "docx")
              /\ exists b, fs w' = <[out_path target uploaded := b]> (fs w))).
Proof.
  intros Hrun. apply convert_file_cases in Hrun as (Hh & Hd & Hl & Hres).
  split; [done|]. split; [done|]. split; [done|].
  destruct Hres as [(e & [=] & _) | [(m & [= ->] & Hm & Hfs) | Hok]].
  - exists [Failure m]. split; [done|]. left. eauto.
  - destruct Hok as (pre & b & Ht & [= ->] & Hpre & Hfs).
    exists (pre ++ [Success (out_path target uploaded) (out_name target uploaded)]).
    split; [done|]. right. split; [|eauto].
    rewrite okItems_of_app, okItems_of_success.
    by destruct Hpre as [-> | (m & -> & _)].
Qed.

Lemma for_of_cons {A S} (body : A -> S -> M S) (x : A) (xs : list A) (acc : S) (w : World) :
  for_of body (x :: xs) acc w =
    match body x acc w with
    | (Ok acc', w') => for_of body xs acc' w'
    | (Throw e, w') => (Throw e, w')
    end.
Proof. reflexivity. Qed.

(** The loop as a whole: it only adds to [outputs] and to the disk,
    builds no archive, and every item it adds is on disk when it
    ends. *)
Lemma loop_items
    (target : string) (files : list UploadedFile) (outputs outputs' : list Output)
    (w w' : World) :
  for_of (convert_file target) files outputs w = (Ok outputs', w') ->
  history w' = history w /\ draws w' = draws w
  /\ (exists l, log w' = log w ++ l /\ no_archive l)
  /\ (forall q, is_Some (fs w !! q) -> is_Some (fs w' !! q))
  /\ exists more,
      outputs' = outputs ++ more
      /\ forall item, In item (okItems_of more) ->
           is_Some (fs w' !! item.1) /\ item_of target files item.
Proof.
  revert outputs w. induction files as [|f files IH]; intros outputs w Hrun.
  - injection Hrun as <- <-. split; [done|]. split; [done|]. split.
    { exists []. split; [by rewrite app_nil_r|constructor]. }
    split; [done|]. exists []. split; [by rewrite app_nil_r|]. by intros item [].
  - rewrite for_of_cons in Hrun.
    destruct (convert_file target f outputs w) as [[outs1|e] w1] eqn:Hturn; [|done].
    apply turn_items in Hturn as (Hh1 & Hd1 & (l1 & Hl1 & Hq1) & new & -> & Hnew).
    apply IH in Hrun as (Hh & Hd & (l & Hl & Hq) & Hmono & more & -> & Hitems).
    split; [congruence|]. split; [congruence|]. split.
    { exists (l1 ++ l). split; [by rewrite Hl, Hl1, <- app_assoc|by apply Forall_app]. }
    assert (Hmono1 : forall q, is_Some (fs w !! q) -> is_Some (fs w1 !! q)).
    { intros q Hq'. destruct Hnew as [(m & _ & _ & ->) | (_ & _ & b & ->)]; [done|].
      rewrite lookup_insert_is_Some. destruct (decide (out_path target f = q)); auto. }
    split; [auto|]. exists (new ++ more). split; [by rewrite <- app_assoc|].
    intros item. rewrite okItems_of_app, in_app_iff. intros [Hin | Hin].
    + destruct Hnew as [(m & -> & _) | (Hitem & Ht & b & Hfs)]; [done|].
      rewrite Hitem in Hin. destruct Hin as [<- | []]. split.
      * apply Hmono. rewrite Hfs. simpl. rewrite lookup_insert_eq. eauto.
      * exists f. split; [by left|done].
    + destruct (Hitems item Hin) as (Hdisk & f' & Hf' & Hrest).
      split; [done|]. exists f'. split; [by right|done].
Qed.

(** The handler on a batch whose loop ran to its end. *)
Lemma convert_after_loop
    (req_target : option string) (files : list UploadedFile)
    (w w1 w2 : World) (outputs : list Output) (resp : Response) :
  files <> [] ->
  for_of (convert_file (target_of req_target)) files [] w = (Ok outputs, w1) ->
  respond (target_of req_target) outputs w1 = (Ok resp, w2) ->
  exists w3,
    convert req_target files w = (Ok resp, w3)
    /\ log w3 = log w2 ++ List.map EvUnlink (unlinked files).
Proof.
  intros Hne Hloop Hresp.
  destruct (cleanup_uploads_run files w2) as (w3 & Hfin & _ & _ & Hlog & _).
  exists w3. split; [|done].
  unfold convert. destruct files as [|f files']; [done|].
  unfold try_finally, try_catch. rewrite (bind_ok _ _ _ _ _ Hloop), Hresp.
  by rewrite Hfin.
Qed.

(** The same when the packaging throws: the [catch] block answers. *)
Lemma convert_after_thrown_packaging
    (req_target : option string) (files : list UploadedFile)
    (w w1 w2 : World) (outputs : list Output) (e : Exn) :
  files <> [] ->
  for_of (convert_file (target_of req_target)) files [] w = (Ok outputs, w1) ->
  respond (target_of req_target) outputs w1 = (Throw e, w2) ->
  exists w3,
    convert req_target files w = (Ok (json_error 500 "Conversion failed"), w3)
    /\ log w3 = log w2 ++ List.map EvUnlink (unlinked files).
Proof.
  intros Hne Hloop Hresp.
  destruct (cleanup_uploads_run files w2) as (w3 & Hfin & _ & _ & Hlog & _).
  exists w3. split; [|done].
  unfold convert. destruct files as [|f files']; [done|].
  unfold try_finally, try_catch. rewrite (bind_ok _ _ _ _ _ Hloop), Hresp.
  cbn. by rewrite Hfin.
Qed.

Lemma no_archive_unlinks (paths : list string) : no_archive (List.map EvUnlink paths).
Proof. induction paths; by constructor. Qed.

(** C2, as the code has it. When the loop of a non-empty batch runs
    to its end, no call in it being rejected, and ends with no
    successful output, the answer is 422 and carries the failure
    recorded for the first file of the batch. *)
Theorem all_failed_reports_first_failure
    (req_target : option string) (files : list UploadedFile)
    (w w1 : World) (outputs : list Output) :
  files <> [] ->
  for_of (convert_file (target_of req_target)) files [] w = (Ok outputs, w1) ->
  okItems_of outputs = [] ->
  exists first rest msg w0 w3,
    files = first :: rest
    /\ convert_file (target_of req_target) first [] w = (Ok [Failure msg], w0)
    /\ convert req_target files w = (Ok (json_error 422 msg), w3).
Proof.
  intros Hne Hloop Hnone. destruct files as [|first rest]; [done|].
  pose proof Hloop as Hloop'. rewrite for_of_cons in Hloop'.
  destruct (convert_file (target_of req_target) first [] w) as [[outs1|e] w0] eqn:Hturn;
    [|done].
  pose proof Hturn as Hfirst.
  apply turn_items in Hfirst as (_ & _ & _ & new & -> & Hnew).
  apply loop_items in Hloop' as (_ & _ & _ & _ & more & -> & _).
  simpl in Hnone. rewrite okItems_of_app in Hnone.
  destruct Hnew as [(msg & -> & Hmsg & _) | (Hitem & _)];
    [|by rewrite Hitem in Hnone].
  assert (Hresp : respond (target_of req_target) ([Failure msg] ++ more) w1
                  = (Ok (json_error 422 msg), w1)).
  { unfold respond. simpl in Hnone. simpl. rewrite Hnone.
    unfold firstErr. simpl. rewrite Hmsg. unfold or_else. by rewrite Hmsg. }
  destruct (convert_after_loop req_target (first :: rest) w w1 w1 _ _ Hne Hloop Hresp)
    as (w3 & Hconv & _).
  by exists first, rest, msg, w0, w3.
Qed.

(** C3, as the code has it. When the loop runs to its end with
    exactly one successful output, no archive is built during the
    request. The output is on disk and its rename to
    [{downloadId}-{name}] in the output directory is attempted: when
    the disk accepts the rename, the output is moved there and the
    answer is the URL made of that identifier and that name; when it
    rejects it, the output stays where it is and the answer is 500. *)
Theorem single_success_served_directly
    (req_target : option string) (files : list UploadedFile)
    (w w1 : World) (outputs : list Output) (p name : string) :
  for_of (convert_file (target_of req_target)) files [] w = (Ok outputs, w1) ->
  okItems_of outputs = [(p, name)] ->
  let downloadId := nanoid 10 (draws w1) in
  let mappedPath := NodePath.join_path [OUT_DIR; downloadId +:+ "-" +:+ name] in
  let resp := json_url ("/download/" +:+ downloadId +:+ "/" +:+ encodeURIComponent name) in
  exists content w2 w3 l,
    fs w1 !! p = Some content
    /\ log w2 = log w1 ++ [EvRename p mappedPath]
    /\ log w3 = log w ++ l /\ no_archive l
    /\ match rename_rejects p mappedPath with
       | None =>
           respond (target_of req_target) outputs w1 = (Ok resp, w2)
           /\ fs w2 = <[mappedPath := content]> (delete p (fs w1))
           /\ convert req_target files w = (Ok resp, w3)
       | Some e =>
           respond (target_of req_target) outputs w1 = (Throw e, w2)
           /\ fs w2 = fs w1
           /\ convert req_target files w
              = (Ok (json_error 500 "Conversion failed"), w3)
       end.
Proof.
  intros Hloop Hone downloadId mappedPath resp.
  assert (Hne : files <> []).
  { intros ->. injection Hloop as <- <-. done. }
  pose proof Hloop as Hfacts.
  apply loop_items in Hfacts as (_ & _ & (l1 & Hl1 & Hq1) & _ & more & Hout & Hitems).
  simpl in Hout. subst more.
  destruct (Hitems (p, name)) as ([content Hp] & _); [rewrite Hone; by left|].
  simpl in Hp.
  assert (Hquiet : no_archive (l1 ++ [EvRename p mappedPath]
                               ++ List.map EvUnlink (unlinked files))).
  { apply Forall_app. split; [done|]. apply Forall_app. split; [by repeat constructor|].
    apply no_archive_unlinks. }
  destruct (rename_rejects p mappedPath) as [e|] eqn:Hrename.
  - assert (Hresp : exists w2,
      respond (target_of req_target) outputs w1 = (Throw e, w2)
      /\ fs w2 = fs w1 /\ log w2 = log w1 ++ [EvRename p mappedPath]).
    { unfold respond. rewrite Hone. unfold draw_nanoid, date_now, addHistory. run_m.
      rewrite Hp. fold downloadId mappedPath. rewrite Hrename. simpl.
      eexists. split; [reflexivity|]. done. }
    destruct Hresp as (w2 & Hresp & Hfs2 & Hlog2).
    destruct (convert_after_thrown_packaging req_target files w w1 w2 _ _ Hne Hloop Hresp)
      as (w3 & Hconv & Hlog3).
    exists content, w2, w3. eexists. repeat (split; [done|]). split; [|done].
    by rewrite Hlog3, Hlog2, Hl1, <- !app_assoc.
  - assert (Hresp : exists w2,
      respond (target_of req_target) outputs w1 = (Ok resp, w2)
      /\ fs w2 = <[mappedPath := content]> (delete p (fs w1))
      /\ log w2 = log w1 ++ [EvRename p mappedPath]).
    { unfold respond. rewrite Hone. unfold draw_nanoid, date_now, addHistory. run_m.
      rewrite Hp. fold downloadId mappedPath. rewrite Hrename. simpl.
      eexists. split; [reflexivity|]. done. }
    destruct Hresp as (w2 & Hresp & Hfs2 & Hlog2).
    destruct (convert_after_loop req_target files w w1 w2 _ _ Hne Hloop Hresp)
      as (w3 & Hconv & Hlog3).
    exists content, w2, w3. eexists. repeat (split; [done|]). split; [|done].
    by rewrite Hlog3, Hlog2, Hl1, <- !app_assoc.
Qed.

(** An output path never is the path of an archive. *)
Lemma out_path_not_zip (target : string) (uploaded : UploadedFile) (z : string) :
  target = "txt" \/ target = "docx" ->
  out_path target uploaded <> NodePath.join_path [OUT_DIR; z +:+ ".zip"].
Proof.
  intros Ht. unfold out_path, out_name.
  destruct (PathFacts.join_path_suffix OUT_DIR z ".zip") as [a ->]; [done|simpl; lia|].
  destruct Ht as [-> | ->].
  - destruct (PathFacts.join_path_suffix OUT_DIR (base_of uploaded) ".txt") as [b Hb];
      [done|simpl; lia|].
    change (base_of uploaded +:+ "." +:+ "txt") with (base_of uploaded +:+ ".txt").
    rewrite Hb. by apply PathFacts.suffix_last_neq.
  - destruct (PathFacts.join_path_suffix OUT_DIR (base_of uploaded) ".docx") as [b Hb];
      [done|simpl; lia|].
    change (base_of uploaded +:+ "." +:+ "docx") with (base_of uploaded +:+ ".docx").
    rewrite Hb. by apply PathFacts.suffix_last_neq.
Qed.

Lemma for_of_app {A S} (body : A -> S -> M S) (xs ys : list A) (acc : S) (w : World) :
  for_of body (xs ++ ys) acc w =
    match for_of body xs acc w with
    | (Ok acc', w') => for_of body ys acc' w'
    | (Throw e, w') => (Throw e, w')
    end.
Proof.
  revert acc w. induction xs as [|x xs IH]; intros acc w; [done|].
  cbn [app]. rewrite !for_of_cons. destruct (body x acc w) as [[acc'|e] w']; [|done].
  apply IH.
Qed.

(** The loop leaves alone the paths that are the output of none of its
    files. *)
Lemma loop_frame
    (target : string) (files : list UploadedFile) (outputs outputs' : list Output)
    (w w' : World) (q : string) :
  for_of (convert_file target) files outputs w = (Ok outputs', w') ->
  (forall f, In f files -> out_path target f <> q) ->
  fs w' !! q = fs w !! q.
Proof.
  revert outputs w. induction files as [|f files IH]; intros outputs w Hrun Hq.
  - by injection Hrun as <- <-.
  - rewrite for_of_cons in Hrun.
    destruct (convert_file target f outputs w) as [[outs1|e] w1] eqn:Hturn; [|done].
    apply turn_items in Hturn as (_ & _ & _ & new & -> & Hnew).
    rewrite (IH _ _ Hrun) by (intros f' Hf'; apply Hq; by right).
    destruct Hnew as [(m & _ & _ & ->) | (_ & _ & b & ->)]; [done|].
    apply lookup_insert_ne, Hq. by left.
Qed.

(** A turn that adds an item wrote the output of its file. *)
Lemma converts_inv (target : string) (uploaded : UploadedFile)
    (start stop : list Output * World) :
  converts target uploaded start stop ->
  (target = "txt" \/ target = "docx")
  /\ okItems_of stop.1
     = okItems_of start.1 ++ [(out_path target uploaded, out_name target uploaded)]
  /\ exists b, fs stop.2 = <[out_path target uploaded := b]> (fs start.2).
Proof.
  intros [Hturn Hlen].
  apply turn_items in Hturn as (_ & _ & _ & new & Hnew & Hcases).
  rewrite Hnew, okItems_of_app, length_app in Hlen. rewrite Hnew, okItems_of_app.
  destruct Hcases as [(m & -> & _) | (-> & Ht & Hfs)]; [simpl in Hlen; lia|done].
Qed.

(** The bytes that such a turn writes are those of the text it
    extracts from what the upload holds. *)
Lemma converts_writes (target : string) (uploaded : UploadedFile)
    (start stop : list Output * World) :
  converts target uploaded start stop ->
  exists b,
    output_of target uploaded start.2 = Some b
    /\ fs stop.2 = <[out_path target uploaded := b]> (fs start.2).
Proof.
  destruct start as [outputs w], stop as [outputs' w']. intros [Hrun Hlen].
  cbn [fst snd] in *.
  unfold output_of, extracted, encoded, out_path, out_name, base_of, ext_of.
  unfold convert_file in Hrun.
  set (ext := toLowerCase (NodePath.extname (originalname uploaded))) in *.
  set (base := NodePath.basename (originalname uploaded) ext) in *.
  destruct (String.eqb target "txt") eqn:Ht;
    [apply String.eqb_eq in Ht; subst target
    |destruct (String.eqb target "docx") eqn:Hd;
       [apply String.eqb_eq in Hd; subst target|]].
  all: revert Hrun; run_file; intros Hrun.
  all: rewrite ?Ht, ?Hd in Hrun; simpl in Hrun.
  all: destruct_run Hrun.
  all: try discriminate Hrun.
  all: injection Hrun as Hout Hw; subst outputs' w'.
  all: rewrite ?okItems_of_app, ?length_app in Hlen; cbn in Hlen; try lia.
  all: cbn in *; simplify_eq.
  all: repeat match goal with
              | E : negb _ = false |- _ => apply negb_false_iff in E
              end.
  all: repeat (match goal with
               | E : ?x = _ |- context [?x] => rewrite E
               end; cbn).
  all: eexists; split; reflexivity.
Qed.

Lemma Forall2_impl_In {A B} (P Q : A -> B -> Prop) (l : list A) (k : list B) :
  Forall2 P l k -> (forall x y, In x l -> P x y -> Q x y) -> Forall2 Q l k.
Proof.
  induction 1 as [|x y l k Hxy _ IH]; intros Himpl; constructor.
  - apply Himpl; [by left|done].
  - apply IH. intros x' y' Hin. apply Himpl. by right.
Qed.

Lemma archive_appends (items : list (string * string)) (w : World) :
  (forall item, In item items -> is_Some (fs w !! item.1)) ->
  exists entries w',
    promise_all archive_append items w = (Ok entries, w')
    /\ fs w' = fs w /\ history w' = history w /\ draws w' = draws w
    /\ log w' = log w ++ List.map (fun item => EvArchiveAppend item.1 item.2) items
    /\ Forall2 (fun item entry => entry.1 = item.2 /\ fs w !! item.1 = Some entry.2)
         items entries.
Proof.
  revert w. induction items as [|item items IH]; intros w Hdisk.
  - exists [], w. simpl. rewrite app_nil_r. by repeat split.
  - destruct (Hdisk item) as [content Hitem]; [by left|].
    destruct (IH (emit (EvArchiveAppend item.1 item.2) w))
      as (entries & w' & Hrun & Hfs & Hh & Hd & Hlog & Hall).
    { intros item' Hin. apply Hdisk. by right. }
    exists ((item.2, content) :: entries), w'.
    cbn [promise_all]. unfold archive_append at 1. run_m. rewrite Hitem. simpl.
    rewrite Hrun. simpl in *. split; [done|]. split; [done|]. split; [done|].
    split; [done|]. split; [by rewrite Hlog, <- app_assoc|]. by constructor.
Qed.

Lemma outputs_removed (items : list (string * string)) (w : World) :
  exists bs w',
    promise_all (fun i => removeIfExists i.1) items w = (Ok bs, w')
    /\ history w' = history w /\ draws w' = draws w
    /\ log w' = log w ++ List.map (fun item => EvUnlink item.1) items
    /\ (forall q, (forall item, In item items -> item.1 <> q) -> fs w' !! q = fs w !! q).
Proof.
  revert w. induction items as [|item items IH]; intros w.
  - exists [], w. simpl. rewrite app_nil_r. by repeat split.
  - destruct (IH (set_fs (delete item.1) (emit (EvUnlink item.1) w)))
      as (bs & w' & Hrun & Hh & Hd & Hlog & Hkeep).
    exists (bool_decide (is_Some (fs w !! item.1)) :: bs), w'.
    cbn [promise_all]. unfold bind at 1. rewrite removeIfExists_run.
    unfold bind at 1. rewrite Hrun. simpl in *.
    split; [done|]. split; [done|]. split; [done|].
    split; [by rewrite Hlog, <- app_assoc|].
    intros q Hq. rewrite Hkeep by (intros item' Hin; apply Hq; by right).
    apply lookup_delete_ne, Hq. by left.
Qed.

(** The packaging of two or more items that are on disk, none of them
    at the path of the archive: the archive holds one entry per item,
    in order, with the name of the item and the bytes found at its
    path when the loop ended. It is registered under its final name
    when the disk accepts the rename, and stays under its first name
    when not. *)
Lemma respond_archive (target : string) (outputs : list Output) (w : World) :
  let items := okItems_of outputs in
  let zipName := "converted-" +:+ pretty (now (draws w)) +:+ ".zip" in
  let zipTemp := NodePath.join_path [OUT_DIR; zipName] in
  let downloadId := nanoid 10 (S (draws w)) in
  let mappedPath := NodePath.join_path [OUT_DIR; downloadId +:+ "-" +:+ zipName] in
  (2 <= length items)%nat ->
  (forall item, In item items -> is_Some (fs w !! item.1) /\ item.1 <> zipTemp) ->
  exists entries w',
    Forall2 (fun item entry => entry.1 = item.2 /\ fs w !! item.1 = Some entry.2)
      items entries
    /\ log w' = log w ++ [EvCreateWriteStream zipTemp]
                 ++ List.map (fun item => EvArchiveAppend item.1 item.2) items
                 ++ [EvArchiveFinalize zipTemp]
                 ++ List.map (fun item => EvUnlink item.1) items
                 ++ [EvRename zipTemp mappedPath]
    /\ match rename_rejects zipTemp mappedPath with
       | None =>
           respond target outputs w =
             (Ok (json_url ("/download/" +:+ downloadId +:+ "/"
                            +:+ encodeURIComponent zipName)), w')
           /\ fs w' !! mappedPath = Some (zip entries)
       | Some e =>
           respond target outputs w = (Throw e, w')
           /\ fs w' !! zipTemp = Some (zip entries)
       end.
Proof.
  intros items zipName zipTemp downloadId mappedPath Hlen Hitems.
  set (wa := set_fs (insert zipTemp []) (emit (EvCreateWriteStream zipTemp) (drawn w))).
  destruct (archive_appends items wa) as (entries & wb & Happ & Hfsb & Hhb & Hdb & Hlogb & Hall).
  { intros item Hin. destruct (Hitems item Hin) as [Hsome Hne].
    unfold wa. simpl. by rewrite lookup_insert_ne. }
  set (wc := set_fs (insert zipTemp (zip entries)) (emit (EvArchiveFinalize zipTemp) wb)).
  destruct (outputs_removed items wc) as (bs & wd & Hrem & Hhd & Hdd & Hlogd & Hkeep).
  assert (Hzip : fs wd !! zipTemp = Some (zip entries)).
  { rewrite Hkeep by (intros item Hin; by apply Hitems).
    unfold wc. simpl. apply lookup_insert_eq. }
  assert (Hdraws : draws wd = S (draws w)).
  { rewrite Hdd. unfold wc. simpl. rewrite Hdb. done. }
  assert (Hentries : Forall2 (fun item entry =>
              entry.1 = item.2 /\ fs w !! item.1 = Some entry.2) items entries).
  { eapply Forall2_impl_In; [exact Hall|].
    intros item entry Hin [Hname Hcontent]. split; [done|].
    rewrite <- Hcontent. unfold wa. simpl. symmetry. apply lookup_insert_ne.
    by apply not_eq_sym, Hitems. }
  assert (Hlog : log wd ++ [EvRename zipTemp mappedPath]
                 = log w ++ [EvCreateWriteStream zipTemp]
                   ++ List.map (fun item => EvArchiveAppend item.1 item.2) items
                   ++ [EvArchiveFinalize zipTemp]
                   ++ List.map (fun item => EvUnlink item.1) items
                   ++ [EvRename zipTemp mappedPath]).
  { rewrite Hlogd. unfold wc. simpl. rewrite Hlogb. unfold wa. simpl.
    by rewrite <- !app_assoc. }
  assert (Hrun : respond target outputs w
                 = (draw_nanoid 10 ;; rename zipTemp mappedPath ;; 
                    t <- date_now ;;
                    addHistory {| h_id := downloadId; h_name := zipName;
                                  h_count := length items; h_target := target;
                                  h_time := t |} ;;
                    ret (json_url ("/download/" +:+ downloadId +:+ "/"
                                   +:+ encodeURIComponent zipName))) wd).
  { unfold respond. fold items.
    destruct items as [|i1 [|i2 rest]] eqn:Hshape; [simpl in Hlen; lia..|].
    destruct i1 as [p1 n1]. rewrite <- Hshape in *. clear Hshape.
    unfold date_now at 1. unfold bind at 1. fold zipName zipTemp.
    unfold make_zip. run_m. fold wa. rewrite Happ. fold wc. simpl.
    rewrite Hrem. simpl. rewrite Hdraws. fold downloadId mappedPath.
    rewrite Hzip. reflexivity. }
  exists entries. destruct (rename_rejects zipTemp mappedPath) as [e|] eqn:Hrename.
  - assert (Hr : exists w',
      respond target outputs w = (Throw e, w')
      /\ log w' = log wd ++ [EvRename zipTemp mappedPath]
      /\ fs w' !! zipTemp = Some (zip entries)).
    { rewrite Hrun. unfold draw_nanoid. run_m. rewrite Hzip, Hrename.
      eexists. split; [reflexivity|]. by split. }
    destruct Hr as (w' & Hresp & Hlogw & Hfsw).
    exists w'. split; [exact Hentries|]. split; [by rewrite Hlogw|]. by split.
  - assert (Hr : exists w',
      respond target outputs w =
        (Ok (json_url ("/download/" +:+ downloadId +:+ "/"
                       +:+ encodeURIComponent zipName)), w')
      /\ log w' = log wd ++ [EvRename zipTemp mappedPath]
      /\ fs w' !! mappedPath = Some (zip entries)).
    { rewrite Hrun. unfold draw_nanoid, date_now, addHistory. run_m.
      rewrite Hzip, Hrename. eexists. split; [reflexivity|]. simpl.
      split; [done|]. apply lookup_insert_eq. }
    destruct Hr as (w' & Hresp & Hlogw & Hfsw).
    exists w'. split; [exact Hentries|]. split; [by rewrite Hlogw|]. by split.
Qed.

(** C10, as the code has it. In a batch whose loop runs to its end,
    let two files have the same base name for the handler, which
    removes the extension from a name only where it stands in lower
    case, and both be converted, the second being the last file of
    the batch to produce its output path. Their items in [outputs]
    are one and the same path and name; the second conversion
    replaces the bytes that the first had written at that path by its
    own, the bytes of the text extracted from the second upload; and
    the archive that the handler builds holds, at the places of the
    two items, two entries of that name, both with the bytes of the
    second conversion. The archive is registered under its final name
    and its link returned when the disk accepts the rename; when not,
    it stays under its first name and the answer is 500. *)
Theorem same_base_outputs_collide
    (req_target : option string) (pre mid post : list UploadedFile)
    (f1 f2 : UploadedFile) (w : World) (s1 s2 s3 s4 s5 : list Output * World) :
  let target := target_of req_target in
  let p := out_path target f2 in
  let name := out_name target f2 in
  let zipName := "converted-" +:+ pretty (now (draws s5.2)) +:+ ".zip" in
  let zipTemp := NodePath.join_path [OUT_DIR; zipName] in
  let downloadId := nanoid 10 (S (draws s5.2)) in
  let mappedPath := NodePath.join_path [OUT_DIR; downloadId +:+ "-" +:+ zipName] in
  let resp := json_url ("/download/" +:+ downloadId +:+ "/" +:+ encodeURIComponent zipName) in
  base_of f1 = base_of f2 ->
  runs target pre ([], w) s1 ->
  converts target f1 s1 s2 ->
  runs target mid s2 s3 ->
  converts target f2 s3 s4 ->
  runs target post s4 s5 ->
  (forall f, In f post -> out_path target f <> p) ->
  exists b1 b2 items_pre items_mid items_post entries_pre entries_mid entries_post w6 w7,
    output_of target f1 s1.2 = Some b1
    /\ output_of target f2 s3.2 = Some b2
    /\ okItems_of s2.1 = items_pre ++ [(p, name)]
    /\ fs s2.2 !! p = Some b1
    /\ fs s4.2 = <[p := b2]> (fs s3.2)
    /\ okItems_of s5.1 = items_pre ++ (p, name) :: items_mid ++ (p, name) :: items_post
    /\ length entries_pre = length items_pre
    /\ length entries_mid = length items_mid
    /\ length entries_post = length items_post
    /\ let archive :=
         zip (entries_pre ++ (name, b2) :: entries_mid ++ (name, b2) :: entries_post) in
       match rename_rejects zipTemp mappedPath with
       | None =>
           respond target s5.1 s5.2 = (Ok resp, w6)
           /\ fs w6 !! mappedPath = Some archive
           /\ convert req_target (pre ++ f1 :: mid ++ f2 :: post) w = (Ok resp, w7)
       | Some e =>
           respond target s5.1 s5.2 = (Throw e, w6)
           /\ fs w6 !! zipTemp = Some archive
           /\ convert req_target (pre ++ f1 :: mid ++ f2 :: post) w
              = (Ok (json_error 500 "Conversion failed"), w7)
       end.
Proof.
  intros target p name zipName zipTemp downloadId mappedPath resp
    Hbase Hpre Hf1 Hmid Hf2 Hpost Hlast.
  destruct s1 as [o1 w1], s2 as [o2 w2], s3 as [o3 w3], s4 as [o4 w4], s5 as [o5 w5].
  unfold runs in *. cbn [fst snd] in *.
  assert (Hsame : out_path target f1 = p /\ out_name target f1 = name).
  { unfold p, name, out_path, out_name. by rewrite Hbase. }
  destruct Hsame as [Hp Hn].
  pose proof Hf1 as [Hturn1 _]. pose proof Hf2 as [Hturn2 _].
  cbn [fst snd] in Hturn1, Hturn2.
  pose proof (converts_writes _ _ _ _ Hf1) as (b1 & Hout1 & Hfs2).
  pose proof (converts_writes _ _ _ _ Hf2) as (b2 & Hout2 & Hfs4).
  apply converts_inv in Hf1 as (Ht & Hitems2 & _).
  apply converts_inv in Hf2 as (_ & Hitems4 & _).
  cbn [fst snd] in *. rewrite Hp, Hn in Hitems2. rewrite Hp in Hfs2. fold p in Hfs4. fold p name in Hitems4.
  pose proof Hmid as Hmid'. pose proof Hpost as Hpost'.
  apply loop_items in Hmid' as (_ & _ & _ & _ & more_mid & -> & _).
  apply loop_items in Hpost' as (_ & _ & _ & _ & more_post & -> & _).
  rewrite okItems_of_app in Hitems4.
  assert (Hrun : for_of (convert_file target) (pre ++ f1 :: mid ++ f2 :: post) [] w
                 = (Ok (o4 ++ more_post), w5)).
  { rewrite for_of_app, Hpre, for_of_cons, Hturn1, for_of_app, Hmid, for_of_cons, Hturn2.
    exact Hpost. }
  assert (Hitems : okItems_of (o4 ++ more_post)
                   = okItems_of o1 ++ (p, name) :: okItems_of more_mid
                     ++ (p, name) :: okItems_of more_post).
  { rewrite okItems_of_app, Hitems4, Hitems2, <- !app_assoc. done. }
  assert (Hb2 : fs w5 !! p = Some b2).
  { rewrite (loop_frame _ _ _ _ _ _ p Hpost Hlast), Hfs4. apply lookup_insert_eq. }
  pose proof Hrun as Hall.
  apply loop_items in Hall as (_ & _ & _ & _ & more & Hmore & Hdisk).
  cbn [app] in Hmore. subst more.
  destruct (respond_archive target (o4 ++ more_post) w5)
    as (entries & w6 & Hentries & _ & Hresp).
  { rewrite Hitems, !length_app. cbn [length]. rewrite length_app. cbn [length]. lia. }
  { intros item Hin. destruct (Hdisk item Hin) as (Hsome & f & _ & -> & Htf).
    split; [done|]. cbn [fst snd]. rewrite <- StringFacts.app_assoc.
    by apply out_path_not_zip. }
  fold zipName zipTemp downloadId mappedPath resp in Hresp.
  rewrite Hitems in Hentries.
  apply Forall2_app_inv_l in Hentries as (entries_pre & rest1 & Hpre_e & Hrest1 & ->).
  apply Forall2_cons_inv_l in Hrest1 as ([n1 c1] & rest2 & [Hn1 Hc1] & Hrest2 & ->).
  apply Forall2_app_inv_l in Hrest2 as (entries_mid & rest3 & Hmid_e & Hrest3 & ->).
  apply Forall2_cons_inv_l in Hrest3 as ([n2 c2] & entries_post & [Hn2 Hc2] & Hpost_e & ->).
  cbn [fst snd] in *. subst n1 n2. rewrite Hb2 in Hc1, Hc2.
  injection Hc1 as <-. injection Hc2 as <-.
  assert (Hne : pre ++ f1 :: mid ++ f2 :: post <> []) by (by destruct pre).
  assert (Hconv : exists w7,
    match rename_rejects zipTemp mappedPath with
    | None => convert req_target (pre ++ f1 :: mid ++ f2 :: post) w = (Ok resp, w7)
    | Some e =>
        convert req_target (pre ++ f1 :: mid ++ f2 :: post) w
        = (Ok (json_error 500 "Conversion failed"), w7)
    end).
  { destruct (rename_rejects zipTemp mappedPath) as [e|]; destruct Hresp as [Hresp _].
    - destruct (convert_after_thrown_packaging req_target _ w w5 w6 _ _ Hne Hrun Hresp)
        as (w7 & Hconv & _). by exists w7.
    - destruct (convert_after_loop req_target _ w w5 w6 _ _ Hne Hrun Hresp)
        as (w7 & Hconv & _). by exists w7. }
  destruct Hconv as (w7 & Hconv).
  exists b1, b2, (okItems_of o1), (okItems_of more_mid), (okItems_of more_post),
    entries_pre, entries_mid, entries_post, w6, w7.
  split; [done|]. split; [done|].
  split; [done|]. split; [rewrite Hfs2; apply lookup_insert_eq|]. split; [done|].
  split; [done|]. split; [symmetry; by eapply Forall2_length|].
  split; [symmetry; by eapply Forall2_length|].
  split; [symmetry; by eapply Forall2_length|].
  cbv zeta. destruct (rename_rejects zipTemp mappedPath) as [e|];
    destruct Hresp as [Hresp Harchive]; done.
Qed.

End Batch.

Section Download.
Context `{Env}.

Lemma startsWith_inv (s p : string) : startsWith s p = true -> exists r, s = p +:+ r.
Proof.
  revert s. induction p as [|a p IH]; intros s; [by exists s|].
  destruct s as [|b s]; simpl; [done|].
  destruct (Ascii.eqb_spec a b) as [<-|]; [|done].
  intros [r ->]%IH. by exists r.
Qed.

Lemma segments_app_sep (a b : string) :
  segments (a +:+ String "/" b) = segments a ++ segments b.
Proof. unfold segments. by rewrite StringFacts.split_app_sep, List.filter_app. Qed.

(** What the check of the handler lets through lies inside the output
    directory. *)
Lemma accepted_inside (safeBase candidate : string) :
  startsWith candidate (safeBase +:+ NodePath.sep) = true \/ candidate = safeBase ->
  inside safeBase candidate.
Proof.
  intros [[r ->]%startsWith_inv | ->].
  - exists (segments r). rewrite StringFacts.app_assoc. apply segments_app_sep.
  - exists []. by rewrite app_nil_r.
Qed.

(** C4. A download whose path, resolved against the output directory,
    lies outside of it is answered with "Bad path" and nothing else
    happens: no call leaves the process, so the disk is neither looked
    at nor read, whatever it holds. *)
Theorem escaping_download_rejected (id name : string) (w : World) :
  ~ inside (NodePath.resolve cwd [OUT_DIR])
      (NodePath.resolve cwd [OUT_DIR; id +:+ "-" +:+ name]) ->
  download id name w = (Ok {| status := 400; body := SendText "Bad path" |}, w).
Proof.
  intros Hout. unfold download.
  destruct (negb (startsWith _ _) && negb (String.eqb _ _)) eqn:Hcheck; [done|].
  exfalso. apply Hout, accepted_inside.
  apply andb_false_iff in Hcheck as [Hs | He].
  - left. by apply negb_false_iff in Hs.
  - right. apply negb_false_iff in He. by apply String.eqb_eq in He.
Qed.

End Download.

(** ** Examples of the path and string helpers *)

Example extname_ex1 : NodePath.extname "report.final.PDF" = ".PDF".
Proof. reflexivity. Qed.
Example extname_ex2 : NodePath.extname ".bashrc" = "".
Proof. reflexivity. Qed.
Example extname_ex3 : NodePath.extname "a/b/.." = "".
Proof. reflexivity. Qed.
Example extname_ex4 : NodePath.extname "..a" = ".a".
Proof. reflexivity. Qed.
Example extname_ex5 : NodePath.extname "a." = ".".
Proof. reflexivity. Qed.
Example basename_ex1 : NodePath.basename "dir/file.txt" ".txt" = "file".
Proof. reflexivity. Qed.
Example basename_ex2 : NodePath.basename "A.TXT" ".txt" = "A.TXT".
Proof. reflexivity. Qed.
Example basename_ex3 : NodePath.basename "dir/.txt" ".txt" = ".txt".
Proof. reflexivity. Qed.
Example join_ex1 : NodePath.join_path ["/srv/app"; "converted"] = "/srv/app/converted".
Proof. reflexivity. Qed.
Example join_ex2 : NodePath.join_path ["/srv/app/converted"; "../x"] = "/srv/app/x".
Proof. reflexivity. Qed.
Example resolve_ex1 :
  NodePath.resolve "/" ["/srv/app/converted"; "x-y/../../z"] = "/srv/app/z".
Proof. reflexivity. Qed.
Example resolve_ex2 :
  NodePath.resolve "/" ["/srv/app/converted"; "/etc/passwd"] = "/etc/passwd".
Proof. reflexivity. Qed.
Example resolve_ex3 : NodePath.resolve "/" ["/srv/../../.."] = "/".
Proof. reflexivity. Qed.
Example split_lines_ex :
  split_lines ("a" +:+ String "013" (String "010" "b") +:+ String "010" "")
  = ["a"; "b"; ""].
Proof. reflexivity. Qed.
Example trim_ex : trim (String "009" " a b  ") = "a b".
Proof. reflexivity. Qed.
Example basename_ex4 : NodePath.basename "//" "a" = "//".
Proof. reflexivity. Qed.
Example basename_ex5 : NodePath.basename "dir/txt//" ".txt" = "txt//".
Proof. reflexivity. Qed.
Example basename_ex6 : NodePath.basename "dir/a.txt//" ".txt" = "a".
Proof. reflexivity. Qed.

(** ** The handlers at work *)

Section Images.
Context `{Env}.

Lemma isImageExt_inv (ext : string) :
  isImageExt ext = true ->
  ext = ".png" \/ ext = ".jpg" \/ ext = ".jpeg" \/ ext = ".bmp" \/ ext = ".tif"
  \/ ext = ".tiff".
Proof.
  unfold isImageExt, includes. cbn [existsb]. rewrite !orb_true_iff, !String.eqb_eq.
  intuition discriminate.
Qed.

(** What the loop body does with an image, for either target: the
    failure is pushed, no [continue] follows, and the code after the
    chain encodes the empty text, writes the output and pushes it as a
    success. *)
Lemma image_falls_through
    (uploaded : UploadedFile) (outputs : list Output) (w : World) :
  isImageExt (ext_of uploaded) = true ->
  convert_file "txt" uploaded outputs w =
    (Ok (outputs ++
           [Failure ("OCR not enabled for images: " +:+ originalname uploaded);
            Success (out_path "txt" uploaded) (out_name "txt" uploaded)]),
     set_fs (insert (out_path "txt" uploaded) (utf8_encode ""))
       (emit (EvWriteFile (out_path "txt" uploaded)) w))
  /\ convert_file "docx" uploaded outputs w =
    (Ok (outputs ++
           [Failure ("OCR not enabled for images: " +:+ originalname uploaded);
            Success (out_path "docx" uploaded) (out_name "docx" uploaded)]),
     set_fs (insert (out_path "docx" uploaded) (packer (split_lines "")))
       (emit (EvWriteFile (out_path "docx" uploaded)) (emit EvPacker w))).
Proof.
  intros Himg. unfold out_path, out_name, base_of, convert_file.
  fold (ext_of uploaded).
  apply isImageExt_inv in Himg as [-> | [-> | [-> | [-> | [-> | ->]]]]];
    run_file; by rewrite <- !app_assoc.
Qed.

End Images.

(** C1, on the code. The upload [scan.png] passes the upload filter;
    converted to [txt] or to [docx], it is recorded with the failure
    "OCR not enabled for images" and then, the branch lacking the
    [continue] of its neighbours, with a success as well: an output is
    encoded and written, and the batch is answered with a download
    link to it. *)
Theorem image_upload_yields_success :
  let uploaded := Sample.upload "scan.png" "1-a.png" in
  let w := Sample.disk [("/srv/app/uploads/1-a.png", "xPNG")] in
  fileFilter (originalname uploaded) = true
  /\ isImageExt (@ext_of uploaded) = true
  /\ (@convert_file Sample.env "txt" uploaded [] w).1 =
       Ok [Failure "OCR not enabled for images: scan.png";
           Success "/srv/app/converted/scan.txt" "scan.txt"]
  /\ existsb is_conversion_event (log (@convert_file Sample.env "txt" uploaded [] w).2) = true
  /\ (@convert Sample.env (Some "txt") [uploaded] w).1 =
       Ok {| status := 200; body := JsonUrl "/download/id0/scan.txt" |}
  /\ fs (@convert Sample.env (Some "txt") [uploaded] w).2
       !! "/srv/app/converted/id0-scan.txt" = Some []
  /\ (@convert_file Sample.env "docx" uploaded [] w).1 =
       Ok [Failure "OCR not enabled for images: scan.png";
           Success "/srv/app/converted/scan.docx" "scan.docx"]
  /\ (@convert Sample.env (Some "docx") [uploaded] w).1 =
       Ok {| status := 200; body := JsonUrl "/download/id0/scan.docx" |}.
Proof. vm_compute. repeat split. Qed.

(** ** The statements at concrete inputs *)

(** A run is the pair of its result and of the world it ends in. *)
Lemma run_eq {A} (x : Res A * World) (r : Res A) : x.1 = r -> x = (r, x.2).
Proof. destruct x. simpl. by intros ->. Qed.

(** C9, on the code. A request with the upload [notes.txt] whose
    [target] field comes twice: the handler is given an array, line
    203 throws before the [try] block is entered, so the handler
    sends no answer and its [finally] block never runs. Nothing is
    unlinked and the upload is on disk as before. *)
Theorem repeated_target_keeps_uploads :
  let run := @post_convert Sample.env (Repeated ["txt"; "docx"]) [Cases.notes] Cases.shelf in
  run = (Throw (TypeError "toLowerCase is not a function"), Cases.shelf)
  /\ log run.2 = []
  /\ fs run.2 !! path Cases.notes = Some (list_byte_of_string "hello")
  /\ (@post_convert Sample.env (Text "txt") [Cases.notes] Cases.shelf).1
     = Ok (json_url "/download/id0/notes.txt").
Proof. vm_compute. repeat split. Qed.

(** C2, as stated, at the batch [blob.txt], [broken.docx] for [txt]:
    the first file is refused by the check for text and the second
    is rejected by mammoth. No file converts, nothing is encoded or
    written, and the answer is 500 with the message of the [catch]
    block, not 422 with the failure of the first file. *)
Lemma no_success_batch_answered_500 :
  let turn := @convert_file Sample.env "txt" Cases.blob [] Cases.shelf in
  let run := @convert Sample.env None [Cases.blob; Cases.broken] Cases.shelf in
  turn.1 = Ok [Failure "Not a text file: blob.txt"]
  /\ (@convert_file Sample.env "txt" Cases.broken [Failure "Not a text file: blob.txt"]
        turn.2).1
     = Throw (LibraryError "mammoth")
  /\ List.filter is_conversion_event (log run.2) = [EvMammoth (path Cases.broken)]
  /\ run.1 = Ok (json_error 500 "Conversion failed")
  /\ run.1 <> Ok (json_error 422 "Not a text file: blob.txt").
Proof.
  intros turn run. split; [vm_compute; reflexivity|]. split; [vm_compute; reflexivity|].
  split; [vm_compute; reflexivity|]. split; [vm_compute; reflexivity|].
  vm_compute. discriminate.
Qed.

(** C3, as stated, at two batches with exactly one successful
    conversion. In [notes.txt], [broken.docx] the first file converts
    and the second is rejected by mammoth: the answer is 500, nothing
    is renamed and the output stays at its own name. In the batch of
    one upload with a name of 254 characters the loop ends with its
    output, and the disk rejects the rename to the longer name: the
    answer is 500 and the output stays where it was written. *)
Lemma one_success_batch_answered_500 :
  let run := @convert Sample.env None [Cases.notes; Cases.broken] Cases.shelf in
  let long := @convert Sample.env None [Cases.long_upload] Cases.long_shelf in
  let long_out := "/srv/app/converted/" +:+ Cases.long_name in
  @convert_file Sample.env "txt" Cases.notes [] Cases.shelf
  = (Ok [Cases.notes_item], Cases.after_notes)
  /\ (@convert_file Sample.env "txt" Cases.broken [Cases.notes_item] Cases.after_notes).1
     = Throw (LibraryError "mammoth")
  /\ run.1 = Ok (json_error 500 "Conversion failed")
  /\ List.filter (fun e => match e with EvRename _ _ => true | _ => false end) (log run.2)
     = []
  /\ fs run.2 !! "/srv/app/converted/notes.txt" = Some (list_byte_of_string "hello")
  /\ (@loop_of Sample.env None [Cases.long_upload] Cases.long_shelf).1
     = Ok [Success long_out Cases.long_name]
  /\ long.1 = Ok (json_error 500 "Conversion failed")
  /\ fs long.2 !! long_out = Some (list_byte_of_string "hello")
  /\ fs long.2 !! ("/srv/app/converted/id0-" +:+ Cases.long_name) = None
  /\ history long.2 = [].
Proof.
  intros run long long_out. split; [vm_compute; reflexivity|].
  repeat (split; [vm_compute; reflexivity|]). vm_compute. reflexivity.
Qed.

(** C10, as stated, at three batches for [txt] in which two files
    with the name [a] before their extension both convert. In
    [a.txt], [a.TXT] the outputs are [a.txt] and [a.TXT.txt]: two
    paths, and two entries with their own names and contents. In
    [a.txt], [a.pdf], [broken.docx] the third file is rejected by
    mammoth: the answer is 500 and no archive is built. In [a.txt],
    [a.pdf], [a.docx] the three outputs share their path, and the
    entries hold the text of the third file, not of the second. *)
Lemma equal_names_without_the_collision :
  let cased := @convert Sample.env None [Sample.a_txt; Cases.a_TXT] Cases.a_shelf in
  let thrown :=
    @convert Sample.env None [Sample.a_txt; Sample.a_pdf; Cases.broken] Cases.a_shelf in
  let three :=
    @convert Sample.env None [Sample.a_txt; Sample.a_pdf; Cases.a_docx] Cases.a_shelf in
  let archive := "/srv/app/converted/id1-converted-1700000000000.zip" in
  NodePath.basename "a.txt" (NodePath.extname "a.txt")
  = NodePath.basename "a.TXT" (NodePath.extname "a.TXT")
  /\ (@loop_of Sample.env None [Sample.a_txt; Cases.a_TXT] Cases.a_shelf).1
     = Ok [Success "/srv/app/converted/a.txt" "a.txt";
           Success "/srv/app/converted/a.TXT.txt" "a.TXT.txt"]
  /\ fs cased.2 !! archive
     = Some (@zip Sample.env [("a.txt", list_byte_of_string "one");
                              ("a.TXT.txt", list_byte_of_string "two")])
  /\ (@loop_of Sample.env None [Sample.a_txt; Sample.a_pdf; Cases.broken] Cases.a_shelf).1
     = Throw (LibraryError "mammoth")
  /\ fs thrown.2 !! "/srv/app/converted/a.txt" = Some (list_byte_of_string "two")
  /\ thrown.1 = Ok (json_error 500 "Conversion failed")
  /\ List.filter is_archive_event (log thrown.2) = []
  /\ (@loop_of Sample.env None [Sample.a_txt; Sample.a_pdf; Cases.a_docx] Cases.a_shelf).1
     = Ok [Sample.a_item; Sample.a_item; Sample.a_item]
  /\ @output_of Sample.env "txt" Sample.a_pdf Cases.a_shelf
     = Some (list_byte_of_string "two")
  /\ fs three.2 !! archive
     = Some (@zip Sample.env [("a.txt", list_byte_of_string "three");
                              ("a.txt", list_byte_of_string "three");
                              ("a.txt", list_byte_of_string "three")]).
Proof.
  intros cased thrown three archive. split; [vm_compute; reflexivity|].
  repeat (split; [vm_compute; reflexivity|]). vm_compute. reflexivity.
Qed.


(** A [.txt] upload with a null byte in the middle, under a target
    the handler does not know. *)
Lemma txt_with_null_byte_refused_witness :
  let uploaded := Sample.upload "blob.txt" "2-b.txt" in
  let w := Sample.disk [("/srv/app/uploads/2-b.txt", String "a" (String "000" "b"))] in
  @convert_file Sample.env "odt" uploaded [] w =
    (Ok [Failure "Not a text file: blob.txt"], emit (EvReadFile (path uploaded)) w).
Proof.
  intros uploaded w.
  apply (@txt_with_null_byte_refused Sample.env "odt" uploaded [] w
           [Byte.x61; Byte.x00; Byte.x62]).
  - reflexivity.
  - reflexivity.
  - simpl. tauto.
Defined.

(** A [.pdf] upload that is no PDF, and one with the signature whose
    text is blank. *)
Lemma pdf_diagnostics_witness :
  let bad := Sample.upload "bad.pdf" "4-d.pdf" in
  let scanned := Sample.upload "scan.pdf" "5-e.pdf" in
  let w := Sample.disk [("/srv/app/uploads/4-d.pdf", "nope");
                        ("/srv/app/uploads/5-e.pdf", "%PDF-   ")] in
  @convert_file Sample.env "txt" bad [] w =
    (Ok [Failure "Invalid PDF file: bad.pdf"], emit (EvOpen (path bad)) w)
  /\ @convert_file Sample.env "docx" scanned [] w =
      (Ok [Failure "No text extracted (likely scanned PDF): scan.pdf"],
       emit (EvPdfParse (path scanned))
         (emit (EvReadFile (path scanned)) (emit (EvOpen (path scanned)) w))).
Proof.
  intros bad scanned w. split.
  - apply (proj1 (@pdf_diagnostics Sample.env "txt" bad [] w
                    (list_byte_of_string "nope") eq_refl (or_introl eq_refl) eq_refl)).
    vm_compute. discriminate.
  - apply (proj1 (proj2 (@pdf_diagnostics Sample.env "docx" scanned [] w
                           (list_byte_of_string "%PDF-   ") eq_refl (or_intror eq_refl)
                           eq_refl))
             eq_refl (Some "   ")); reflexivity.
Defined.



(** Two uploads that both fail, for different reasons. *)
Lemma all_failed_reports_first_failure_witness :
  let bad := Sample.upload "bad.pdf" "4-d.pdf" in
  let blob := Sample.upload "blob.txt" "2-b.txt" in
  let w := Sample.disk [("/srv/app/uploads/4-d.pdf", "nope");
                        ("/srv/app/uploads/2-b.txt", String "a" (String "000" "b"))] in
  exists w0 w3,
    @convert_file Sample.env "txt" bad [] w = (Ok [Failure "Invalid PDF file: bad.pdf"], w0)
    /\ @convert Sample.env None [bad; blob] w =
        (Ok (json_error 422 "Invalid PDF file: bad.pdf"), w3).
Proof.
  intros bad blob w.
  destruct (@all_failed_reports_first_failure Sample.env None [bad; blob] w
              (@for_of _ _ (@convert_file Sample.env "txt") [bad; blob] [] w).2
              [Failure "Invalid PDF file: bad.pdf"; Failure "Not a text file: blob.txt"])
    as (first & rest & msg & w0 & w3 & Hfiles & Hfirst & Hconv).
  - discriminate.
  - apply run_eq. vm_compute. reflexivity.
  - reflexivity.
  - injection Hfiles as <- <-.
    assert (msg = "Invalid PDF file: bad.pdf") as ->.
    { assert (Hrun : (@convert_file Sample.env "txt" bad [] w).1
                     = Ok [Failure "Invalid PDF file: bad.pdf"]) by (vm_compute; reflexivity).
      change (target_of None) with "txt" in Hfirst.
      rewrite Hfirst in Hrun. simpl in Hrun. congruence. }
    exists w0, w3. split; [exact Hfirst | exact Hconv].
Defined.

(** One upload that converts and one that fails, the target given in
    upper case. *)
Lemma single_success_served_directly_witness :
  let notes := Sample.upload "notes.txt" "6-f.txt" in
  let bad := Sample.upload "bad.pdf" "4-d.pdf" in
  let w := Sample.disk [("/srv/app/uploads/6-f.txt", "hello");
                        ("/srv/app/uploads/4-d.pdf", "nope")] in
  exists w3 l,
    @convert Sample.env (Some "DOCX") [notes; bad] w =
      (Ok (json_url "/download/id0/notes.docx"), w3)
    /\ log w3 = log w ++ l /\ no_archive l.
Proof.
  intros notes bad w.
  destruct (@single_success_served_directly Sample.env (Some "DOCX") [notes; bad] w
              (@for_of _ _ (@convert_file Sample.env "docx") [notes; bad] [] w).2
              [Success "/srv/app/converted/notes.docx" "notes.docx";
               Failure "Invalid PDF file: bad.pdf"]
              "/srv/app/converted/notes.docx" "notes.docx")
    as (content & w2 & w3 & l & _ & _ & Hlog & Hquiet & Hcase).
  - apply run_eq. vm_compute. reflexivity.
  - reflexivity.
  - cbv zeta in Hcase. destruct (rename_rejects _ _) eqn:Hrename in Hcase.
    + vm_compute in Hrename. discriminate Hrename.
    + destruct Hcase as (_ & _ & Hconv).
      exists w3, l. split; [exact Hconv|]. split; [exact Hlog | exact Hquiet].
Defined.

(** The batch [a.txt], [a.pdf] of [Sample]: both entries of the
    archive hold the text of the PDF. *)
Lemma same_base_outputs_collide_witness :
  let target := target_of (Some "txt") in
  let p := @out_path Sample.env target Sample.a_pdf in
  let name := @out_name target Sample.a_pdf in
  let zipName :=
    "converted-" +:+ pretty (@now Sample.env (draws Sample.after_a_pdf)) +:+ ".zip" in
  let zipTemp := NodePath.join_path [@OUT_DIR Sample.env; zipName] in
  let downloadId := @nanoid Sample.env 10 (S (draws Sample.after_a_pdf)) in
  let mappedPath :=
    NodePath.join_path [@OUT_DIR Sample.env; downloadId +:+ "-" +:+ zipName] in
  let resp :=
    json_url ("/download/" +:+ downloadId +:+ "/"
              +:+ @encodeURIComponent Sample.env zipName) in
  exists b1 b2 items_pre items_mid items_post entries_pre entries_mid entries_post w6 w7,
    @output_of Sample.env target Sample.a_txt Sample.a_disk = Some b1
    /\ @output_of Sample.env target Sample.a_pdf Sample.after_a_txt = Some b2
    /\ okItems_of [Sample.a_item] = items_pre ++ [(p, name)]
    /\ fs Sample.after_a_txt !! p = Some b1
    /\ fs Sample.after_a_pdf = <[p := b2]> (fs Sample.after_a_txt)
    /\ okItems_of [Sample.a_item; Sample.a_item]
       = items_pre ++ (p, name) :: items_mid ++ (p, name) :: items_post
    /\ length entries_pre = length items_pre
    /\ length entries_mid = length items_mid
    /\ length entries_post = length items_post
    /\ let archive :=
         @zip Sample.env
           (entries_pre ++ (name, b2) :: entries_mid ++ (name, b2) :: entries_post) in
       match @rename_rejects Sample.env zipTemp mappedPath with
       | None =>
           @respond Sample.env target [Sample.a_item; Sample.a_item] Sample.after_a_pdf
           = (Ok resp, w6)
           /\ fs w6 !! mappedPath = Some archive
           /\ @convert Sample.env (Some "txt") [Sample.a_txt; Sample.a_pdf] Sample.a_disk
              = (Ok resp, w7)
       | Some e =>
           @respond Sample.env target [Sample.a_item; Sample.a_item] Sample.after_a_pdf
           = (Throw e, w6)
           /\ fs w6 !! zipTemp = Some archive
           /\ @convert Sample.env (Some "txt") [Sample.a_txt; Sample.a_pdf] Sample.a_disk
              = (Ok (json_error 500 "Conversion failed"), w7)
       end.
Proof.
  apply (@same_base_outputs_collide Sample.env (Some "txt") [] [] []
           Sample.a_txt Sample.a_pdf Sample.a_disk
           ([], Sample.a_disk)
           ([Sample.a_item], Sample.after_a_txt) ([Sample.a_item], Sample.after_a_txt)
           ([Sample.a_item; Sample.a_item], Sample.after_a_pdf)
           ([Sample.a_item; Sample.a_item], Sample.after_a_pdf)).
  - reflexivity.
  - reflexivity.
  - split; [vm_compute; reflexivity | vm_compute; reflexivity].
  - reflexivity.
  - split; [vm_compute; reflexivity | vm_compute; reflexivity].
  - reflexivity.
  - intros f [].
Defined.

(** A name that climbs out of the output directory, towards a file
    that exists. *)
Lemma escaping_download_rejected_witness :
  let w := Sample.disk [("/srv/app/secret", "key")] in
  @download Sample.env "x" "y/../../secret" w =
    (Ok {| status := 400; body := SendText "Bad path" |}, w).
Proof.
  intros w. apply (@escaping_download_rejected Sample.env "x" "y/../../secret" w).
  intros [rest Hrest]. vm_compute in Hrest. discriminate Hrest.
Defined.

(** The four ways out of the handler, each leaving the uploads
    unlinked: one output served directly, an archive, no output at all
    (422), and a rejected parser promise (500). *)
Example every_exit_unlinks_uploads :
  let notes := Sample.upload "notes.txt" "6-f.txt" in
  let memo := Sample.upload "memo.txt" "10-j.txt" in
  let bad := Sample.upload "bad.pdf" "4-d.pdf" in
  let plain := Sample.upload "notes.docx" "3-c.docx" in
  let w := Sample.disk [("/srv/app/uploads/6-f.txt", "hello");
                        ("/srv/app/uploads/10-j.txt", "world");
                        ("/srv/app/uploads/4-d.pdf", "nope");
                        ("/srv/app/uploads/3-c.docx", "hello")] in
  let gone (run : Res Response * World) (f : UploadedFile) :=
    bool_decide (fs run.2 !! path f = None) in
  let single := @convert Sample.env (Some "txt") [notes] w in
  let archive := @convert Sample.env (Some "txt") [notes; memo] w in
  let failed := @convert Sample.env (Some "txt") [bad] w in
  let fault := @convert Sample.env (Some "txt") [notes; plain] w in
  (single.1 = Ok (json_url "/download/id0/notes.txt") /\ gone single notes = true)
  /\ (archive.1 = Ok (json_url "/download/id1/converted-1700000000000.zip")
      /\ gone archive notes = true /\ gone archive memo = true)
  /\ (failed.1 = Ok (json_error 422 "Invalid PDF file: bad.pdf") /\ gone failed bad = true)
  /\ (fault.1 = Ok (json_error 500 "Conversion failed")
      /\ gone fault notes = true /\ gone fault plain = true).
Proof. vm_compute. repeat split. Qed.

(** Two uploads with the base name [a]: the archive holds the entry
    [a.txt] twice, both times with the text of the second upload. *)
Example same_base_batch_runs :
  let first := Sample.upload "a.txt" "8-h.txt" in
  let second := Sample.upload "a.pdf" "9-i.pdf" in
  let w := Sample.disk [("/srv/app/uploads/8-h.txt", "one");
                        ("/srv/app/uploads/9-i.pdf", "%PDF-two")] in
  let run := @convert Sample.env (Some "txt") [first; second] w in
  run.1 = Ok (json_url "/download/id1/converted-1700000000000.zip")
  /\ fs run.2 !! "/srv/app/converted/id1-converted-1700000000000.zip"
     = Some (Sample.sample_zip [("a.txt", list_byte_of_string "two");
                                ("a.txt", list_byte_of_string "two")])
  /\ fs run.2 !! "/srv/app/converted/a.txt" = None.
Proof. vm_compute. repeat split. Qed.

(** A link handed out by the handler resolves to the artifact. *)
Example handed_out_link_downloads :
  let notes := Sample.upload "notes.txt" "6-f.txt" in
  let w := Sample.disk [("/srv/app/uploads/6-f.txt", "hello")] in
  let after := (@convert Sample.env (Some "txt") [notes] w).2 in
  (@download Sample.env "id0" "notes.txt" after).1 =
    Ok {| status := 200;
          body := SendFile "/srv/app/converted/id0-notes.txt" "notes.txt" |}
  /\ (@download Sample.env "id9" "notes.txt" after).1 =
      Ok {| status := 404; body := SendText "Not found" |}.
Proof. vm_compute. repeat split. Qed.

(** ** Further properties: the history *)

Lemma shift_excess_drop (h : list HistoryEntry) :
  shift_excess h = drop (length h - 100) h.
Proof.
  induction h as [|x h IH]; [done|]. cbn [shift_excess].
  destruct (100 <? length (x :: h))%nat eqn:Hlen.
  - apply Nat.ltb_lt in Hlen. cbn [length] in *. rewrite IH.
    replace (S (length h) - 100)%nat with (S (length h - 100)) by lia. done.
  - apply Nat.ltb_ge in Hlen. by replace (length (x :: h) - 100)%nat with 0%nat by lia.
Qed.

(** X1. The closed form of [addHistory] that the handlers use does
    what the loop of the source does: push, then shift while more than
    100 entries are held. *)
Theorem addHistory_runs_the_loop (entry : HistoryEntry) (w : World) :
  addHistory entry w = addHistory_loop entry w.
Proof.
  unfold addHistory, addHistory_loop, set_history. by rewrite shift_excess_drop.
Qed.

(** X2. Whatever the history held, after [addHistory] it holds at most
    100 entries, the new one last, and only the oldest ones are gone:
    the old history with the entry appended is what was evicted
    followed by what is kept. *)
Theorem history_stays_bounded (entry : HistoryEntry) (w : World) :
  let kept := history (addHistory entry w).2 in
  (length kept <= 100)%nat
  /\ List.last kept entry = entry
  /\ kept <> []
  /\ exists evicted,
      history w ++ [entry] = evicted ++ kept
      /\ length evicted = (length (history w) + 1 - 100)%nat.
Proof.
  cbn. set (h := history w ++ [entry]).
  assert (Hlen : length h = (length (history w) + 1)%nat).
  { unfold h. rewrite length_app. cbn. lia. }
  split; [rewrite length_drop; lia|]. split; [|split].
  - subst h. rewrite drop_app_le by lia. by rewrite last_last.
  - intros Hnil. apply (f_equal length) in Hnil. rewrite length_drop in Hnil.
    cbn in Hnil. lia.
  - exists (take (length h - 100) h). split; [by rewrite take_drop|].
    rewrite length_take. lia.
Qed.

Lemma take_app_take {A} (n : nat) (x y : list A) :
  take n (x ++ take n y) = take n (x ++ y).
Proof.
  rewrite !take_app. f_equal. rewrite take_take. f_equal. lia.
Qed.

Lemma rev_history_add (entry : HistoryEntry) (w : World) :
  List.rev (history (addHistory entry w).2) = take 100 (entry :: List.rev (history w)).
Proof.
  cbn. by rewrite <- firstn_rev, rev_app_distr.
Qed.

Lemma rev_history_record_all (entries : list HistoryEntry) (w : World) :
  take 100 (List.rev (history (record_all entries w)))
  = take 100 (List.rev entries ++ List.rev (history w)).
Proof.
  revert w. induction entries as [|e entries IH]; intros w; [done|].
  cbn [record_all List.fold_left]. fold (record_all entries (addHistory e w).2).
  rewrite IH, rev_history_add. cbn [List.rev]. rewrite <- app_assoc.
  apply take_app_take.
Qed.

(** X3. After any number of recordings, whatever the history held
    before, [/api/history] lists the 100 most recent entries, the
    newest first. *)
Theorem history_lists_newest_first (entries : list HistoryEntry) (w : World) :
  history_items (record_all entries w)
  = take 100 (List.rev entries ++ List.rev (history w)).
Proof.
  unfold history_items, slice_last. rewrite <- rev_history_record_all.
  by rewrite <- firstn_rev.
Qed.

(** ** Further properties: the batch handler *)

Lemma classic_In (q : string) (l : list string) : In q l \/ ~ In q l.
Proof. destruct (in_dec String.string_dec q l); auto. Qed.

Section BatchMore.
Context `{Env}.

(** The loop leaves the history and the counter of draws alone,
    however it ends. *)
Lemma loop_keeps_history
    (target : string) (files : list UploadedFile) (outputs : list Output)
    (w w' : World) (r : Res (list Output)) :
  for_of (convert_file target) files outputs w = (r, w') ->
  history w' = history w /\ draws w' = draws w.
Proof.
  revert outputs w. induction files as [|f files IH]; intros outputs w Hrun.
  - by injection Hrun as <- <-.
  - rewrite for_of_cons in Hrun.
    destruct (convert_file target f outputs w) as [[outs1|e] w1] eqn:Hturn.
    + apply convert_file_cases in Hturn as (Hh & Hd & _).
      apply IH in Hrun as [-> ->]. done.
    + apply convert_file_cases in Hturn as (Hh & Hd & _). by injection Hrun as <- <-.
Qed.

(** A loop that adds no item leaves the disk as it was. *)
Lemma loop_without_item_keeps_disk
    (target : string) (files : list UploadedFile) (outputs outputs' : list Output)
    (w w' : World) :
  for_of (convert_file target) files outputs w = (Ok outputs', w') ->
  okItems_of outputs' = okItems_of outputs ->
  fs w' = fs w.
Proof.
  revert outputs w. induction files as [|f files IH]; intros outputs w Hrun Hitems.
  - by injection Hrun as <- <-.
  - rewrite for_of_cons in Hrun.
    destruct (convert_file target f outputs w) as [[outs1|e] w1] eqn:Hturn; [|done].
    apply turn_items in Hturn as (_ & _ & _ & new & -> & Hnew).
    pose proof Hrun as Hrest.
    apply loop_items in Hrest as (_ & _ & _ & _ & more & -> & _).
    rewrite !okItems_of_app in Hitems.
    destruct Hnew as [(m & -> & _ & Hfs) | (Hitem & _)].
    + rewrite <- Hfs. apply (IH _ _ Hrun). rewrite !okItems_of_app.
      apply (f_equal length) in Hitems. rewrite !length_app in Hitems.
      destruct (okItems_of more); [by rewrite app_nil_r|cbn in Hitems; lia].
    + rewrite Hitem in Hitems. apply (f_equal length) in Hitems.
      rewrite !length_app in Hitems. cbn in Hitems. lia.
Qed.

(** The disk after the uploads have been unlinked. *)
Lemma cleanup_uploads_world (files : list UploadedFile) (w : World) :
  (cleanup_uploads files w).1 = Ok tt
  /\ history (cleanup_uploads files w).2 = history w
  /\ draws (cleanup_uploads files w).2 = draws w
  /\ forall q,
      (In q (unlinked files) -> fs (cleanup_uploads files w).2 !! q = None)
      /\ (~ In q (unlinked files) -> fs (cleanup_uploads files w).2 !! q = fs w !! q).
Proof.
  unfold cleanup_uploads, unlinked.
  enough (Hgen : forall w,
    exists bs w',
      promise_all (fun f => if truthy (path f) then removeIfExists (path f) else ret false)
        files w = (Ok bs, w')
      /\ history w' = history w /\ draws w' = draws w
      /\ forall q,
          let paths := List.map path (List.filter (fun f => truthy (path f)) files) in
          (In q paths -> fs w' !! q = None) /\ (~ In q paths -> fs w' !! q = fs w !! q)).
  { destruct (Hgen w) as (bs & w' & Hrun & Hh & Hd & Hfs).
    unfold bind. rewrite Hrun. done. }
  clear w. induction files as [|f files IH]; intros w.
  - exists [], w. repeat split; done.
  - cbn [promise_all List.filter]. destruct (truthy (path f)) eqn:Hp.
    + destruct (IH (set_fs (delete (path f)) (emit (EvUnlink (path f)) w)))
        as (bs & w' & Hrun & Hh & Hd & Hfs).
      exists (bool_decide (is_Some (fs w !! path f)) :: bs), w'.
      unfold bind at 1. rewrite removeIfExists_run. unfold bind at 1. rewrite Hrun.
      split; [done|]. split; [done|]. split; [done|].
      intros q. cbn zeta. cbn [List.map In].
      destruct (Hfs q) as [Hin Hout]. cbn in Hin, Hout.
      destruct (classic_In q (List.map path (List.filter (fun f => truthy (path f)) files)))
        as [Hq|Hq].
      * split; [auto|]. intros Hno. exfalso. apply Hno. by right.
      * rewrite (Hout Hq). split.
        -- intros [<-|?]; [|done]. apply lookup_delete_eq.
        -- intros Hno. apply lookup_delete_ne. intros <-. apply Hno. by left.
    + destruct (IH w) as (bs & w' & Hrun & Hrest).
      exists (false :: bs), w'. unfold bind at 1. cbn. unfold bind at 1.
      by rewrite Hrun.
Qed.

(** The handler once its loop has ended, down to the world it leaves. *)
Lemma convert_after_loop_world
    (req_target : option string) (files : list UploadedFile)
    (w w1 : World) (r : Res (list Output)) :
  files <> [] ->
  for_of (convert_file (target_of req_target)) files [] w = (r, w1) ->
  convert req_target files w =
    match r with
    | Throw _ =>
        (Ok (json_error 500 "Conversion failed"), (cleanup_uploads files w1).2)
    | Ok outputs =>
        match respond (target_of req_target) outputs w1 with
        | (Ok resp, w2) => (Ok resp, (cleanup_uploads files w2).2)
        | (Throw _, w2) =>
            (Ok (json_error 500 "Conversion failed"), (cleanup_uploads files w2).2)
        end
    end.
Proof.
  intros Hne Hloop. unfold convert. destruct files as [|f files']; [done|].
  unfold try_finally, try_catch. unfold bind at 1. rewrite Hloop.
  destruct r as [outputs|e].
  - destruct (respond _ outputs w1) as [[resp|e] w2]; cbn.
    + pose proof (cleanup_uploads_world (f :: files') w2) as [Hok _].
      destruct (cleanup_uploads (f :: files') w2) as [[[]|e] w3]; [done|discriminate Hok].
    + pose proof (cleanup_uploads_world (f :: files') w2) as [Hok _].
      destruct (cleanup_uploads (f :: files') w2) as [[[]|e'] w3]; [done|discriminate Hok].
  - cbn. pose proof (cleanup_uploads_world (f :: files') w1) as [Hok _].
    destruct (cleanup_uploads (f :: files') w1) as [[[]|e'] w3]; [done|discriminate Hok].
Qed.

End BatchMore.

Section Packaging.
Context `{Env}.

(** The packaging of a single item that is on disk. *)
Lemma respond_one (target : string) (outputs : list Output) (w : World)
    (p n : string) (c : bytes) :
  okItems_of outputs = [(p, n)] ->
  fs w !! p = Some c ->
  let entry := {| h_id := nanoid 10 (draws w); h_name := n; h_count := 1;
                  h_target := target; h_time := now (S (draws w)) |} in
  let mappedPath := NodePath.join_path [OUT_DIR; h_id entry +:+ "-" +:+ n] in
  exists w',
    match rename_rejects p mappedPath with
    | None =>
        respond target outputs w = (Ok (json_url (link_of entry)), w')
        /\ history w' = history (addHistory entry w).2
        /\ fs w' = <[mappedPath := c]> (delete p (fs w))
    | Some e =>
        respond target outputs w = (Throw e, w')
        /\ history w' = history w
    end.
Proof.
  intros Hitems Hp entry mappedPath.
  assert (Hrun : respond target outputs w
                 = (rename p mappedPath ;;
                    t <- date_now ;;
                    addHistory {| h_id := h_id entry; h_name := n; h_count := 1;
                                  h_target := target; h_time := t |} ;;
                    ret (json_url (link_of entry))) (drawn w)).
  { unfold respond. by rewrite Hitems. }
  rewrite Hrun. unfold rename, date_now, addHistory. run_m. rewrite Hp.
  destruct (rename_rejects p mappedPath) as [e|]; eexists; (split; [reflexivity|done]).
Qed.

(** What the removal of the zipped outputs leaves of them. *)
Lemma outputs_removed_gone (items : list (string * string)) (w w' : World)
    (bs : list bool) :
  promise_all (fun i => removeIfExists i.1) items w = (Ok bs, w') ->
  forall item, In item items -> fs w' !! item.1 = None.
Proof.
  revert w bs. induction items as [|i items IH]; intros w bs Hrun item Hin; [done|].
  cbn [promise_all] in Hrun. unfold bind at 1 in Hrun.
  rewrite removeIfExists_run in Hrun. unfold bind at 1 in Hrun.
  destruct (promise_all _ items _) as [[bs'|e] w1] eqn:Hrest; [|done].
  injection Hrun as _ <-.
  destruct (classic_In item.1 (List.map fst items)) as [Hlater|Hlater].
  - apply in_map_iff in Hlater as (item' & Heq & Hin'). rewrite <- Heq.
    by apply (IH _ _ Hrest).
  - destruct Hin as [->|Hin]; [|exfalso; apply Hlater; by apply in_map].
    destruct (outputs_removed items (set_fs (delete item.1) (emit (EvUnlink item.1) w)))
      as (bs2 & w2 & Hrun2 & _ & _ & _ & Hkeep).
    rewrite Hrest in Hrun2. injection Hrun2 as _ <-.
    rewrite Hkeep; [apply lookup_delete_eq|].
    intros item' Hin' Heq. apply Hlater. rewrite <- Heq. by apply in_map.
Qed.

(** The packaging of two or more items that are on disk, none of them
    at the path of the archive, down to the disk and the history it
    leaves. *)
Lemma respond_many (target : string) (outputs : list Output) (w : World) :
  let items := okItems_of outputs in
  let zipName := "converted-" +:+ pretty (now (draws w)) +:+ ".zip" in
  let zipTemp := NodePath.join_path [OUT_DIR; zipName] in
  let entry := {| h_id := nanoid 10 (S (draws w)); h_name := zipName;
                  h_count := length items; h_target := target;
                  h_time := now (S (S (draws w))) |} in
  let mappedPath := NodePath.join_path [OUT_DIR; h_id entry +:+ "-" +:+ zipName] in
  (2 <= length items)%nat ->
  (forall item, In item items -> is_Some (fs w !! item.1) /\ item.1 <> zipTemp) ->
  exists entries w',
    Forall2 (fun item entry => entry.1 = item.2 /\ fs w !! item.1 = Some entry.2)
      items entries
    /\ match rename_rejects zipTemp mappedPath with
       | None =>
           respond target outputs w = (Ok (json_url (link_of entry)), w')
           /\ history w' = history (addHistory entry w).2
           /\ fs w' !! mappedPath = Some (zip entries)
           /\ (forall q, q <> mappedPath ->
                 fs w' !! q
                 = if bool_decide (q ∈ zipTemp :: List.map fst items) then None
                   else fs w !! q)
       | Some e =>
           respond target outputs w = (Throw e, w')
           /\ history w' = history w
       end.
Proof.
  intros items zipName zipTemp entry mappedPath Hlen Hitems.
  set (wa := set_fs (insert zipTemp []) (emit (EvCreateWriteStream zipTemp) (drawn w))).
  destruct (archive_appends items wa) as (entries & wb & Happ & Hfsb & Hhb & Hdb & Hlogb & Hall).
  { intros item Hin. destruct (Hitems item Hin) as [Hsome Hne].
    unfold wa. simpl. by rewrite lookup_insert_ne. }
  set (wc := set_fs (insert zipTemp (zip entries)) (emit (EvArchiveFinalize zipTemp) wb)).
  destruct (outputs_removed items wc) as (bs & wd & Hrem & Hhd & Hdd & Hlogd & Hkeep).
  pose proof (outputs_removed_gone _ _ _ _ Hrem) as Hgone.
  assert (Hzip : fs wd !! zipTemp = Some (zip entries)).
  { rewrite Hkeep by (intros item Hin; by apply Hitems).
    unfold wc. simpl. apply lookup_insert_eq. }
  assert (Hdraws : draws wd = S (draws w)).
  { rewrite Hdd. unfold wc. simpl. rewrite Hdb. done. }
  assert (Hhist : history wd = history w).
  { rewrite Hhd. unfold wc. simpl. rewrite Hhb. done. }
  assert (Hentries : Forall2 (fun item entry =>
              entry.1 = item.2 /\ fs w !! item.1 = Some entry.2) items entries).
  { eapply Forall2_impl_In; [exact Hall|].
    intros item e Hin [Hname Hcontent]. split; [done|].
    rewrite <- Hcontent. unfold wa. simpl. symmetry. apply lookup_insert_ne.
    by apply not_eq_sym, Hitems. }
  assert (Hrun : respond target outputs w
                 = (rename zipTemp mappedPath ;;
                    t <- date_now ;;
                    addHistory {| h_id := h_id entry; h_name := zipName;
                                  h_count := length items; h_target := target;
                                  h_time := t |} ;;
                    ret (json_url (link_of entry))) (drawn wd)).
  { unfold respond. fold items.
    destruct items as [|i1 [|i2 rest]] eqn:Hshape; [simpl in Hlen; lia..|].
    destruct i1 as [p1 n1]. rewrite <- Hshape in *. clear Hshape.
    unfold date_now at 1. unfold bind at 1. fold zipName zipTemp.
    unfold make_zip. run_m. fold wa. rewrite Happ. fold wc. simpl.
    rewrite Hrem. simpl. rewrite Hdraws. fold mappedPath.
    rewrite Hzip. reflexivity. }
  exists entries. rewrite Hrun. unfold rename, date_now, addHistory. run_m. rewrite Hzip.
  destruct (rename_rejects zipTemp mappedPath) as [e|].
  { eexists. split; [exact Hentries|]. split; [reflexivity|]. done. }
  eexists. split; [exact Hentries|]. split; [reflexivity|]. split; [|split].
  - cbn. rewrite Hdraws, Hhist. reflexivity.
  - simpl. apply lookup_insert_eq.
  - simpl. intros q Hq. rewrite lookup_insert_ne by done.
    case_bool_decide as Hcase.
    + apply elem_of_cons in Hcase as [->|Hin]; [apply lookup_delete_eq|].
      destruct (decide (zipTemp = q)) as [->|Hne]; [apply lookup_delete_eq|].
      rewrite lookup_delete_ne by done.
      apply list_elem_of_In, in_map_iff in Hin as (item & <- & Hin). by apply Hgone.
    + destruct (decide (zipTemp = q)) as [<-|Hne]; [exfalso; apply Hcase; by left|].
      rewrite lookup_delete_ne by done.
      rewrite Hkeep.
      * unfold wc. simpl. rewrite lookup_insert_ne by done. rewrite Hfsb.
        unfold wa. simpl. by rewrite lookup_insert_ne.
      * intros item Hin Heq. apply Hcase. right. rewrite <- Heq.
        by apply list_elem_of_In, in_map.
Qed.

End Packaging.

Section Outcomes.
Context `{Env}.

(** Each file adds at most one item. *)
Lemma loop_items_count
    (target : string) (files : list UploadedFile) (outputs outputs' : list Output)
    (w w' : World) :
  for_of (convert_file target) files outputs w = (Ok outputs', w') ->
  (length (okItems_of outputs') <= length (okItems_of outputs) + length files)%nat.
Proof.
  revert outputs w. induction files as [|f files IH]; intros outputs w Hrun.
  - injection Hrun as <- <-. lia.
  - rewrite for_of_cons in Hrun.
    destruct (convert_file target f outputs w) as [[outs1|e] w1] eqn:Hturn; [|done].
    apply turn_items in Hturn as (_ & _ & _ & new & -> & Hnew).
    apply IH in Hrun. rewrite okItems_of_app, length_app in Hrun. cbn [length].
    destruct Hnew as [(m & -> & _) | (Hitem & _)].
    + cbn in Hrun. lia.
    + rewrite Hitem in Hrun. cbn [length] in Hrun. lia.
Qed.

(** The name of the archive is the name of no output. *)
Lemma item_not_archive (target : string) (files : list UploadedFile)
    (item : string * string) (t0 : N) :
  item_of target files item ->
  item.1 <> NodePath.join_path [OUT_DIR; "converted-" +:+ pretty t0 +:+ ".zip"].
Proof.
  intros (f & _ & -> & Ht). cbn [fst].
  rewrite <- (StringFacts.app_assoc "converted-" (pretty t0) ".zip").
  by apply out_path_not_zip.
Qed.

(** The packaging of the items of a loop that ran to its end. *)
Lemma respond_outcome
    (target : string) (files : list UploadedFile) (outputs : list Output)
    (w w1 : World) :
  for_of (convert_file target) files [] w = (Ok outputs, w1) ->
  okItems_of outputs <> [] ->
  exists w2,
    match promotion_rejected (okItems_of outputs) w1 with
    | Some e =>
        respond target outputs w1 = (Throw e, w2) /\ history w2 = history w
    | None =>
        exists entry,
          respond target outputs w1 = (Ok (json_url (link_of entry)), w2)
          /\ history w2 = history (addHistory entry w).2
          /\ h_count entry = length (okItems_of outputs)
          /\ h_target entry = target
    end.
Proof.
  intros Hloop Hsome.
  pose proof (loop_items _ _ _ _ _ _ Hloop) as (Hh & Hd & _ & _ & more & Hmore & Hitems).
  cbn [app] in Hmore. subst more. unfold promotion_rejected, promotion.
  destruct (okItems_of outputs) as [|[p n] [|i2 rest]] eqn:Hshape; [done| |].
  - destruct (Hitems (p, n)) as [[c Hc] _]; [by left|].
    destruct (respond_one target outputs w1 p n c Hshape Hc) as (w2 & Hresp).
    exists w2. cbn [fst snd h_id] in *.
    destruct (rename_rejects p _) as [e|].
    + destruct Hresp as [Hresp Hhist]. split; [done|congruence].
    + destruct Hresp as (Hresp & Hhist & _). eexists. split; [exact Hresp|].
      split; [|done]. rewrite Hhist. cbn. by rewrite Hh, Hd.
  - destruct (respond_many target outputs w1) as (entries & w2 & _ & Hresp).
    { rewrite Hshape. cbn [length]. lia. }
    { rewrite Hshape. intros item Hin. destruct (Hitems item Hin) as [Hdisk Hof].
      split; [done|]. by eapply item_not_archive. }
    exists w2. cbn [fst snd h_id] in *.
    destruct (rename_rejects _ _) as [e|].
    + destruct Hresp as [Hresp Hhist]. split; [done|congruence].
    + destruct Hresp as (Hresp & Hhist & _). eexists. split; [exact Hresp|].
      split; [|by rewrite Hshape]. rewrite Hhist. cbn. by rewrite Hh, Hd.
Qed.

(** The handler on a batch, by the way its loop ends and by what the
    disk makes of the rename. *)
Lemma convert_outcome
    (req_target : option string) (files : list UploadedFile) (w : World) :
  files <> [] ->
  match loop_of req_target files w with
  | (Throw _, w1) =>
      convert req_target files w
      = (Ok (json_error 500 "Conversion failed"), (cleanup_uploads files w1).2)
  | (Ok outputs, w1) =>
      match okItems_of outputs with
      | [] =>
          convert req_target files w
          = (Ok (json_error 422 (firstErr outputs)), (cleanup_uploads files w1).2)
          /\ fs w1 = fs w
      | items =>
          exists w2,
            match promotion_rejected items w1 with
            | Some e =>
                respond (target_of req_target) outputs w1 = (Throw e, w2)
                /\ convert req_target files w
                   = (Ok (json_error 500 "Conversion failed"),
                      (cleanup_uploads files w2).2)
                /\ history w2 = history w
            | None =>
                exists entry,
                  respond (target_of req_target) outputs w1
                  = (Ok (json_url (link_of entry)), w2)
                  /\ convert req_target files w
                     = (Ok (json_url (link_of entry)), (cleanup_uploads files w2).2)
                  /\ history w2 = history (addHistory entry w).2
                  /\ h_count entry = length items
                  /\ h_target entry = target_of req_target
            end
      end
  end.
Proof.
  intros Hne. unfold loop_of.
  destruct (for_of _ files [] w) as [[outputs|e] w1] eqn:Hloop.
  - pose proof (convert_after_loop_world _ _ _ _ _ Hne Hloop) as Hconv. cbv iota in Hconv.
    destruct (okItems_of outputs) as [|i items] eqn:Hshape.
    + split.
      * rewrite Hconv. unfold respond. by rewrite Hshape.
      * apply (loop_without_item_keeps_disk _ _ _ _ _ _ Hloop). by rewrite Hshape.
    + destruct (respond_outcome _ _ _ _ _ Hloop) as (w2 & Hcase); [by rewrite Hshape|].
      exists w2. rewrite Hshape in Hcase.
      destruct (promotion_rejected (i :: items) w1) as [e|].
      * destruct Hcase as [Hresp Hhist]. rewrite Hconv, Hresp. done.
      * destruct Hcase as (entry & Hresp & Hhist & Hc & Ht).
        exists entry. rewrite Hconv, Hresp. done.
  - by rewrite (convert_after_loop_world _ _ _ _ _ Hne Hloop).
Qed.

(** X4. The status of the answer of [/api/convert] follows from the
    way the loop ends and from what the disk makes of the rename.
    When the target field is absent or one string the handler
    answers: 400 for a request without files; otherwise 500 when a
    turn of the loop throws, 422 when the loop ends without a
    converted output and, when it ends with one or more, 200 when the
    disk accepts the rename of the output or of the archive and 500
    when it rejects it. When the field is repeated or keyed, the
    handler throws before it has answered or touched anything. *)
Theorem status_follows_loop
    (target : Field) (files : list UploadedFile) (w : World) :
  match field_text target with
  | None =>
      post_convert target files w = (Throw (TypeError "toLowerCase is not a function"), w)
  | Some req_target =>
      exists resp w',
        post_convert target files w = (Ok resp, w')
        /\ status resp =
             match files with
             | [] => 400
             | _ =>
                 match loop_of req_target files w with
                 | (Throw _, _) => 500
                 | (Ok outputs, w1) =>
                     match okItems_of outputs with
                     | [] => 422
                     | items =>
                         match promotion_rejected items w1 with
                         | Some _ => 500
                         | None => 200
                         end
                     end
                 end
             end
  end.
Proof.
  assert (Hconvert : forall req_target,
    exists resp w',
      convert req_target files w = (Ok resp, w')
      /\ status resp =
           match files with
           | [] => 400
           | _ =>
               match loop_of req_target files w with
               | (Throw _, _) => 500
               | (Ok outputs, w1) =>
                   match okItems_of outputs with
                   | [] => 422
                   | items =>
                       match promotion_rejected items w1 with
                       | Some _ => 500
                       | None => 200
                       end
                   end
               end
           end).
  { intros req_target. destruct files as [|f files]; [by eexists _, _|].
    pose proof (convert_outcome req_target (f :: files) w) as Hcase.
    destruct (loop_of req_target (f :: files) w) as [[outputs|e] w1];
      [|rewrite Hcase by done; by eexists _, _].
    destruct (okItems_of outputs) as [|i items].
    - destruct Hcase as [-> _]; [done|]. by eexists _, _.
    - destruct Hcase as (w2 & Hcase); [done|].
      destruct (promotion_rejected (i :: items) w1) as [e|].
      + destruct Hcase as (_ & -> & _). by eexists _, _.
      + destruct Hcase as (entry & _ & -> & _). by eexists _, _. }
  destruct target as [|value|values|keys]; cbn [field_text post_convert]; auto.
Qed.

(** X5. The history grows only with a success. With status 200 the
    handler has recorded one entry: the one whose id and name make
    the link it returns, with the target of the request and the
    number of converted outputs, which is at least one and at most
    the number of files. With any other status the history is as it
    was. *)
Theorem history_records_successes
    (req_target : option string) (files : list UploadedFile) (w : World) :
  exists resp w',
    convert req_target files w = (Ok resp, w')
    /\ ((status resp = 200
         /\ exists entry,
              body resp = JsonUrl (link_of entry)
              /\ history w' = history (addHistory entry w).2
              /\ h_target entry = target_of req_target
              /\ (1 <= h_count entry <= length files)%nat)
        \/ (status resp <> 200 /\ history w' = history w)).
Proof.
  destruct files as [|f files]; [eexists _, _; split; [done|]; by right|].
  pose proof (convert_outcome req_target (f :: files) w) as Hcase.
  pose proof (fun w2 => cleanup_uploads_world (f :: files) w2) as Hfin.
  destruct (loop_of req_target (f :: files) w) as [[outputs|e] w1] eqn:Hloop.
  - pose proof (loop_items_count _ _ _ _ _ _ Hloop) as Hcount.
    pose proof (loop_keeps_history _ _ _ _ _ _ Hloop) as [Hh _].
    destruct (okItems_of outputs) as [|i items].
    + destruct Hcase as [-> _]; [done|]. eexists _, _. split; [done|]. right.
      split; [done|]. destruct (Hfin w1) as (_ & -> & _). done.
    + destruct Hcase as (w2 & Hcase); [done|].
      destruct (promotion_rejected (i :: items) w1) as [e|].
      * destruct Hcase as (_ & -> & Hhist). eexists _, _. split; [done|]. right.
        split; [done|]. destruct (Hfin w2) as (_ & -> & _). done.
      * destruct Hcase as (entry & _ & -> & Hhist & Hc & Ht).
        eexists _, _. split; [done|]. left. split; [done|]. exists entry.
        split; [done|]. destruct (Hfin w2) as (_ & -> & _).
        split; [done|]. split; [done|]. rewrite Hc.
        change (okItems_of []) with (@nil (string * string)) in Hcount.
        cbn [length] in *. lia.
  - pose proof (loop_keeps_history _ _ _ _ _ _ Hloop) as [Hh _].
    rewrite Hcase by done. eexists _, _. split; [done|]. right.
    split; [done|]. destruct (Hfin w1) as (_ & -> & _). done.
Qed.

End Outcomes.

Section Refusals.
Context `{Env}.

(** A turn of the loop for a target that is neither [txt] nor [docx]:
    the file is refused by the check of its kind or for the target. *)
Lemma unknown_target_turn
    (target : string) (uploaded : UploadedFile) (outputs : list Output) (w : World) :
  target <> "txt" -> target <> "docx" ->
  exists w',
    convert_file target uploaded outputs w
    = (Ok (outputs ++ [Failure (refusal target uploaded w)]), w')
    /\ truthy (refusal target uploaded w) = true
    /\ fs w' = fs w.
Proof.
  intros Htxt Hdocx. unfold convert_file, refusal, ext_of.
  unfold bind at 1. rewrite precheck_run.
  apply String.eqb_neq in Htxt, Hdocx. rewrite Htxt, Hdocx.
  destruct (String.eqb _ ".txt"); [|destruct (String.eqb _ ".docx")].
  - destruct (match fs w !! path uploaded with Some _ => _ | None => _ end);
      eexists; (split; [reflexivity|]); by split.
  - cbn [andb]. destruct (mime_rejected _); eexists; (split; [reflexivity|]); by split.
  - eexists. split; [reflexivity|]. by split.
Qed.

Lemma unknown_target_loop
    (target : string) (files : list UploadedFile) (outputs : list Output) (w : World) :
  target <> "txt" -> target <> "docx" ->
  exists more w',
    for_of (convert_file target) files outputs w = (Ok (outputs ++ more), w')
    /\ okItems_of more = []
    /\ fs w' = fs w.
Proof.
  intros Htxt Hdocx. revert outputs w.
  induction files as [|f files IH]; intros outputs w.
  - exists [], w. by rewrite app_nil_r.
  - destruct (unknown_target_turn target f outputs w Htxt Hdocx)
      as (w1 & Hturn & _ & Hfs1).
    destruct (IH (outputs ++ [Failure (refusal target f w)]) w1)
      as (more & w' & Hrun & Hnone & Hfs).
    exists (Failure (refusal target f w) :: more), w'. rewrite for_of_cons, Hturn, Hrun.
    rewrite <- app_assoc. split; [done|]. split; [done|congruence].
Qed.

(** X6. A target other than [txt] and [docx] converts nothing: every
    non-empty batch is answered 422 with the refusal of its first
    file as the message, which is "Not a text file" for a [.txt]
    that is missing or holds a null byte, "Not a DOCX file" for a
    [.docx] with a detected type that is neither of the two let
    through, and "Unsupported target" otherwise; no file is written,
    the uploads are unlinked and the history is as it was. *)
Theorem unknown_target_converts_nothing
    (req_target : option string) (f : UploadedFile) (files : list UploadedFile)
    (w : World) :
  target_of req_target <> "txt" ->
  target_of req_target <> "docx" ->
  exists w',
    convert req_target (f :: files) w
    = (Ok (json_error 422 (refusal (target_of req_target) f w)), w')
    /\ history w' = history w
    /\ forall q,
         fs w' !! q = if bool_decide (q ∈ unlinked (f :: files)) then None else fs w !! q.
Proof.
  intros Htxt Hdocx.
  destruct (unknown_target_turn (target_of req_target) f [] w Htxt Hdocx)
    as (w1 & Hturn & Htruthy & Hfs1).
  set (m := refusal (target_of req_target) f w) in *.
  destruct (unknown_target_loop (target_of req_target) files ([] ++ [Failure m]) w1
              Htxt Hdocx) as (more & w2 & Hrun & Hnone & Hfs2).
  assert (Hloop : for_of (convert_file (target_of req_target)) (f :: files) [] w
                  = (Ok (Failure m :: more), w2)).
  { by rewrite for_of_cons, Hturn, Hrun. }
  pose proof (loop_keeps_history _ _ _ _ _ _ Hloop) as [Hh _].
  pose proof (convert_after_loop_world req_target (f :: files) w w2 _ ltac:(done) Hloop)
    as Hconv. cbv iota in Hconv.
  assert (Hresp : respond (target_of req_target) (Failure m :: more) w2
                  = (Ok (json_error 422 m), w2)).
  { unfold respond. change (okItems_of (Failure m :: more)) with (okItems_of more).
    rewrite Hnone. unfold firstErr. cbn [List.find has_err].
    rewrite Htruthy. unfold or_else. by rewrite Htruthy. }
  rewrite Hresp in Hconv.
  destruct (cleanup_uploads_world (f :: files) w2) as (_ & Hhist & _ & Hdisk).
  eexists. split; [exact Hconv|]. split; [congruence|].
  intros q. destruct (Hdisk q) as [Hin Hout]. case_bool_decide as Hq.
  - apply Hin. by apply list_elem_of_In.
  - rewrite Hout by (by rewrite <- list_elem_of_In). congruence.
Qed.

(** X7. An answer 422 leaves nothing behind: the disk is the disk of
    before the request without the uploads of the batch, and the
    history is as it was. *)
Theorem refused_batch_leaves_no_output
    (req_target : option string) (files : list UploadedFile) (w w' : World)
    (resp : Response) :
  convert req_target files w = (Ok resp, w') ->
  status resp = 422 ->
  history w' = history w
  /\ forall q,
       fs w' !! q = if bool_decide (q ∈ unlinked files) then None else fs w !! q.
Proof.
  intros Hconv Hstatus.
  destruct files as [|f files]; [by injection Hconv as <- <-|].
  pose proof (convert_outcome req_target (f :: files) w ltac:(done)) as Hcase.
  destruct (loop_of req_target (f :: files) w) as [[outputs|e] w1] eqn:Hloop.
  - pose proof (loop_keeps_history _ _ _ _ _ _ Hloop) as [Hh _].
    destruct (okItems_of outputs).
    + destruct Hcase as [Heq Hfs]. rewrite Heq in Hconv. injection Hconv as _ <-.
      destruct (cleanup_uploads_world (f :: files) w1) as (_ & Hhist & _ & Hdisk).
      split; [congruence|]. intros q. destruct (Hdisk q) as [Hin Hout].
      case_bool_decide as Hq.
      * apply Hin. by apply list_elem_of_In.
      * rewrite Hout by (by rewrite <- list_elem_of_In). congruence.
    + destruct Hcase as (w2 & Hcase).
      destruct (promotion_rejected _ w1) as [e|].
      * destruct Hcase as (_ & Heq & _). rewrite Heq in Hconv.
        by injection Hconv as <- _.
      * destruct Hcase as (entry & _ & Heq & _). rewrite Heq in Hconv.
        by injection Hconv as <- _.
  - rewrite Hcase in Hconv. by injection Hconv as <- _.
Qed.

End Refusals.

(** ** Further properties: paths *)

Module PathNormal.
Import StringFacts PathFacts.

Lemma split_no_sep_inside (c : ascii) (s : string) :
  Forall (fun x => has_char c x = false) (split c s).
Proof.
  induction s as [|x s IH]; cbn [split]; [by constructor|].
  destruct (Ascii.eqb x c) eqn:Hx; [by constructor|].
  destruct (split c s) as [|h t]; [by constructor; [cbn; rewrite Hx|]|].
  inversion IH as [|? ? Hh Ht]; subst. constructor; [|done]. cbn. by rewrite Hx, Hh.
Qed.

Lemma plain_clean (x : string) : plain_segment x -> clean_segment x.
Proof.
  intros [Hsep Hlen]. split; [done|].
  destruct x as [|a [|b [|c x]]]; cbn in Hlen; try lia. done.
Qed.

Lemma norm_step_of_clean (aa : bool) (acc : list string) (seg : string) :
  clean_segment seg -> NodePath.norm_step aa acc seg = acc ++ [seg].
Proof.
  intros (_ & H0 & H1 & H2). unfold NodePath.norm_step.
  apply String.eqb_neq in H0, H1, H2. by rewrite H0, H1, H2.
Qed.

Lemma norm_fold_clean (aa : bool) (segs acc : list string) :
  Forall clean_segment segs ->
  List.fold_left (NodePath.norm_step aa) segs acc = acc ++ segs.
Proof.
  intros Hsegs. revert acc. induction Hsegs as [|seg segs Hseg _ IH]; intros acc.
  - by rewrite List.app_nil_r.
  - cbn [List.fold_left]. rewrite norm_step_of_clean by done.
    by rewrite IH, <- List.app_assoc.
Qed.

Lemma norm_step_keeps_clean (acc : list string) (seg : string) :
  has_char "/" seg = false -> Forall clean_segment acc ->
  Forall clean_segment (NodePath.norm_step false acc seg).
Proof.
  intros Hsep Hacc. unfold NodePath.norm_step.
  destruct (String.eqb seg "") eqn:H0; [done|].
  destruct (String.eqb seg ".") eqn:H1; [done|]. cbn [orb].
  destruct (String.eqb seg "..") eqn:H2.
  - destruct (List.rev acc) as [|top below] eqn:Hrev; [done|].
    destruct (String.eqb top ".."); [done|].
    apply (f_equal (@List.rev string)) in Hrev. rewrite rev_involutive in Hrev.
    cbn [List.rev] in Hrev. rewrite Hrev in Hacc. by apply Forall_app in Hacc as [? _].
  - apply Forall_app. split; [done|]. constructor; [|done].
    apply String.eqb_neq in H0, H1, H2. done.
Qed.

Lemma norm_fold_keeps_clean (segs acc : list string) :
  Forall (fun x => has_char "/" x = false) segs -> Forall clean_segment acc ->
  Forall clean_segment (List.fold_left (NodePath.norm_step false) segs acc).
Proof.
  intros Hsegs. revert acc. induction Hsegs as [|seg segs Hseg _ IH]; intros acc Hacc.
  - done.
  - cbn [List.fold_left]. apply IH. by apply norm_step_keeps_clean.
Qed.

Lemma norm_segs_clean (p : string) :
  Forall clean_segment (NodePath.norm_segs false (split "/" p)).
Proof. apply norm_fold_keeps_clean; [apply split_no_sep_inside|constructor]. Qed.

Lemma split_join (segs : list string) :
  Forall (fun x => has_char "/" x = false) segs ->
  split "/" (join "/" segs) = match segs with [] => [""] | _ => segs end.
Proof.
  induction 1 as [|p rest Hp Hrest IH]; [done|].
  destruct rest as [|q rest]; [by apply split_no_sep|].
  change (join "/" (p :: q :: rest)) with (p +:+ String "/" (join "/" (q :: rest))).
  by rewrite split_app_sep, IH, split_no_sep.
Qed.

Lemma clean_no_sep (segs : list string) :
  Forall clean_segment segs -> Forall (fun x => has_char "/" x = false) segs.
Proof. intros Hsegs. eapply Forall_impl; [exact Hsegs|]. by intros x [? _]. Qed.

(** Normalizing the absolute path of clean segments gives them back. *)
Lemma norm_abs_of (aa : bool) (segs : list string) :
  Forall clean_segment segs ->
  NodePath.norm_segs aa (split "/" (abs_of segs)) = segs.
Proof.
  intros Hsegs. unfold abs_of, NodePath.norm_segs.
  change ("/" +:+ join "/" segs) with (String "/" (join "/" segs)).
  cbn [split]. rewrite Ascii.eqb_refl, split_join by by apply clean_no_sep.
  cbn [List.fold_left]. change (NodePath.norm_step aa [] "") with (@nil string).
  destruct segs as [|s segs]; [done|]. by rewrite norm_fold_clean.
Qed.

Lemma abs_of_inj (a b : list string) :
  Forall clean_segment a -> Forall clean_segment b -> abs_of a = abs_of b -> a = b.
Proof.
  intros Ha Hb Heq. rewrite <- (norm_abs_of false a Ha), <- (norm_abs_of false b Hb).
  by rewrite Heq.
Qed.

Lemma isAbsolute_cons (d : string) : NodePath.isAbsolute (String "/" d) = true.
Proof.
  unfold NodePath.isAbsolute. cbn [startsWith]. rewrite Ascii.eqb_refl. by destruct d.
Qed.

Lemma isAbsolute_abs_of (segs : list string) : NodePath.isAbsolute (abs_of segs) = true.
Proof. apply isAbsolute_cons. Qed.

Lemma isAbsolute_inv (d : string) :
  NodePath.isAbsolute d = true -> exists d', d = String "/" d'.
Proof.
  unfold NodePath.isAbsolute. destruct d as [|c d]; cbn [startsWith]; [done|].
  destruct (Ascii.eqb "/" c) eqn:Hc; [|done]. apply Ascii.eqb_eq in Hc as <-. eauto.
Qed.

Lemma segments_abs_of (segs : list string) :
  Forall clean_segment segs -> segments (abs_of segs) = segs.
Proof.
  intros Hsegs. unfold segments, abs_of.
  change ("/" +:+ join "/" segs) with (String "/" (join "/" segs)).
  cbn [split]. rewrite Ascii.eqb_refl, split_join by by apply clean_no_sep.
  cbn [List.filter NodePath.nonempty truthy].
  destruct segs as [|s segs]; [done|].
  apply forallb_filter_id. apply forallb_forall. intros x Hin.
  rewrite Forall_forall in Hsegs.
  destruct (Hsegs x) as (_ & H0 & _); [by apply list_elem_of_In|]. by destruct x.
Qed.

(** [path.join] and [path.resolve] of an absolute directory and a
    plain name agree, whatever the working directory. *)
Lemma join_abs (d x : string) :
  NodePath.isAbsolute d = true -> plain_segment x ->
  NodePath.join_path [d; x] = abs_of (NodePath.norm_segs false (split "/" d) ++ [x]).
Proof.
  intros Habs [Hsep Hlen]. destruct (isAbsolute_inv d Habs) as [d' ->].
  assert (Hx : truthy x = true) by (destruct x; [cbn in Hlen; lia|done]).
  unfold NodePath.join_path. cbn [List.filter NodePath.nonempty truthy].
  unfold NodePath.nonempty. rewrite Hx.
  change (join "/" [String "/" d'; x]) with (String "/" d' +:+ String "/" x).
  unfold NodePath.normalize.
  rewrite app_cons. cbn [truthy negb]. cbv iota.
  rewrite isAbsolute_cons.
  assert (endsWith (String "/" (d' +:+ String "/" x)) "/" = false) as ->.
  { apply not_true_is_false. intros Hends%endsWith_last_char.
    rewrite <- app_cons in Hends.
    change (String "/" d' +:+ String "/" x) with (String "/" d' +:+ "/" +:+ x) in Hends.
    rewrite <- app_assoc, last_char_app in Hends by done. by apply has_char_last in Hsep. }
  unfold NodePath.normalizeString. rewrite <- app_cons, split_app_sep.
  rewrite (split_no_sep "/" x Hsep), norm_segs_snoc by done. cbn [negb].
  set (body := join "/" _).
  assert (truthy body = true) as ->.
  { unfold body. rewrite join_snoc. by apply truthy_app_r. }
  cbn [negb]. cbv iota. unfold abs_of. fold body. by rewrite app_nil_r.
Qed.

Lemma resolve_abs (cwd d x : string) :
  NodePath.isAbsolute d = true -> plain_segment x ->
  NodePath.resolve cwd [d; x] = abs_of (NodePath.norm_segs false (split "/" d) ++ [x]).
Proof.
  intros Habs [Hsep Hlen]. destruct (isAbsolute_inv d Habs) as [d' ->].
  assert (Hx : truthy x = true) by (destruct x; [cbn in Hlen; lia|done]).
  assert (Hrel : NodePath.isAbsolute x = false).
  { destruct x as [|c x]; [done|]. cbn in Hsep. apply orb_false_elim in Hsep as [Hc _].
    unfold NodePath.isAbsolute. cbn [startsWith]. by rewrite Ascii.eqb_sym, Hc. }
  unfold NodePath.resolve. cbn [NodePath.resolve_prefix]. rewrite Hx, Hrel.
  cbn [negb truthy]. cbv iota. rewrite isAbsolute_cons.
  cbv iota. unfold abs_of. f_equal. unfold NodePath.normalizeString. f_equal. cbn [negb].
  change (String "/" d' +:+ "/" +:+ x +:+ "/" +:+ "")
    with (String "/" d' +:+ String "/" (x +:+ String "/" "")).
  rewrite !split_app_sep, (split_no_sep "/" x Hsep).
  change (split "/" "") with [""]. rewrite List.app_assoc.
  unfold NodePath.norm_segs at 1. rewrite fold_left_app. cbn [List.fold_left].
  change (NodePath.norm_step false ?acc "") with acc.
  by apply (norm_segs_snoc false (split "/" (String "/" d')) x).
Qed.

Lemma resolve_abs_dir (cwd d : string) :
  NodePath.isAbsolute d = true ->
  NodePath.resolve cwd [d] = abs_of (NodePath.norm_segs false (split "/" d)).
Proof.
  intros Habs. destruct (isAbsolute_inv d Habs) as [d' ->].
  unfold NodePath.resolve. cbn [NodePath.resolve_prefix negb truthy]. cbv iota.
  rewrite isAbsolute_cons. cbv iota.
  unfold abs_of. f_equal. unfold NodePath.normalizeString. f_equal. cbn [negb].
  change (String "/" d' +:+ "/" +:+ "") with (String "/" d' +:+ String "/" "").
  rewrite split_app_sep. change (split "/" "") with [""].
  unfold NodePath.norm_segs. rewrite fold_left_app. reflexivity.
Qed.

Lemma startsWith_app (p x : string) : startsWith (p +:+ x) p = true.
Proof.
  induction p as [|c p IH]; [by destruct x|].
  rewrite app_cons. cbn. by rewrite Ascii.eqb_refl.
Qed.

Lemma abs_of_snoc (segs : list string) (x : string) :
  segs <> [] -> abs_of (segs ++ [x]) = (abs_of segs +:+ "/") +:+ x.
Proof.
  intros Hne. unfold abs_of. rewrite join_snoc. destruct segs; [done|].
  by rewrite !app_assoc.
Qed.

End PathNormal.

Module NameFacts.
Import StringFacts PathFacts.

Lemma has_char_app (c : ascii) (a b : string) :
  has_char c (a +:+ b) = has_char c a || has_char c b.
Proof.
  induction a as [|x a IH]; [done|]. rewrite app_cons. cbn [has_char].
  by rewrite IH, orb_assoc.
Qed.

Lemma substring_no_char (c : ascii) (s : string) (n m : nat) :
  has_char c s = false -> has_char c (substring n m s) = false.
Proof.
  revert n m. induction s as [|x s IH]; intros n m Hs; [by destruct n, m|].
  cbn [has_char] in Hs. apply orb_false_elim in Hs as [Hx Hs].
  destruct n as [|n]; cbn [substring]; [|by apply IH].
  destruct m as [|m]; [done|]. cbn [has_char]. by rewrite Hx, IH.
Qed.

Lemma last_component_no_sep (p : string) :
  has_char "/" (NodePath.last_component p) = false.
Proof.
  unfold NodePath.last_component.
  pose proof (PathNormal.split_no_sep_inside "/" p) as Hall.
  induction Hall as [|x l Hx _ IH]; [done|]. cbn [List.filter].
  destruct (NodePath.nonempty x); [|done].
  destruct (List.filter NodePath.nonempty l) eqn:Hl; [done|]. exact IH.
Qed.

Lemma split_ext_suffix (s stem e : string) :
  NodePath.split_ext s = Some (stem, e) ->
  s = stem +:+ e /\ exists e', e = String "." e'.
Proof.
  revert stem e. induction s as [|c s IH]; intros stem e; cbn [NodePath.split_ext]; [done|].
  destruct (NodePath.split_ext s) as [[stem' e']|].
  - intros [= <- <-]. destruct (IH stem' e' eq_refl) as [-> He]. by rewrite app_cons.
  - destruct (Ascii.eqb_spec c "."); [|done]. intros [= <- <-]. subst c. eauto.
Qed.

Lemma length_toLowerCase (s : string) : String.length (toLowerCase s) = String.length s.
Proof. induction s as [|c s IH]; [done|]. cbn. by rewrite IH. Qed.

(** The base name the handler asks for, with the lower-cased extension
    of the same path as the suffix, holds no separator: the extension
    is shorter than the component it was cut from. *)
Lemma basename_no_sep (p : string) :
  has_char "/" (NodePath.basename p (toLowerCase (NodePath.extname p))) = false.
Proof.
  unfold NodePath.basename.
  destruct (truthy _ && _)%bool eqn:Hcheck; [|apply last_component_no_sep].
  destruct (String.eqb _ p); [done|].
  destruct (endsWith (NodePath.last_component p) _ && _)%bool;
    [apply substring_no_char, last_component_no_sep|].
  destruct (endsWith _ (NodePath.last_component p) && _)%bool eqn:Hshort;
    [|apply last_component_no_sep].
  exfalso. apply andb_prop in Hcheck as [Htruthy _], Hshort as [Hends _].
  apply endsWith_inv in Hends as [q Hq]. apply (f_equal String.length) in Hq.
  rewrite length_app, length_toLowerCase in Hq.
  unfold NodePath.extname in Htruthy, Hq.
  destruct (NodePath.split_ext (NodePath.last_component p)) as [[stem e]|] eqn:Hsplit;
    [|done].
  apply split_ext_suffix in Hsplit as [Hc _].
  destruct stem as [|x stem]; [done|]. cbn [truthy negb orb] in Htruthy, Hq.
  destruct (String.eqb _ ".."); [done|].
  rewrite Hc, length_app in Hq. cbn in Hq. lia.
Qed.

Lemma pretty_N_go_no_sep (x : N) (s : string) :
  has_char "/" s = false -> has_char "/" (pretty_N_go x s) = false.
Proof.
  revert s. induction (N.lt_wf_0 x) as [x _ IH]; intros s Hs.
  assert (x = 0 \/ 0 < x)%N as [->|Hpos] by lia; [by rewrite pretty_N_go_0|].
  rewrite pretty_N_go_step by done. apply IH; [by apply N.div_lt|].
  cbn [has_char]. rewrite Hs. unfold pretty_N_char. by repeat case_match.
Qed.

Lemma pretty_N_no_sep (x : N) : has_char "/" (pretty x) = false.
Proof.
  unfold pretty, pretty_N. destruct (decide (x = 0%N)); [done|].
  by apply pretty_N_go_no_sep.
Qed.

End NameFacts.

(** ** Further properties: from the answer to the download *)

Section Served.
Context `{Env}.
Hypothesis Habs : NodePath.isAbsolute dirname = true.

Import StringFacts PathFacts PathNormal NameFacts.

Lemma plain_converted : plain_segment "converted".
Proof. split; [done|cbn; lia]. Qed.

Lemma plain_uploads : plain_segment "uploads".
Proof. split; [done|cbn; lia]. Qed.

Lemma clean_snoc (segs : list string) (x : string) :
  Forall clean_segment segs -> plain_segment x -> Forall clean_segment (segs ++ [x]).
Proof.
  intros Hsegs Hx. apply Forall_app. split; [done|]. constructor; [|done].
  by apply plain_clean.
Qed.

Lemma OUT_DIR_form :
  OUT_DIR = abs_of (NodePath.norm_segs false (split "/" dirname) ++ ["converted"]).
Proof. apply join_abs; [done|apply plain_converted]. Qed.

Lemma UPLOAD_DIR_form :
  UPLOAD_DIR = abs_of (NodePath.norm_segs false (split "/" dirname) ++ ["uploads"]).
Proof. apply join_abs; [done|apply plain_uploads]. Qed.

Lemma out_segs_clean :
  Forall clean_segment (NodePath.norm_segs false (split "/" dirname) ++ ["converted"]).
Proof. apply clean_snoc; [apply norm_segs_clean|apply plain_converted]. Qed.

(** The path of a plain name in the output folder is the same for
    [path.join] and [path.resolve]. *)
Lemma out_file_form (x : string) :
  plain_segment x ->
  NodePath.join_path [OUT_DIR; x]
  = abs_of ((NodePath.norm_segs false (split "/" dirname) ++ ["converted"]) ++ [x])
  /\ NodePath.resolve cwd [OUT_DIR; x] = NodePath.join_path [OUT_DIR; x].
Proof.
  intros Hx.
  assert (Habs' : NodePath.isAbsolute OUT_DIR = true).
  { rewrite OUT_DIR_form. apply isAbsolute_abs_of. }
  rewrite (join_abs OUT_DIR x Habs' Hx), (resolve_abs cwd OUT_DIR x Habs' Hx).
  split; [|done]. rewrite OUT_DIR_form at 1. by rewrite norm_abs_of by apply out_segs_clean.
Qed.

(** A path inside the upload folder is the path of no plain name in
    the output folder. *)
Lemma upload_not_output (q x : string) :
  inside UPLOAD_DIR q -> plain_segment x -> q <> NodePath.join_path [OUT_DIR; x].
Proof.
  intros [rest Hq] Hx ->. destruct (out_file_form x Hx) as [Hform _].
  rewrite Hform, UPLOAD_DIR_form in Hq.
  rewrite !segments_abs_of in Hq;
    [|apply clean_snoc; [apply norm_segs_clean|apply plain_uploads]
     |apply clean_snoc; [apply out_segs_clean|done]].
  rewrite <- !List.app_assoc in Hq. apply app_inv_head in Hq. discriminate Hq.
Qed.

(** The download of a plain name: the file at its path in the output
    folder is sent when it is there, and the disk is not touched. *)
Lemma download_plain (id name : string) (w : World) :
  plain_segment (id +:+ "-" +:+ name) ->
  let p := NodePath.join_path [OUT_DIR; id +:+ "-" +:+ name] in
  exists w',
    download id name w
    = (match fs w !! p with
       | Some _ => Ok {| status := 200; body := SendFile p name |}
       | None =>
           if directory p then Throw (EISDIR p)
           else Ok {| status := 404; body := SendText "Not found" |}
       end, w')
    /\ fs w' = fs w /\ history w' = history w.
Proof.
  intros Hx p. destruct (out_file_form _ Hx) as [Hform Hres].
  unfold download. rewrite Hres. fold p.
  assert (Hbase : NodePath.resolve cwd [OUT_DIR] = OUT_DIR).
  { rewrite resolve_abs_dir by (rewrite OUT_DIR_form; apply isAbsolute_abs_of).
    rewrite OUT_DIR_form at 1. rewrite norm_abs_of by apply out_segs_clean.
    by rewrite OUT_DIR_form. }
  rewrite Hbase.
  assert (startsWith p (OUT_DIR +:+ NodePath.sep) = true) as ->.
  { unfold p. rewrite Hform, OUT_DIR_form, abs_of_snoc.
    - apply startsWith_app.
    - by destruct (NodePath.norm_segs false (split "/" dirname)). }
  cbn [negb andb]. cbv iota. unfold existsSync. run_m.
  destruct (fs w !! p) as [c|] eqn:Hp.
  - rewrite bool_decide_eq_true_2 by eauto. cbn. rewrite Hp. eexists. by split.
  - rewrite bool_decide_eq_false_2 by (by intros [? ?]). cbn.
    destruct (directory p); cbn; [rewrite Hp|]; eexists; by split.
Qed.

Lemma plain_link_name (id name : string) :
  has_char "/" id = false -> has_char "/" name = false ->
  (2 <= String.length name)%nat ->
  plain_segment (id +:+ "-" +:+ name).
Proof.
  intros Hid Hname Hlen. split.
  - rewrite !has_char_app, Hid, Hname. done.
  - rewrite !length_app. cbn. lia.
Qed.

Lemma out_name_plain (target : string) (uploaded : UploadedFile) :
  target = "txt" \/ target = "docx" ->
  has_char "/" (out_name target uploaded) = false
  /\ (2 <= String.length (out_name target uploaded))%nat.
Proof.
  intros Ht. unfold out_name, base_of. split.
  - rewrite !has_char_app, basename_no_sep. by destruct Ht as [-> | ->].
  - rewrite !length_app. destruct Ht as [-> | ->]; cbn; lia.
Qed.

Lemma zip_name_plain (t0 : N) :
  has_char "/" ("converted-" +:+ pretty t0 +:+ ".zip") = false
  /\ (2 <= String.length ("converted-" +:+ pretty t0 +:+ ".zip"))%nat.
Proof.
  split.
  - by rewrite !has_char_app, pretty_N_no_sep.
  - rewrite !length_app. cbn. lia.
Qed.

End Served.

Section Links.
Context `{Env}.

Import StringFacts PathFacts PathNormal NameFacts.

(** X8. The link of a successful answer leads to the converted
    output. Let the folder of the server be absolute, the drawn ids
    hold no separator and the uploads lie inside the upload folder.
    When the handler answers 200, its loop has ended with one or more
    converted outputs, the answer is the link of the recorded entry,
    and a download with the id and the name of that link answers 200
    and sends the file kept for the entry, leaving the disk as it is.
    That file holds the one output as the loop wrote it or, for
    several, the archive of the outputs in their order. *)
Theorem returned_link_downloads
    (req_target : option string) (files : list UploadedFile) (w w' : World)
    (resp : Response) :
  NodePath.isAbsolute dirname = true ->
  ids_plain w ->
  Forall (fun f => inside UPLOAD_DIR (path f)) files ->
  convert req_target files w = (Ok resp, w') ->
  status resp = 200 ->
  exists entry outputs w1 content w'',
    loop_of req_target files w = (Ok outputs, w1)
    /\ body resp = JsonUrl (link_of entry)
    /\ fs w' !! served_path entry = Some content
    /\ packaged outputs w1 content
    /\ download (h_id entry) (h_name entry) w' = (Ok (sends entry), w'')
    /\ fs w'' = fs w'.
Proof.
  intros Habs [Hid1 Hid2] Huploads Hconv Hstatus.
  assert (Hne : files <> []).
  { intros ->. injection Hconv as <- _. discriminate Hstatus. }
  unfold loop_of.
  destruct (for_of _ files [] w) as [[outputs|e0] w1] eqn:Hloop;
    [|rewrite (convert_after_loop_world _ _ _ _ _ Hne Hloop) in Hconv;
      injection Hconv as <- _; discriminate Hstatus].
  rewrite (convert_after_loop_world _ _ _ _ _ Hne Hloop) in Hconv.
  pose proof (loop_items _ _ _ _ _ _ Hloop) as (_ & Hd & _ & _ & more & Hmore & Hitems).
  cbn [app] in Hmore. subst more.
  assert (Hkept : forall x w2,
            plain_segment x ->
            fs (cleanup_uploads files w2).2 !! NodePath.join_path [OUT_DIR; x]
            = fs w2 !! NodePath.join_path [OUT_DIR; x]).
  { intros x w2 Hx. destruct (cleanup_uploads_world files w2) as (_ & _ & _ & Hdisk).
    apply Hdisk. unfold unlinked. intros (f & Hpath & Hin)%in_map_iff.
    apply filter_In in Hin as [Hin _]. rewrite Forall_forall in Huploads.
    apply (upload_not_output Habs (path f) x); [|done|done].
    apply Huploads. by apply list_elem_of_In. }
  assert (Hsend : forall entry w' content,
            plain_segment (h_id entry +:+ "-" +:+ h_name entry) ->
            fs w' !! served_path entry = Some content ->
            exists w'', download (h_id entry) (h_name entry) w' = (Ok (sends entry), w'')
                        /\ fs w'' = fs w').
  { intros entry w0 content Hx Hdisk.
    destruct (download_plain Habs (h_id entry) (h_name entry) w0 Hx)
      as (w'' & Hrun & Hfs & _).
    exists w''. split; [|done]. rewrite Hrun. unfold served_path in Hdisk.
    by rewrite Hdisk. }
  unfold packaged.
  destruct (okItems_of outputs) as [|[p n] [|i2 rest]] eqn:Hshape.
  - unfold respond in Hconv. rewrite Hshape in Hconv. cbn in Hconv.
    injection Hconv as <- _. discriminate Hstatus.
  - destruct (Hitems (p, n)) as [[c Hc] (f & _ & [= -> ->] & Ht)]; [by left|].
    destruct (respond_one (target_of req_target) outputs w1 _ _ c Hshape Hc)
      as (w2 & Hresp).
    rewrite Hd in *. cbn [h_id] in Hresp.
    destruct (rename_rejects _ _) as [e|].
    { destruct Hresp as [Hresp _]. rewrite Hresp in Hconv.
      injection Hconv as <- _. discriminate Hstatus. }
    destruct Hresp as (Hresp & _ & Hfs2). rewrite Hresp in Hconv.
    injection Hconv as <- <-.
    set (entry := {| h_id := nanoid 10 (draws w); h_name := _ |}) in *.
    destruct (out_name_plain (target_of req_target) f Ht) as [Hn1 Hn2].
    assert (Hx : plain_segment (h_id entry +:+ "-" +:+ h_name entry)).
    { by apply plain_link_name. }
    assert (Hdisk : fs (cleanup_uploads files w2).2 !! served_path entry = Some c).
    { unfold served_path. rewrite Hkept by done. rewrite Hfs2. apply lookup_insert_eq. }
    destruct (Hsend entry _ c Hx Hdisk) as (w'' & Hrun & Hfs).
    exists entry, outputs, w1, c, w''. rewrite Hshape.
    split; [done|]. split; [done|]. split; [done|]. split; [exact Hc|]. by split.
  - destruct (respond_many (target_of req_target) outputs w1)
      as (entries & w2 & Hentries & Hresp).
    { rewrite Hshape. cbn [length]. lia. }
    { rewrite Hshape. intros item Hin. destruct (Hitems item Hin) as [Hdisk Hof].
      split; [done|]. by eapply item_not_archive. }
    rewrite Hd in *. cbn [h_id] in Hresp.
    destruct (rename_rejects _ _) as [e|].
    { destruct Hresp as [Hresp _]. rewrite Hresp in Hconv.
      injection Hconv as <- _. discriminate Hstatus. }
    destruct Hresp as (Hresp & _ & Hzip & _). rewrite Hresp in Hconv.
    injection Hconv as <- <-.
    set (entry := {| h_id := nanoid 10 (S (draws w)); h_name := _ |}) in *.
    destruct (zip_name_plain (now (draws w))) as [Hn1 Hn2].
    assert (Hx : plain_segment (h_id entry +:+ "-" +:+ h_name entry)).
    { by apply plain_link_name. }
    assert (Hdisk : fs (cleanup_uploads files w2).2 !! served_path entry
                    = Some (zip entries)).
    { unfold served_path. rewrite Hkept by done. exact Hzip. }
    destruct (Hsend entry _ _ Hx Hdisk) as (w'' & Hrun & Hfs).
    exists entry, outputs, w1, (zip entries), w''.
    rewrite Hshape in Hentries |- *. split; [done|]. split; [done|]. split; [done|].
    split; [|done]. by exists entries.
Qed.

End Links.

Section Leftovers.
Context `{Env}.

(** The loop leaves alone the paths that are the path of none of the
    items it adds. *)
Lemma loop_frame_items
    (target : string) (files : list UploadedFile) (outputs more : list Output)
    (w w' : World) (q : string) :
  for_of (convert_file target) files outputs w = (Ok (outputs ++ more), w') ->
  (forall item, In item (okItems_of more) -> item.1 <> q) ->
  fs w' !! q = fs w !! q.
Proof.
  revert outputs more w. induction files as [|f files IH]; intros outputs more w Hrun Hq.
  - by injection Hrun as _ <-.
  - rewrite for_of_cons in Hrun.
    destruct (convert_file target f outputs w) as [[outs1|e] w1] eqn:Hturn; [|done].
    apply turn_items in Hturn as (_ & _ & _ & new & -> & Hnew).
    pose proof Hrun as Hrest.
    apply loop_items in Hrest as (_ & _ & _ & _ & more' & Heq & _).
    rewrite <- List.app_assoc in Heq. apply app_inv_head in Heq. subst more.
    rewrite List.app_assoc in Hrun.
    rewrite (IH _ _ _ Hrun).
    + destruct Hnew as [(m & _ & _ & ->) | (Hitem & _ & b & ->)]; [done|].
      apply lookup_insert_ne. apply (Hq (out_path target f, out_name target f)).
      rewrite okItems_of_app, Hitem. by left.
    + intros item Hin. apply Hq. rewrite okItems_of_app. apply in_app_iff. by right.
Qed.

(** X9. A success leaves one file and no more. When the handler
    answers 200, its loop has ended with one or more converted
    outputs, the answer is the link of the recorded entry, and apart
    from the file kept for that entry the disk is the disk of before
    the request without the uploads and without the paths the
    packaging went through: the outputs of the loop, which are
    renamed or zipped and removed, and the archive under its first
    name. *)
Theorem success_leaves_one_file
    (req_target : option string) (files : list UploadedFile) (w w' : World)
    (resp : Response) :
  convert req_target files w = (Ok resp, w') ->
  status resp = 200 ->
  exists entry outputs w1,
    loop_of req_target files w = (Ok outputs, w1)
    /\ body resp = JsonUrl (link_of entry)
    /\ forall q,
         q <> served_path entry ->
         fs w' !! q
         = if bool_decide (q ∈ unlinked files ++ intermediate_paths (okItems_of outputs) w)
           then None else fs w !! q.
Proof.
  intros Hconv Hstatus.
  assert (Hne : files <> []).
  { intros ->. injection Hconv as <- _. discriminate Hstatus. }
  unfold loop_of.
  destruct (for_of _ files [] w) as [[outputs|e0] w1] eqn:Hloop;
    [|rewrite (convert_after_loop_world _ _ _ _ _ Hne Hloop) in Hconv;
      injection Hconv as <- _; discriminate Hstatus].
  rewrite (convert_after_loop_world _ _ _ _ _ Hne Hloop) in Hconv.
  pose proof (loop_items _ _ _ _ _ _ Hloop) as (_ & Hd & _ & _ & more & Hmore & Hitems).
  cbn [app] in Hmore. subst more.
  assert (Hframe : forall q, ~ In q (List.map fst (okItems_of outputs)) ->
                     fs w1 !! q = fs w !! q).
  { intros q Hq. apply (loop_frame_items _ _ [] outputs _ _ _ Hloop).
    intros item Hin <-. apply Hq. by apply in_map. }
  assert (Hfinal : forall w2 q (l : list string),
            fs w2 !! q = (if bool_decide (q ∈ l) then None else fs w !! q) ->
            fs (cleanup_uploads files w2).2 !! q
            = if bool_decide (q ∈ unlinked files ++ l) then None else fs w !! q).
  { intros w2 q l Hq. destruct (cleanup_uploads_world files w2) as (_ & _ & _ & Hdisk).
    destruct (Hdisk q) as [Hin Hout]. rewrite <- list_elem_of_In in Hin, Hout.
    destruct (decide (q ∈ unlinked files)) as [Hup|Hup].
    - rewrite Hin by done. rewrite bool_decide_eq_true_2; [done|].
      apply elem_of_app. by left.
    - rewrite Hout, Hq by done. destruct (decide (q ∈ l)) as [Hl|Hl].
      + rewrite (bool_decide_eq_true_2 _ Hl). rewrite bool_decide_eq_true_2; [done|].
        apply elem_of_app. by right.
      + rewrite (bool_decide_eq_false_2 _ Hl). rewrite bool_decide_eq_false_2; [done|].
        rewrite elem_of_app. tauto. }
  destruct (okItems_of outputs) as [|[p n] [|i2 rest]] eqn:Hshape.
  - unfold respond in Hconv. rewrite Hshape in Hconv. cbn in Hconv.
    injection Hconv as <- _. discriminate Hstatus.
  - destruct (Hitems (p, n)) as [[c Hc] _]; [by left|].
    destruct (respond_one (target_of req_target) outputs w1 _ _ c Hshape Hc)
      as (w2 & Hresp).
    rewrite Hd in *. cbn [h_id] in Hresp.
    destruct (rename_rejects _ _) as [e|].
    { destruct Hresp as [Hresp _]. rewrite Hresp in Hconv.
      injection Hconv as <- _. discriminate Hstatus. }
    destruct Hresp as (Hresp & _ & Hfs2). rewrite Hresp in Hconv.
    injection Hconv as <- <-.
    eexists _, outputs, w1. rewrite Hshape. split; [done|]. split; [done|].
    intros q Hq. apply Hfinal.
    rewrite Hfs2. unfold served_path in Hq. cbn [h_id h_name] in Hq.
    rewrite lookup_insert_ne by done. cbn [intermediate_paths List.map fst].
    case_bool_decide as Hin.
    + apply list_elem_of_singleton in Hin as ->. apply lookup_delete_eq.
    + rewrite lookup_delete_ne by (intros ->; apply Hin; by left).
      apply Hframe. cbn. intros [->|[]]. apply Hin. by left.
  - destruct (respond_many (target_of req_target) outputs w1)
      as (entries & w2 & _ & Hresp).
    { rewrite Hshape. cbn [length]. lia. }
    { rewrite Hshape. intros item Hin. destruct (Hitems item Hin) as [Hdisk Hof].
      split; [done|]. by eapply item_not_archive. }
    rewrite Hd in *. cbn [h_id] in Hresp.
    destruct (rename_rejects _ _) as [e|].
    { destruct Hresp as [Hresp _]. rewrite Hresp in Hconv.
      injection Hconv as <- _. discriminate Hstatus. }
    destruct Hresp as (Hresp & _ & _ & Hrest). rewrite Hresp in Hconv.
    injection Hconv as <- <-. rewrite Hshape in Hrest.
    eexists _, outputs, w1. rewrite Hshape. split; [done|]. split; [done|].
    intros q Hq. apply Hfinal.
    rewrite (Hrest q Hq). unfold intermediate_paths. case_bool_decide as Hin; [done|].
    apply Hframe. intros Hin'. apply Hin. right. by apply list_elem_of_In.
Qed.

(** X10. A failure in the loop cleans nothing but the uploads. When a
    turn throws after earlier files were converted, the handler
    answers 500 and leaves the history as it was, and every output
    written before the throw is still on disk after the request,
    with its bytes, unless its path is that of an upload. *)
Theorem thrown_batch_keeps_outputs
    (req_target : option string) (pre post : list UploadedFile) (f : UploadedFile)
    (w w0 w1 : World) (outs : list Output) (e : Exn) :
  for_of (convert_file (target_of req_target)) pre [] w = (Ok outs, w0) ->
  convert_file (target_of req_target) f outs w0 = (Throw e, w1) ->
  exists w',
    convert req_target (pre ++ f :: post) w
    = (Ok (json_error 500 "Conversion failed"), w')
    /\ history w' = history w
    /\ forall item,
         In item (okItems_of outs) ->
         ~ In item.1 (unlinked (pre ++ f :: post)) ->
         is_Some (fs w0 !! item.1) /\ fs w' !! item.1 = fs w0 !! item.1.
Proof.
  intros Hpre Hthrow.
  assert (Hloop : for_of (convert_file (target_of req_target)) (pre ++ f :: post) [] w
                  = (Throw e, w1)).
  { by rewrite for_of_app, Hpre, for_of_cons, Hthrow. }
  assert (Hne : pre ++ f :: post <> []) by (by destruct pre).
  pose proof (convert_after_loop_world _ _ _ _ _ Hne Hloop) as Hconv. cbv iota in Hconv.
  pose proof (loop_keeps_history _ _ _ _ _ _ Hloop) as [Hh _].
  pose proof (loop_items _ _ _ _ _ _ Hpre) as (_ & _ & _ & _ & more & Hmore & Hitems).
  cbn [app] in Hmore. subst more.
  apply convert_file_cases in Hthrow as (_ & _ & _ & Hturn).
  assert (Hfs : fs w1 = fs w0).
  { destruct Hturn as [(e' & _ & Hfs) | [(m & [=] & _) | (? & ? & _ & [=] & _)]]. done. }
  destruct (cleanup_uploads_world (pre ++ f :: post) w1) as (_ & Hhist & _ & Hdisk).
  eexists. split; [exact Hconv|]. split; [congruence|].
  intros item Hin Hup. destruct (Hitems item Hin) as [Hsome _]. split; [done|].
  destruct (Hdisk item.1) as [_ Hout]. rewrite Hout by done. by rewrite Hfs.
Qed.

End Leftovers.

Section Order.
Context `{Env}.

(** The items of the loop are those of the files it converted, in the
    order of the files. *)
Lemma loop_converted
    (target : string) (files : list UploadedFile) (outputs outputs' : list Output)
    (w w' : World) :
  for_of (convert_file target) files outputs w = (Ok outputs', w') ->
  exists converted,
    sublist converted files
    /\ okItems_of outputs'
       = okItems_of outputs
         ++ List.map (fun f => (out_path target f, out_name target f)) converted.
Proof.
  revert outputs w. induction files as [|f files IH]; intros outputs w Hrun.
  - injection Hrun as <- _. exists []. split; [constructor|by rewrite app_nil_r].
  - rewrite for_of_cons in Hrun.
    destruct (convert_file target f outputs w) as [[outs1|e] w1] eqn:Hturn; [|done].
    apply turn_items in Hturn as (_ & _ & _ & new & -> & Hnew).
    apply IH in Hrun as (converted & Hsub & ->). rewrite okItems_of_app.
    destruct Hnew as [(m & -> & _) | (-> & _)].
    + exists converted. split; [by constructor|]. by rewrite app_nil_r.
    + exists (f :: converted). split; [by constructor|]. by rewrite <- app_assoc.
Qed.

(** X11. The converted outputs follow the order of the upload: when
    the loop ends, the items it hands to the packaging, which the
    archive lists in this order, are the outputs of the files that
    were converted, each file giving one item, in the order the
    files came in. *)
Theorem items_follow_upload_order
    (req_target : option string) (files : list UploadedFile) (w w1 : World)
    (outputs : list Output) :
  loop_of req_target files w = (Ok outputs, w1) ->
  exists converted,
    sublist converted files
    /\ okItems_of outputs
       = List.map (fun f => (out_path (target_of req_target) f,
                              out_name (target_of req_target) f)) converted.
Proof.
  intros Hloop. by apply loop_converted in Hloop as (converted & Hsub & ->); eauto.
Qed.

End Order.

(** ** Further properties: the sweeper *)

Section Sweeps.
Context `{Env}.
Variable view : DirView.

(** What the sweep decides for an entry. *)
Lemma sweep_entry_run (now : N) (dir : string) (ttlMs : Q) (name : string) (w : World) :
  let p := NodePath.join_path [dir; name] in
  sweep_entry view now dir ttlMs name w =
    (Ok tt,
     if match stat view p with Some st => expired_stat now ttlMs st | None => false end
     then set_fs (delete p) (emit (EvUnlink p) w)
     else w).
Proof.
  intros p. unfold sweep_entry. fold p. destruct (stat view p) as [st|]; [|done].
  destruct (expired_stat now ttlMs st); [|done].
  run_m. destruct (fs w !! p) eqn:Hp; cbn; [done|].
  unfold set_fs, emit. cbn. by rewrite delete_id.
Qed.

Lemma expired_stat_spec (now : N) (ttlMs : Q) (st : Stat) :
  expired_stat now ttlMs st = true
  <-> isFile st = true /\ (ttlMs < inject_Z (Z.of_N now) - mtimeMs st)%Q.
Proof.
  unfold expired_stat. rewrite andb_true_iff, negb_true_iff.
  rewrite <- not_true_iff_false, Qle_bool_iff. split.
  - intros [? Hlt]. split; [done|]. by apply Qnot_le_lt.
  - intros [? Hlt]. split; [done|]. by apply Qlt_not_le.
Qed.

Lemma sweep_entries (now : N) (dir : string) (ttlMs : Q) (entries : list string)
    (w : World) :
  exists us w',
    promise_all (sweep_entry view now dir ttlMs) entries w = (Ok us, w')
    /\ history w' = history w
    /\ forall q,
         ((exists name st,
             In name entries /\ q = NodePath.join_path [dir; name]
             /\ stat view q = Some st /\ expired_stat now ttlMs st = true)
          -> fs w' !! q = None)
         /\ (~ (exists name st,
                  In name entries /\ q = NodePath.join_path [dir; name]
                  /\ stat view q = Some st /\ expired_stat now ttlMs st = true)
             -> fs w' !! q = fs w !! q).
Proof.
  revert w. induction entries as [|name entries IH]; intros w.
  - exists [], w. split; [done|]. split; [done|]. intros q. split; [|done].
    by intros (? & ? & [] & _).
  - cbn [promise_all]. unfold bind at 1. rewrite sweep_entry_run.
    set (p := NodePath.join_path [dir; name]).
    set (w1 := if match stat view p with
                  | Some st => expired_stat now ttlMs st
                  | None => false
                  end
               then set_fs (delete p) (emit (EvUnlink p) w) else w).
    destruct (IH w1) as (us & w' & Hrun & Hh & Hfs).
    exists (tt :: us), w'. unfold bind at 1. rewrite Hrun.
    split; [done|]. split.
    { rewrite Hh. unfold w1. by repeat case_match. }
    intros q. destruct (Hfs q) as [Hin Hout]. split.
    + intros (name' & st & [<-|Hname] & Hq & Hst & Hexp).
      * destruct (classic_In q (List.map (fun n => NodePath.join_path [dir; n]) entries))
          as [Hlater|Hlater].
        -- apply in_map_iff in Hlater as (n2 & Hn2 & Hin2). apply Hin. by exists n2, st.
        -- rewrite Hout.
           ++ unfold w1. fold p in Hq. subst q. rewrite Hst, Hexp. cbn.
              apply lookup_delete_eq.
           ++ intros (n2 & _ & Hin2 & -> & _). apply Hlater.
              by apply (in_map (fun n => NodePath.join_path [dir; n])).
      * apply Hin. by exists name', st.
    + intros Hno. rewrite Hout.
      * unfold w1. destruct (stat view p) as [st|] eqn:Hst; [|done].
        destruct (expired_stat now ttlMs st) eqn:Hexp; [|done]. cbn.
        apply lookup_delete_ne. intros <-. apply Hno. exists name, st.
        split; [by left|done].
      * intros (n2 & st & Hin2 & Hrest). apply Hno. exists n2, st. split; [by right|done].
Qed.

(** X12. A sweep of a directory never fails and removes exactly the
    expired files: after it, the paths of the listed entries that are
    regular files older than the TTL at the one clock reading of the
    sweep are gone, and every other path holds what it held; an
    entry that cannot be inspected, or a directory that cannot be
    listed, changes nothing. The history is not touched. *)
Theorem sweep_removes_expired_only (dir : string) (ttlMs : Q) (w : World) :
  exists w',
    cleanupOldFiles view dir ttlMs w = (Ok tt, w')
    /\ history w' = history w
    /\ forall q,
         (swept view (now (draws w)) dir ttlMs q -> fs w' !! q = None)
         /\ (~ swept view (now (draws w)) dir ttlMs q -> fs w' !! q = fs w !! q).
Proof.
  unfold cleanupOldFiles, swept. destruct (readdir view dir) as [entries|] eqn:Hdir.
  - destruct (sweep_entries (now (draws w)) dir ttlMs entries (drawn w))
      as (us & w' & Hrun & Hh & Hfs).
    exists w'. unfold try_catch, date_now. unfold bind at 1. unfold bind at 1.
    rewrite Hrun. split; [done|]. split; [done|].
    intros q. destruct (Hfs q) as [Hin Hout]. split.
    + intros (entries' & name & st & [= <-] & Hname & Hq & Hst & Hfile & Hold).
      apply Hin. exists name, st. by rewrite expired_stat_spec.
    + intros Hno. rewrite Hout; [done|].
      intros (name & st & Hname & Hq & Hst & Hexp). apply Hno.
      apply expired_stat_spec in Hexp as [Hfile Hold]. by exists entries, name, st.
  - exists w. split; [done|]. split; [done|]. intros q. split; [|done].
    by intros (? & ? & ? & [=] & _).
Qed.

End Sweeps.

(** ** Further properties: downloads and missing uploads *)

Section Downloads.
Context `{Env}.

(** X13. A download only reads. Whatever the id and the name, the
    handler leaves the disk and the history as they are. It answers
    400, 404 or 200, and with 200 it sends, under the name asked
    for, a file that is on disk at a path inside the output folder;
    or it sends no answer at all, its run ending with [EISDIR]: that
    is when the path, inside the output folder, is a directory and
    no file. *)
Theorem download_only_reads (id name : string) (w : World) :
  exists r w',
    download id name w = (r, w')
    /\ fs w' = fs w /\ history w' = history w
    /\ match r with
       | Ok resp =>
           (status resp = 400 \/ status resp = 404 \/ status resp = 200)
           /\ (status resp = 200 ->
               exists p,
                 body resp = SendFile p name
                 /\ is_Some (fs w !! p)
                 /\ inside (NodePath.resolve cwd [OUT_DIR]) p)
       | Throw e =>
           exists p,
             e = EISDIR p
             /\ fs w !! p = None
             /\ directory p = true
             /\ inside (NodePath.resolve cwd [OUT_DIR]) p
       end.
Proof.
  unfold download.
  set (safeBase := NodePath.resolve cwd [OUT_DIR]).
  set (candidate := NodePath.resolve cwd [OUT_DIR; id +:+ "-" +:+ name]).
  destruct (negb (startsWith candidate (safeBase +:+ NodePath.sep))
            && negb (String.eqb candidate safeBase)) eqn:Hcheck.
  { eexists _, _. split; [done|]. cbn. repeat split; auto. discriminate. }
  assert (Hin : inside safeBase candidate).
  { apply accepted_inside. apply andb_false_iff in Hcheck as [Hs | He].
    - left. by apply negb_false_iff in Hs.
    - right. apply negb_false_iff in He. by apply String.eqb_eq in He. }
  unfold existsSync. run_m. destruct (fs w !! candidate) as [c|] eqn:Hc.
  - rewrite bool_decide_eq_true_2 by eauto. cbn. rewrite Hc.
    eexists _, _. split; [done|]. cbn.
    repeat split; auto. intros _. exists candidate. rewrite Hc. eauto.
  - rewrite bool_decide_eq_false_2 by (by intros [? ?]). cbn.
    destruct (directory candidate) eqn:Hdir; cbn; [rewrite Hc|].
    + eexists _, _. split; [done|]. cbn. repeat split; auto. by exists candidate.
    + eexists _, _. split; [done|]. cbn. repeat split; auto. discriminate.
Qed.

(** X14. What a sweep removed can no longer be downloaded. Let the
    folder of the server be absolute and the file of a link, a plain
    name in the output folder, be on disk and be listed there as a
    regular file, no directory, older than the TTL. Before the sweep
    a download with the id and the name of the link sends that file;
    the sweep of the output folder removes it and nothing else that
    it does not find expired; after it the same download answers
    404. *)
Theorem swept_link_is_gone
    (view : DirView) (ttlMs : Q) (id name : string) (content : bytes) (w : World) :
  let p := NodePath.join_path [OUT_DIR; id +:+ "-" +:+ name] in
  NodePath.isAbsolute dirname = true ->
  plain_segment (id +:+ "-" +:+ name) ->
  fs w !! p = Some content ->
  directory p = false ->
  swept view (now (draws w)) OUT_DIR ttlMs p ->
  exists w0 w' w'',
    download id name w = (Ok {| status := 200; body := SendFile p name |}, w0)
    /\ cleanupOldFiles view OUT_DIR ttlMs w = (Ok tt, w')
    /\ fs w' !! p = None
    /\ download id name w'
       = (Ok {| status := 404; body := SendText "Not found" |}, w'').
Proof.
  intros p Habs Hplain Hthere Hnodir
    (entries & listed & st & Hdir & Hlisted & Hq & Hst & Hfile & Hold).
  destruct (sweep_entries view (now (draws w)) OUT_DIR ttlMs entries (drawn w))
    as (us & w' & Hrun & _ & Hfs).
  destruct (Hfs p) as [Hgone _].
  assert (Hp : fs w' !! p = None).
  { apply Hgone. exists listed, st. rewrite expired_stat_spec. done. }
  destruct (download_plain Habs id name w Hplain) as (w0 & Hbefore & _).
  destruct (download_plain Habs id name w' Hplain) as (w'' & Hdown & _).
  fold p in Hbefore, Hdown. rewrite Hthere in Hbefore. rewrite Hp, Hnodir in Hdown.
  exists w0, w', w''. split; [done|]. split; [|done].
  unfold cleanupOldFiles. rewrite Hdir. unfold try_catch, date_now.
  unfold bind at 1. unfold bind at 1. by rewrite Hrun.
Qed.

(** X15. An upload that is no longer on disk is handled by kind, for
    the targets [txt] and [docx]: a [.txt] is recorded as "Not a text
    file" and a [.pdf] as "Invalid PDF file", the checks taking a
    failed read for a negative answer, while a [.docx] passes its
    check, the type detection finding nothing, and makes the turn
    throw when the extraction fails to read it. In the three cases
    nothing is written. *)
Theorem missing_upload_by_kind
    (target : string) (uploaded : UploadedFile) (outputs : list Output) (w : World) :
  target = "txt" \/ target = "docx" ->
  fs w !! path uploaded = None ->
  (ext_of uploaded = ".txt" ->
   exists w',
     convert_file target uploaded outputs w
     = (Ok (outputs ++ [Failure ("Not a text file: " +:+ originalname uploaded)]), w')
     /\ fs w' = fs w)
  /\ (ext_of uploaded = ".pdf" ->
      exists w',
        convert_file target uploaded outputs w
        = (Ok (outputs ++ [Failure ("Invalid PDF file: " +:+ originalname uploaded)]), w')
        /\ fs w' = fs w)
  /\ (ext_of uploaded = ".docx" ->
      exists w',
        convert_file target uploaded outputs w = (Throw (ENOENT (path uploaded)), w')
        /\ fs w' = fs w).
Proof.
  intros Ht Hgone. unfold ext_of, convert_file.
  repeat split; intros ->; unfold bind at 1; rewrite precheck_run, Hgone; cbn.
  - eexists. by split.
  - destruct Ht as [-> | ->]; run_file; rewrite Hgone; cbn; eexists; by split.
  - destruct Ht as [-> | ->]; run_file; rewrite Hgone; cbn; eexists; by split.
Qed.

End Downloads.

(** ** Further properties: the kinds of upload *)

Lemma includes_In (l : list string) (x : string) : includes l x = true <-> In x l.
Proof.
  unfold includes. rewrite existsb_exists. split.
  - by intros (y & Hin & ->%String.eqb_eq).
  - intros Hin. exists x. by rewrite String.eqb_refl.
Qed.

Section Kinds.
Context `{Env}.

(** X16. Behind the filter every failure is a diagnosis of the file
    or of the target: for an upload whose name the filter of multer
    lets through, a turn of the loop that does not throw records at
    most the messages of the checks, of the PDF signature and text,
    of the images or of the target, never "Unsupported source", the
    branch of the loop for other kinds being out of reach. *)
Theorem filtered_upload_is_handled
    (target : string) (uploaded : UploadedFile) (outputs outputs' : list Output)
    (w w' : World) :
  fileFilter (originalname uploaded) = true ->
  convert_file target uploaded outputs w = (Ok outputs', w') ->
  exists new,
    outputs' = outputs ++ new
    /\ forall m, In (Failure m) new -> handled_failure uploaded target m.
Proof.
  intros Hfilter Hrun. unfold fileFilter in Hfilter. apply includes_In in Hfilter.
  unfold handled_failure. revert Hrun. unfold convert_file.
  set (ext := toLowerCase (NodePath.extname (originalname uploaded))) in *.
  set (base := NodePath.basename (originalname uploaded) ext).
  clearbody base.
  assert (Hext : ext = ".pdf" \/ ext = ".docx" \/ ext = ".txt" \/ isImageExt ext = true).
  { unfold isImageExt. rewrite includes_In.
    destruct Hfilter as [<-|[<-|[<-|Hrest]]]; auto. }
  clearbody ext.
  destruct (String.eqb target "txt") eqn:Ht;
    [|destruct (String.eqb target "docx") eqn:Hd].
  all: destruct Hext as [-> | [-> | [-> | Himg]]].
  all: run_file; rewrite ?Ht, ?Hd, ?Himg; cbn; intros Hrun.
  all: destruct_run Hrun.
  all: try discriminate Hrun.
  all: injection Hrun as <- <-.
  all: first
    [ exists []; split; [by rewrite app_nil_r|]; by intros m []
    | eexists [_]; split; [reflexivity|];
      intros m [[= <-]|[]]; tauto
    | eexists [_; _]; split; [by rewrite <- app_assoc|];
      intros m [[= <-]|[[=]|[]]]; tauto
    | eexists [_]; split; [reflexivity|]; by intros m [[=]|[]] ].
Qed.

End Kinds.

(** ** Further properties: names *)

Module NamingFacts.
Import StringFacts PathFacts PathNormal NameFacts.

Lemma last_component_plain (name : string) :
  has_char "/" name = false -> NodePath.last_component name = name.
Proof.
  intros Hsep. unfold NodePath.last_component. rewrite split_no_sep by done.
  cbn [List.filter]. by destruct name.
Qed.

(** The name of a file with an extension: a non-empty stem, then the
    extension. *)
Lemma extname_inv (name : string) :
  has_char "/" name = false ->
  NodePath.extname name <> "" ->
  exists stem, name = stem +:+ NodePath.extname name /\ stem <> "".
Proof.
  intros Hsep. unfold NodePath.extname. rewrite last_component_plain by done.
  destruct (NodePath.split_ext name) as [[stem e]|] eqn:Hsplit; [|done].
  apply split_ext_suffix in Hsplit as [Hname _].
  destruct stem as [|c stem]; [done|]. cbn [truthy negb orb].
  destruct (String.eqb name ".."); [done|]. intros _. by exists (String c stem).
Qed.

Lemma extname_no_sep (p : string) : has_char "/" (NodePath.extname p) = false.
Proof.
  unfold NodePath.extname.
  destruct (NodePath.split_ext (NodePath.last_component p)) as [[stem e]|] eqn:Hsplit;
    [|done].
  destruct (negb (truthy stem) || String.eqb _ "..")%bool; [done|].
  apply split_ext_suffix in Hsplit as [Hc _].
  pose proof (last_component_no_sep p) as Hno. rewrite Hc, has_char_app in Hno.
  by apply orb_false_elim in Hno as [_ ?].
Qed.

Lemma app_inv_length (a c b d : string) :
  String.length b = String.length d -> a +:+ b = c +:+ d -> a = c /\ b = d.
Proof.
  intros Hlen. revert c. induction a as [|x a IH]; intros [|y c] Heq.
  - done.
  - apply (f_equal String.length) in Heq. change ("" +:+ b) with b in Heq.
    rewrite length_app in Heq. cbn in Heq. lia.
  - apply (f_equal String.length) in Heq. change ("" +:+ d) with d in Heq.
    rewrite length_app in Heq. cbn in Heq. lia.
  - rewrite !app_cons in Heq. injection Heq as -> Heq.
    by destruct (IH c Heq) as [-> ->].
Qed.

Lemma substring_stem (stem e : string) :
  substring 0 (String.length (stem +:+ e) - String.length e) (stem +:+ e) = stem.
Proof.
  rewrite length_app.
  replace (String.length stem + String.length e - String.length e)%nat
    with (String.length stem) by lia.
  induction stem as [|c stem IH]; [by destruct e|].
  rewrite app_cons. cbn. by rewrite IH.
Qed.

Lemma pretty_N_go_length (x : N) (s : string) :
  (String.length s <= String.length (pretty_N_go x s))%nat.
Proof.
  revert s. induction (N.lt_wf_0 x) as [x _ IH]; intros s.
  assert (x = 0 \/ 0 < x)%N as [->|Hpos] by lia; [by rewrite pretty_N_go_0|].
  rewrite pretty_N_go_step by done.
  etrans; [|apply IH; by apply N.div_lt]. cbn. lia.
Qed.

Lemma pretty_N_length (x : N) : (1 <= String.length (pretty x))%nat.
Proof.
  unfold pretty, pretty_N. destruct (decide (x = 0%N)); [done|].
  rewrite pretty_N_go_step by lia. etrans; [|apply pretty_N_go_length]. done.
Qed.

End NamingFacts.

Section Naming.
Context `{Env}.

Import StringFacts PathFacts PathNormal NameFacts NamingFacts.

(** X17. How the output is named, for an upload whose name holds no
    separator. The extension is cut off only when it is written in
    lower case: a name without extension, or with an extension that
    has an upper-case letter, is kept whole before the new extension
    (REPORT.PDF gives REPORT.PDF.txt), because the handler asks for
    the base name without the lower-cased extension. *)
Theorem output_name_rule (target : string) (uploaded : UploadedFile) :
  let name := originalname uploaded in
  let e := NodePath.extname name in
  has_char "/" name = false ->
  (e <> "" -> toLowerCase e = e ->
   exists stem, name = stem +:+ e /\ out_name target uploaded = stem +:+ "." +:+ target)
  /\ (e = "" \/ toLowerCase e <> e ->
      out_name target uploaded = name +:+ "." +:+ target).
Proof.
  intros name e Hsep. unfold out_name, base_of, ext_of. fold name e. split.
  - intros He Hlow. destruct (extname_inv name Hsep He) as (stem & Hname & Hstem).
    fold e in Hname. exists stem. split; [done|]. f_equal. rewrite Hlow.
    unfold NodePath.basename. rewrite last_component_plain by done.
    assert (truthy e = true) as -> by (by destruct e).
    assert ((String.length e <=? String.length name)%nat = true) as ->.
    { apply Nat.leb_le. rewrite Hname, length_app. lia. }
    cbn [andb].
    assert (String.eqb e name = false) as ->.
    { apply String.eqb_neq. intros Heq. apply (f_equal String.length) in Heq.
      rewrite Hname, length_app in Heq. destruct stem; [done|cbn in Heq; lia]. }
    assert (endsWith name e = true) as -> by (rewrite Hname; apply endsWith_app).
    assert (String.eqb name e = false) as ->.
    { apply String.eqb_neq. intros Heq. apply (f_equal String.length) in Heq.
      rewrite Hname, length_app in Heq. destruct stem; [done|cbn in Heq; lia]. }
    cbn [andb negb]. rewrite Hname. apply substring_stem.
  - intros He. f_equal. unfold NodePath.basename. rewrite last_component_plain by done.
    destruct He as [He | Hup].
    + by rewrite He.
    + assert (He : e <> "") by (intros He; apply Hup; by rewrite He).
      destruct (extname_inv name Hsep He) as (stem & Hname & Hstem). fold e in Hname.
      destruct (truthy (toLowerCase e) && _)%bool; [|done].
      assert (String.eqb (toLowerCase e) name = false) as ->.
      { apply String.eqb_neq. intros Heq. apply (f_equal String.length) in Heq.
        rewrite length_toLowerCase, Hname, length_app in Heq.
        destruct stem; [done|cbn in Heq; lia]. }
      assert (endsWith name (toLowerCase e) = false) as ->.
      { apply not_true_is_false. intros [q Hq]%endsWith_inv. apply Hup.
        rewrite Hname in Hq. apply app_inv_length in Hq as [_ Hq]; [done|].
        by rewrite length_toLowerCase. }
      assert (endsWith (toLowerCase e) name = false) as ->; [|done].
      apply not_true_is_false. intros [q Hq]%endsWith_inv.
      apply (f_equal String.length) in Hq.
      rewrite length_app, length_toLowerCase, Hname, length_app in Hq.
      destruct stem; [done|cbn in Hq; lia].
Qed.

(** X18. An upload is stored directly in the upload folder, under a
    name of the server's making, whatever its original name: when
    the folder of the server is absolute and the drawn id is not
    empty and holds no separator, the path of the stored file is the
    upload folder followed by one segment, the stored name. *)
Theorem upload_stays_in_folder (t : N) (id originalname : string) :
  NodePath.isAbsolute dirname = true ->
  has_char "/" id = false ->
  id <> "" ->
  segments (upload_path t id originalname)
  = segments UPLOAD_DIR ++ [stored_filename t id originalname].
Proof.
  intros Habs Hid Hne. unfold upload_path.
  assert (Hplain : plain_segment (stored_filename t id originalname)).
  { unfold stored_filename. rewrite or_else_empty. split.
    - by rewrite !has_char_app, pretty_N_no_sep, Hid, extname_no_sep.
    - rewrite !length_app. pose proof (pretty_N_length t).
      destruct id; [done|]. cbn. lia. }
  assert (Hup : Forall clean_segment
                  (NodePath.norm_segs false (split "/" dirname) ++ ["uploads"])).
  { apply clean_snoc; [apply norm_segs_clean|apply plain_uploads]. }
  rewrite join_abs by (rewrite ?(UPLOAD_DIR_form Habs); done || apply isAbsolute_abs_of).
  rewrite (UPLOAD_DIR_form Habs), norm_abs_of by done.
  rewrite !segments_abs_of; [done|done|by apply clean_snoc].
Qed.

End Naming.

(** ** Further properties: the check of the page and the filter *)

Module FilterFacts.
Import StringFacts PathFacts PathNormal NameFacts NamingFacts.

Lemma toLowerCase_app (a b : string) :
  toLowerCase (a +:+ b) = toLowerCase a +:+ toLowerCase b.
Proof.
  induction a as [|c a IH]; [done|]. rewrite app_cons. cbn [toLowerCase].
  by rewrite IH, app_cons.
Qed.

Lemma lower_char_dot (c : ascii) : Ascii.eqb (lower_char c) "." = Ascii.eqb c ".".
Proof. by destruct c as [[] [] [] [] [] [] [] []]. Qed.

Lemma has_dot_toLowerCase (s : string) :
  has_char "." (toLowerCase s) = has_char "." s.
Proof.
  induction s as [|c s IH]; [done|]. cbn [toLowerCase has_char].
  by rewrite IH, lower_char_dot.
Qed.

(** A string with a dot, cut at its last dot. *)
Lemma last_dot (s : string) :
  has_char "." s = true ->
  exists stem x, s = stem +:+ String "." x /\ has_char "." x = false.
Proof.
  induction s as [|c s IH]; [done|]. cbn [has_char].
  destruct (has_char "." s) eqn:Hs.
  - intros _. destruct (IH eq_refl) as (stem & x & -> & Hx).
    exists (String c stem), x. by rewrite app_cons.
  - rewrite orb_false_r. intros ->%Ascii.eqb_eq. by exists "", s.
Qed.

Lemma split_last (c : ascii) (stem x : string) :
  has_char c x = false -> List.last (split c (stem +:+ String c x)) "" = x.
Proof.
  intros Hx. rewrite split_app_sep, (split_no_sep c x Hx). apply last_last.
Qed.

End FilterFacts.

Section PageCheck.

Import StringFacts PathFacts PathNormal NameFacts NamingFacts FilterFacts.

(** The extension the page reads off a name with a dot. *)
Lemma client_ext_dot (stem x : string) :
  has_char "." x = false ->
  client_ext (stem +:+ String "." x) = toLowerCase x.
Proof.
  intros Hx. unfold client_ext. rewrite has_dot_toLowerCase, has_char_app.
  cbn [has_char]. rewrite Ascii.eqb_refl, orb_true_r.
  rewrite toLowerCase_app. cbn [toLowerCase].
  change (lower_char ".") with "."%char.
  apply split_last. by rewrite has_dot_toLowerCase.
Qed.

(** X19. The check of the page and the filter of the server, on a
    name without separator. A name that the server takes and whose
    extension is not one of the images passes the check of the page;
    a name that passes the check of the page is taken by the server
    unless it is a dot followed by the extension alone (as [.pdf]),
    which the server reads as a name without extension. *)
Theorem page_check_and_filter (name : string) :
  has_char "/" name = false ->
  (fileFilter name = true ->
   isImageExt (toLowerCase (NodePath.extname name)) = false ->
   client_allows name = true)
  /\ (client_allows name = true ->
      fileFilter name = true
      \/ exists x, name = String "." x /\ has_char "." x = false).
Proof.
  intros Hsep. split.
  - intros Hfilter Himg. unfold fileFilter in Hfilter.
    assert (He : NodePath.extname name <> "").
    { intros He. by rewrite He in Hfilter. }
    destruct (extname_inv name Hsep He) as (stem & Hname & _).
    revert Hfilter Himg Hname. unfold NodePath.extname.
    rewrite last_component_plain by done.
    destruct (NodePath.split_ext name) as [[stem' e]|] eqn:Hsplit; [|done].
    destruct (negb (truthy stem') || String.eqb name "..")%bool; [done|].
    intros Hfilter Himg Hname.
    assert (Hlast : exists x, e = String "." x /\ has_char "." x = false).
    { clear -Hsplit. revert stem' e Hsplit.
      induction name as [|c s IH]; intros stem e; cbn [NodePath.split_ext]; [done|].
      destruct (NodePath.split_ext s) as [[stem1 e1]|] eqn:Hs.
      - intros [= <- <-]. by apply (IH stem1).
      - destruct (Ascii.eqb_spec c "."); [|done]. intros [= <- <-]. subst c.
        exists s. split; [done|]. clear IH. induction s as [|d s IH]; [done|].
        cbn [NodePath.split_ext] in Hs. cbn [has_char].
        destruct (NodePath.split_ext s) as [[? ?]|]; [done|].
        destruct (Ascii.eqb d "."); [done|]. by rewrite IH. }
    destruct Hlast as (x & -> & Hx).
    unfold client_allows. rewrite Hname, client_ext_dot by done.
    cbn [toLowerCase] in Hfilter, Himg. change (lower_char ".") with "."%char in *.
    unfold isImageExt in Himg. apply includes_In in Hfilter.
    apply includes_In.
    destruct Hfilter as [Hf|[Hf|[Hf|Hrest]]];
      [injection Hf as <-; by left
      |injection Hf as <-; right; by left
      |injection Hf as <-; right; right; by left|].
    exfalso. apply includes_In in Hrest. by rewrite Hrest in Himg.
  - unfold client_allows. intros Hallow.
    destruct (has_char "." name) eqn:Hdot.
    + destruct (last_dot name Hdot) as (stem & x & Hname & Hx).
      rewrite Hname, client_ext_dot in Hallow by done.
      destruct stem as [|c stem].
      { right. by exists x. }
      left. unfold fileFilter, NodePath.extname.
      rewrite last_component_plain by done. rewrite Hname at 1.
      rewrite split_ext_app by done. cbn [truthy negb orb].
      assert (String.eqb name ".." = false) as ->.
      { apply String.eqb_neq. intros Heq. rewrite Heq in Hname.
        rewrite app_cons in Hname. injection Hname as <- Hname.
        destruct stem as [|d stem]; [|rewrite app_cons in Hname; injection Hname as _ Hname;
          by destruct stem].
        injection Hname as <-. done. }
      cbn [toLowerCase]. change (lower_char ".") with "."%char.
      apply includes_In in Hallow. apply includes_In.
      destruct Hallow as [<-|[<-|[<-|[]]]]; cbn; auto.
    + unfold client_ext in Hallow. by rewrite has_dot_toLowerCase, Hdot in Hallow.
Qed.

End PageCheck.

(** ** The further statements at concrete inputs *)

(** A [.txt] upload with a null byte, under a target the handler does
    not know: the message is that of the check for text. *)
Lemma unknown_target_converts_nothing_witness :
  exists w',
    @convert Sample.env (Some "ODT") [Cases.blob] Cases.shelf
    = (Ok (json_error 422
             (@refusal Sample.env (target_of (Some "ODT")) Cases.blob Cases.shelf)), w')
    /\ history w' = history Cases.shelf
    /\ forall q,
         fs w' !! q = if bool_decide (q ∈ unlinked [Cases.blob]) then None
                      else fs Cases.shelf !! q.
Proof.
  apply (@unknown_target_converts_nothing Sample.env (Some "ODT") Cases.blob []
           Cases.shelf); vm_compute; discriminate.
Defined.

(** The three refusals under the target [odt]: a [.txt] with a null
    byte, a [.docx] whose content has the type of a PDF, and a PDF. *)
Example refusal_by_check :
  @refusal Sample.env "odt" Cases.blob Cases.shelf = "Not a text file: blob.txt"
  /\ @refusal Sample.env "odt" (Sample.upload "paper.docx" "7-g.pdf") Cases.shelf
     = "Not a DOCX file: paper.docx"
  /\ @refusal Sample.env "odt" Cases.paper Cases.shelf = "Unsupported target: odt"
  /\ @refusal Sample.env "odt" Cases.notes Cases.shelf = "Unsupported target: odt".
Proof. vm_compute. done. Qed.

(** The same upload alone in a batch for [txt]. *)
Lemma refused_batch_leaves_no_output_witness :
  history Cases.refused = history Cases.shelf
  /\ forall q,
       fs Cases.refused !! q
       = if bool_decide (q ∈ unlinked [Cases.blob]) then None else fs Cases.shelf !! q.
Proof.
  apply (@refused_batch_leaves_no_output Sample.env None [Cases.blob] Cases.shelf
           Cases.refused (json_error 422 "Not a text file: blob.txt")).
  - unfold Cases.refused. apply run_eq. vm_compute. reflexivity.
  - reflexivity.
Defined.

(** A text and a PDF that both convert: the link leads to their
    archive. *)
Lemma returned_link_downloads_witness :
  exists entry outputs w1 content w'',
    @loop_of Sample.env None [Cases.notes; Cases.paper] Cases.shelf = (Ok outputs, w1)
    /\ body (json_url "/download/id1/converted-1700000000000.zip")
       = JsonUrl (@link_of Sample.env entry)
    /\ fs Cases.archived !! @served_path Sample.env entry = Some content
    /\ @packaged Sample.env outputs w1 content
    /\ @download Sample.env (h_id entry) (h_name entry) Cases.archived
       = (Ok (@sends Sample.env entry), w'')
    /\ fs w'' = fs Cases.archived.
Proof.
  apply (@returned_link_downloads Sample.env None [Cases.notes; Cases.paper] Cases.shelf
           Cases.archived (json_url "/download/id1/converted-1700000000000.zip")).
  - reflexivity.
  - split; vm_compute; reflexivity.
  - repeat constructor.
    + exists ["6-f.txt"]. vm_compute. reflexivity.
    + exists ["7-g.pdf"]. vm_compute. reflexivity.
  - unfold Cases.archived. apply run_eq. vm_compute. reflexivity.
  - reflexivity.
Defined.

(** The same batch: what is left of it on disk. *)
Lemma success_leaves_one_file_witness :
  exists entry outputs w1,
    @loop_of Sample.env None [Cases.notes; Cases.paper] Cases.shelf = (Ok outputs, w1)
    /\ body (json_url "/download/id1/converted-1700000000000.zip")
       = JsonUrl (@link_of Sample.env entry)
    /\ forall q,
         q <> @served_path Sample.env entry ->
         fs Cases.archived !! q
         = if bool_decide
                (q ∈ unlinked [Cases.notes; Cases.paper]
                     ++ @intermediate_paths Sample.env (okItems_of outputs) Cases.shelf)
           then None else fs Cases.shelf !! q.
Proof.
  apply (@success_leaves_one_file Sample.env None [Cases.notes; Cases.paper] Cases.shelf
           Cases.archived (json_url "/download/id1/converted-1700000000000.zip")).
  - unfold Cases.archived. apply run_eq. vm_compute. reflexivity.
  - reflexivity.
Defined.

(** A refused upload between the two: the items are those of the
    first and of the third file. *)
Lemma items_follow_upload_order_witness :
  exists converted,
    sublist converted [Cases.notes; Cases.blob; Cases.paper]
    /\ okItems_of [Cases.notes_item; Failure "Not a text file: blob.txt"; Cases.paper_item]
       = List.map (fun f => (@out_path Sample.env (target_of (Some "TXT")) f,
                              out_name (target_of (Some "TXT")) f)) converted.
Proof.
  apply (@items_follow_upload_order Sample.env (Some "TXT")
           [Cases.notes; Cases.blob; Cases.paper] Cases.shelf
           (@loop_of Sample.env (Some "TXT") [Cases.notes; Cases.blob; Cases.paper]
              Cases.shelf).2).
  apply run_eq. vm_compute. reflexivity.
Defined.

(** A text that converts, then a [.docx] that mammoth rejects. *)
Lemma thrown_batch_keeps_outputs_witness :
  exists w',
    @convert Sample.env None ([Cases.notes] ++ Cases.broken :: []) Cases.shelf
    = (Ok (json_error 500 "Conversion failed"), w')
    /\ history w' = history Cases.shelf
    /\ forall item,
         In item (okItems_of [Cases.notes_item]) ->
         ~ In item.1 (unlinked ([Cases.notes] ++ Cases.broken :: [])) ->
         is_Some (fs Cases.after_notes !! item.1)
         /\ fs w' !! item.1 = fs Cases.after_notes !! item.1.
Proof.
  apply (@thrown_batch_keeps_outputs Sample.env None [Cases.notes] [] Cases.broken
           Cases.shelf Cases.after_notes Cases.after_broken [Cases.notes_item]
           (LibraryError "mammoth")).
  - unfold Cases.after_notes. vm_compute. reflexivity.
  - unfold Cases.after_broken. vm_compute. reflexivity.
Defined.

(** The output of a first request, kept on disk under its link and
    old enough for the default TTL of 30 minutes. *)
Lemma swept_link_is_gone_witness :
  exists w0 w' w'',
    @download Sample.env "id0" "notes.txt" Cases.served
    = (Ok {| status := 200;
             body := SendFile (NodePath.join_path
                                 [@OUT_DIR Sample.env; "id0" +:+ "-" +:+ "notes.txt"])
                       "notes.txt" |}, w0)
    /\ @cleanupOldFiles Sample.env Cases.listing (@OUT_DIR Sample.env) (TTL_MS 30) Cases.served
       = (Ok tt, w')
    /\ fs w' !! NodePath.join_path [@OUT_DIR Sample.env; "id0" +:+ "-" +:+ "notes.txt"] = None
    /\ @download Sample.env "id0" "notes.txt" w'
       = (Ok {| status := 404; body := SendText "Not found" |}, w'').
Proof.
  apply (@swept_link_is_gone Sample.env Cases.listing (TTL_MS 30) "id0" "notes.txt"
           (list_byte_of_string "hello") Cases.served).
  - reflexivity.
  - split; [reflexivity|vm_compute; lia].
  - vm_compute. reflexivity.
  - reflexivity.
  - exists ["id0-notes.txt"], "id0-notes.txt", Cases.old_file.
    split; [reflexivity|]. split; [by left|]. split; [reflexivity|].
    split; [reflexivity|]. split; [reflexivity|]. vm_compute. reflexivity.
Defined.

(** A download whose name leads back to the output folder itself: the
    folder exists, so no 404, and [res.download] has no file to send. *)
Example download_of_the_folder :
  (@download Sample.env "x" "y/.." Cases.shelf).1 = Throw (EISDIR "/srv/app/converted").
Proof. vm_compute. reflexivity. Qed.

(** Two uploads that have disappeared before their turn. *)
Lemma missing_upload_by_kind_witness :
  (exists w',
     @convert_file Sample.env "txt" Cases.lost [] Cases.shelf
     = (Ok ([] ++ [Failure ("Not a text file: " +:+ originalname Cases.lost)]), w')
     /\ fs w' = fs Cases.shelf)
  /\ (exists w',
        @convert_file Sample.env "docx" Cases.gone [] Cases.shelf
        = (Throw (ENOENT (path Cases.gone)), w')
        /\ fs w' = fs Cases.shelf).
Proof.
  split.
  - apply (proj1 (@missing_upload_by_kind Sample.env "txt" Cases.lost [] Cases.shelf
                    (or_introl eq_refl) eq_refl)).
    reflexivity.
  - apply (proj2 (proj2 (@missing_upload_by_kind Sample.env "docx" Cases.gone []
                           Cases.shelf (or_intror eq_refl) eq_refl))).
    reflexivity.
Defined.

(** A [.txt] upload the filter lets through and the check refuses. *)
Lemma filtered_upload_is_handled_witness :
  exists new,
    [Failure "Not a text file: blob.txt"] = [] ++ new
    /\ forall m, In (Failure m) new -> handled_failure Cases.blob "txt" m.
Proof.
  apply (@filtered_upload_is_handled Sample.env "txt" Cases.blob []
           [Failure "Not a text file: blob.txt"] Cases.shelf
           (@convert_file Sample.env "txt" Cases.blob [] Cases.shelf).2).
  - reflexivity.
  - apply run_eq. vm_compute. reflexivity.
Defined.

(** A name in upper case, and a name in lower case. *)
Lemma output_name_rule_witness :
  out_name "txt" Cases.shouted = "REPORT.PDF.txt"
  /\ exists stem, "notes.txt" = stem +:+ ".txt" /\ out_name "docx" Cases.notes = stem +:+ ".docx".
Proof.
  split.
  - apply (proj2 (output_name_rule "txt" Cases.shouted eq_refl)).
    right. vm_compute. discriminate.
  - apply (proj1 (output_name_rule "docx" Cases.notes eq_refl)).
    + vm_compute. discriminate.
    + reflexivity.
Defined.

(** A name that tries to leave the folder. *)
Lemma upload_stays_in_folder_witness :
  @segments (@upload_path Sample.env 1700000000000 "V1StGXR8" "../../etc/passwd.txt")
  = ["srv"; "app"; "uploads"; "1700000000000-V1StGXR8.txt"].
Proof.
  apply (@upload_stays_in_folder Sample.env 1700000000000 "V1StGXR8" "../../etc/passwd.txt").
  - reflexivity.
  - reflexivity.
  - discriminate.
Defined.

(** A name in upper case, and the bare extension. *)
Lemma page_check_and_filter_witness :
  client_allows "Thesis.PDF" = true
  /\ (fileFilter ".pdf" = true
      \/ exists x, ".pdf" = String "." x /\ has_char "." x = false).
Proof.
  split.
  - apply (proj1 (page_check_and_filter "Thesis.PDF" eq_refl)); reflexivity.
  - apply (proj2 (page_check_and_filter ".pdf" eq_refl)). reflexivity.
Defined.
